(** * finan-02: the dashboard aggregation of the finance front end

    A shallow embedding of
      - [src/pages/Dashboard.tsx]            (module [Pages]: the month/year selector variant),
      - the dashboard stored in [src/lib/supabase.ts] (module [Legacy]: the current-month variant),
      - [src/components/layout/UserProfile.tsx]       (module [Profile]).

    JavaScript numbers are IEEE 754 binary64 values: they are modelled by Rocq's
    primitive floats, whose operations are the processor's. *)

From Stdlib Require Import ZArith List String Ascii Bool Lia Floats Sorted.
Import ListNotations.

Local Open Scope string_scope.
Local Open Scope Z_scope.

(** ** JavaScript values and coercions *)

Module Js.

(** [number] *)
Definition number := float.

Definition zero : number := PrimFloat.zero.

(** ToBoolean on a number: [+0], [-0] and [NaN] are falsy. *)
Definition truthyNum (x : number) : bool :=
  negb (PrimFloat.is_zero x || PrimFloat.is_nan x).

(** [x || 0] for a number [x]. *)
Definition orZero (x : number) : number :=
  if truthyNum x then x else zero.

(** [x || 0] for [x : number | null] (and for [undefined]): null is falsy. *)
Definition optOrZero (x : option number) : number :=
  match x with
  | Some v => orZero v
  | None => zero
  end.

(** The values a fetched JSON field can hold. *)
Inductive value : Type :=
| VUndefined
| VNull
| VBool (b : bool)
| VNum (x : number)
| VStr (s : string).

Section ToNumber.
(** StringToNumber of ECMA-262 (the numeric value of a string literal,
    [NaN] when the string is not one); the engine's own. *)
Variable StringToNumber : string -> number.

(** [Number(v)] *)
Definition Number (v : value) : number :=
  match v with
  | VUndefined => PrimFloat.nan
  | VNull => zero
  | VBool true => PrimFloat.one
  | VBool false => zero
  | VNum x => x
  | VStr s => StringToNumber s
  end.
End ToNumber.

(** [s || d] for strings: the empty string is falsy. *)
Definition strOr (s d : string) : string :=
  if String.eqb s "" then d else s.

(** [x === s] for [x : string | null] and a string literal [s]. *)
Definition strictEqStr (x : option string) (s : string) : bool :=
  match x with
  | Some y => String.eqb y s
  | None => false
  end.

(** [a?.length || 0] and [a || []] for an array that may be null. *)
Definition lengthOrZero {A} (a : option (list A)) : nat :=
  match a with
  | Some l => List.length l
  | None => 0%nat
  end.

Definition orEmpty {A} (a : option (list A)) : list A :=
  match a with
  | Some l => l
  | None => []
  end.

(** [l.reduce((sum, t) => sum + c(t), acc)] *)
Definition sumBy {A} (c : A -> number) (l : list A) (acc : number) : number :=
  fold_left (fun sum t => PrimFloat.add sum (c t)) l acc.

(** [a.slice(0, n)] *)
Definition slice0 {A} (n : nat) (a : list A) : list A := firstn n a.

(** [s.split(c)[0]]: the part of [s] before the first [c]. *)
Fixpoint splitHead (c : ascii) (s : string) : string :=
  match s with
  | EmptyString => ""
  | String a r => if Ascii.eqb a c then "" else String a (splitHead c r)
  end.

(** [s.slice(0, n)] *)
Definition strSlice0 (n : nat) (s : string) : string := String.substring 0 n s.

End Js.

(** ** Dates: the abstract operations of ECMA-262 (21.4.1) behind [Date]

    Time values are integers (milliseconds since the epoch, UTC); [None] is the
    [NaN] time value of an invalid date. *)

Module JsDate.

Definition msPerDay : Z := 86400000.
Definition msPerHour : Z := 3600000.
Definition msPerMinute : Z := 60000.
Definition msPerSecond : Z := 1000.

Definition Day (t : Z) : Z := t / msPerDay.
Definition TimeWithinDay (t : Z) : Z := t mod msPerDay.

Definition DaysInYear (y : Z) : Z :=
  if negb (y mod 4 =? 0) then 365
  else if negb (y mod 100 =? 0) then 366
  else if negb (y mod 400 =? 0) then 365
  else 366.

Definition DayFromYear (y : Z) : Z :=
  365 * (y - 1970) + (y - 1969) / 4 - (y - 1901) / 100 + (y - 1601) / 400.

(** The largest [y] with [DayFromYear y <= d]: the mean year length gives an
    estimate that is off by at most one ([YearFromDay_spec] below). *)
Definition YearFromDay (d : Z) : Z :=
  let y := 1970 + (400 * d) / 146097 in
  if d <? DayFromYear y then y - 1
  else if DayFromYear (y + 1) <=? d then y + 1
  else y.

Definition YearFromTime (t : Z) : Z := YearFromDay (Day t).
Definition DayWithinYear (t : Z) : Z := Day t - DayFromYear (YearFromTime t).
Definition InLeapYear (t : Z) : Z :=
  if DaysInYear (YearFromTime t) =? 366 then 1 else 0.

(** The number of days of the year before month [m] (0-based), [leap] being 0 or 1. *)
Definition monthStart (leap m : Z) : Z :=
  match m with
  | 0 => 0
  | 1 => 31
  | 2 => 59 + leap
  | 3 => 90 + leap
  | 4 => 120 + leap
  | 5 => 151 + leap
  | 6 => 181 + leap
  | 7 => 212 + leap
  | 8 => 243 + leap
  | 9 => 273 + leap
  | 10 => 304 + leap
  | 11 => 334 + leap
  | _ => 365 + leap
  end.

Definition MonthFromTime (t : Z) : Z :=
  let d := DayWithinYear t in
  let leap := InLeapYear t in
  if d <? 31 then 0
  else if d <? 59 + leap then 1
  else if d <? 90 + leap then 2
  else if d <? 120 + leap then 3
  else if d <? 151 + leap then 4
  else if d <? 181 + leap then 5
  else if d <? 212 + leap then 6
  else if d <? 243 + leap then 7
  else if d <? 273 + leap then 8
  else if d <? 304 + leap then 9
  else if d <? 334 + leap then 10
  else 11.

Definition DateFromTime (t : Z) : Z :=
  DayWithinYear t - monthStart (InLeapYear t) (MonthFromTime t) + 1.

Definition HourFromTime (t : Z) : Z := (t / msPerHour) mod 24.
Definition MinFromTime (t : Z) : Z := (t / msPerMinute) mod 60.
Definition SecFromTime (t : Z) : Z := (t / msPerSecond) mod 60.
Definition msFromTime (t : Z) : Z := t mod msPerSecond.

Definition MakeTime (hour min sec ms : Z) : Z :=
  hour * msPerHour + min * msPerMinute + sec * msPerSecond + ms.

(** [MakeDay]: the day number of the first of month [month mod 12] of year
    [year + floor(month / 12)], plus [date - 1]. *)
Definition MakeDay (year month date : Z) : Z :=
  let ym := year + month / 12 in
  let mn := month mod 12 in
  let leap := if DaysInYear ym =? 366 then 1 else 0 in
  DayFromYear ym + monthStart leap mn + date - 1.

Definition MakeDate (day time : Z) : Z := day * msPerDay + time.

Definition TimeClip (t : Z) : option Z :=
  if 8640000000000000 <? Z.abs t then None else Some t.

(** A [Date] object: its time value. *)
Definition Date := option Z.

Section Local.
(** [LocalTZA(t, false)]: the offset of local time from UTC, in
    milliseconds, at local time [t]; the host's time zone. *)
Variable LocalTZA : Z -> Z.

Definition UTC (t : Z) : Z := t - LocalTZA t.

(** [new Date(year, month, date, hours, minutes, seconds)] *)
Definition construct (year month date hours minutes seconds : Z) : Date :=
  let yr := if (0 <=? year) && (year <=? 99) then 1900 + year else year in
  let finalDate :=
    MakeDate (MakeDay yr month date) (MakeTime hours minutes seconds 0) in
  TimeClip (UTC finalDate).
End Local.

(** *** Date Time String Format *)

(** The character of a decimal digit. *)
Definition digit (n : Z) : ascii := ascii_of_N (Z.to_N (48 + n)).

(** The last [len] decimal digits of [n], most significant first. *)
Fixpoint padded (len : nat) (n : Z) : string :=
  match len with
  | O => ""
  | S k => String (digit ((n / 10 ^ Z.of_nat k) mod 10)) (padded k n)
  end.

Definition isoYear (y : Z) : string :=
  if (0 <=? y) && (y <=? 9999) then padded 4 y
  else (if y <? 0 then "-" else "+") ++ padded 6 (Z.abs y).

(** [YYYY-MM-DD] for year [y], month [m] (1-based) and day [d]. *)
Definition isoYMD (y m d : Z) : string :=
  isoYear y ++ "-" ++ padded 2 m ++ "-" ++ padded 2 d.

Definition isoDate (t : Z) : string :=
  isoYMD (YearFromTime t) (MonthFromTime t + 1) (DateFromTime t).

Definition isoTime (t : Z) : string :=
  padded 2 (HourFromTime t) ++ ":" ++ padded 2 (MinFromTime t) ++ ":"
    ++ padded 2 (SecFromTime t) ++ "." ++ padded 3 (msFromTime t).

Definition invalidTime : string := "Invalid time value".

(** [d.toISOString()]: the string, or the message of the [RangeError] thrown
    for an invalid date. *)
Definition toISOString (d : Date) : string + string :=
  match d with
  | Some t => inl (isoDate t ++ "T" ++ isoTime t ++ "Z")
  | None => inr invalidTime
  end.

End JsDate.

(** ** The remote data gateway (supabase-js): queries and responses *)

Module Gateway.

(** A thrown or returned error object, with its [message]. *)
Record Error := mkError { message : string }.

(** [.eq], [.gte], [.lte]; the value of [.eq] may be [undefined]. *)
Inductive Filter : Type :=
| FEq (col : string) (v : option string)
| FGte (col : string) (v : string)
| FLte (col : string) (v : string).

Record Query := mkQuery {
  table : string;
  columns : string;
  filters : list Filter;
  ordering : option (string * bool);
  rowLimit : option nat;
  single_ : bool
}.

(** The builder chain, read left to right with [|>]. *)
Definition from (t : string) : Query := mkQuery t "" [] None None false.
Definition select (c : string) (q : Query) : Query :=
  mkQuery (table q) c (filters q) (ordering q) (rowLimit q) (single_ q).
Definition addFilter (f : Filter) (q : Query) : Query :=
  mkQuery (table q) (columns q) (filters q ++ [f]) (ordering q) (rowLimit q) (single_ q).
Definition eq (c : string) (v : option string) : Query -> Query := addFilter (FEq c v).
Definition gte (c v : string) : Query -> Query := addFilter (FGte c v).
Definition lte (c v : string) : Query -> Query := addFilter (FLte c v).
Definition order (c : string) (ascending : bool) (q : Query) : Query :=
  mkQuery (table q) (columns q) (filters q) (Some (c, ascending)) (rowLimit q) (single_ q).
Definition limit (n : nat) (q : Query) : Query :=
  mkQuery (table q) (columns q) (filters q) (ordering q) (Some n) (single_ q).
Definition single (q : Query) : Query :=
  mkQuery (table q) (columns q) (filters q) (ordering q) (rowLimit q) true.

(** [{ data, error }] of a query for rows, and of a [.single()] query. *)
Record Response (A : Type) := mkResponse {
  data : option (list A);
  error : option Error
}.
Arguments mkResponse {A}.
Arguments data {A}.
Arguments error {A}.

Record SingleResponse (A : Type) := mkSingle {
  s_data : option A;
  s_error : option Error
}.
Arguments mkSingle {A}.
Arguments s_data {A}.
Arguments s_error {A}.

(** *** A gateway that honours the query *)

Section Execute.
Context {A : Type}.
(** The text of column [c] of a row, [None] for SQL [NULL]. *)
Variable column : string -> A -> option string.

Definition holds (f : Filter) (r : A) : bool :=
  match f with
  | FEq c (Some v) =>
      match column c r with Some x => String.eqb x v | None => false end
  | FEq c None => false
  | FGte c v =>
      match column c r with Some x => String.leb v x | None => false end
  | FLte c v =>
      match column c r with Some x => String.leb x v | None => false end
  end.

Definition holdsAll (fs : list Filter) (r : A) : bool :=
  forallb (fun f => holds f r) fs.

(** [a] may stand before [b] in the order [(c, ascending)]; [NULL] sorts as
    the largest value. *)
Definition before (c : string) (ascending : bool) (a b : A) : bool :=
  let le x y :=
    match x, y with
    | _, None => true
    | None, Some _ => false
    | Some u, Some v => String.leb u v
    end in
  if ascending then le (column c a) (column c b)
  else le (column c b) (column c a).

Fixpoint insertRow (c : string) (asc : bool) (r : A) (l : list A) : list A :=
  match l with
  | [] => [r]
  | x :: l' => if before c asc x r then x :: insertRow c asc r l' else r :: x :: l'
  end.

Definition sortRows (c : string) (asc : bool) (l : list A) : list A :=
  fold_right (insertRow c asc) [] l.

(** Modelled from the spec: the Remote Data Gateway of section 6 (the
    backend behind supabase-js, not part of the repository): equality and
    range filters on a field, ordering on a field, row-count limiting. *)
Definition execute (rows : list A) (q : Query) : list A :=
  let matching := filter (holdsAll (filters q)) rows in
  let sorted :=
    match ordering q with
    | Some (c, asc) => sortRows c asc matching
    | None => matching
    end in
  match rowLimit q with
  | Some n => firstn n sorted
  | None => sorted
  end.

Definition respond (rows : list A) (q : Query) : Response A :=
  mkResponse (Some (execute rows q)) None.
End Execute.

End Gateway.

Notation "x |> f" := (f x) (at level 45, left associativity, only parsing).

(** ** Asynchronous functions

    An [async] function body is a tree of synchronous actions and [await]s of
    gateway queries; it ends by returning or by throwing. *)

Module Async.

Section Task.
(** Synchronous actions, and the responses of the two kinds of query. *)
Variables Act RT RL : Type.

Inductive Task (R : Type) : Type :=
| Ret (r : R)
| Throw (e : Gateway.Error)
| Do (a : Act) (k : Task R)
| AwaitT (q : Gateway.Query) (k : RT -> Task R)
| AwaitL (q : Gateway.Query) (k : RL -> Task R).
Arguments Ret {R}.
Arguments Throw {R}.
Arguments Do {R}.
Arguments AwaitT {R}.
Arguments AwaitL {R}.

Fixpoint bind {A B : Type} (t : Task A) (f : A -> Task B) : Task B :=
  match t with
  | Ret r => f r
  | Throw e => Throw e
  | Do a k => Do a (bind k f)
  | AwaitT q k => AwaitT q (fun r => bind (k r) f)
  | AwaitL q k => AwaitL q (fun r => bind (k r) f)
  end.

(** [try { t } catch (e) { h e }] *)
Fixpoint tryCatch {A : Type} (t : Task A) (h : Gateway.Error -> Task A) : Task A :=
  match t with
  | Ret r => Ret r
  | Throw e => h e
  | Do a k => Do a (tryCatch k h)
  | AwaitT q k => AwaitT q (fun r => tryCatch (k r) h)
  | AwaitL q k => AwaitL q (fun r => tryCatch (k r) h)
  end.

(** [try { t } finally { f }] *)
Fixpoint finally {A : Type} (t : Task A) (f : Task unit) : Task A :=
  match t with
  | Ret r => bind f (fun _ => Ret r)
  | Throw e => bind f (fun _ => Throw e)
  | Do a k => Do a (finally k f)
  | AwaitT q k => AwaitT q (fun r => finally (k r) f)
  | AwaitL q k => AwaitL q (fun r => finally (k r) f)
  end.

(** A value, or the exception a built-in throws. *)
Definition orThrow {A : Type} (x : A + string) : Task A :=
  match x with
  | inl a => Ret a
  | inr msg => Throw (Gateway.mkError msg)
  end.

(** *** Running a task *)

(** Where a started task stands: settled, or suspended at an [await]. *)
Inductive Status (R : Type) : Type :=
| Fulfilled (r : R)
| Rejected (e : Gateway.Error)
| OnT (q : Gateway.Query) (k : RT -> Task R)
| OnL (q : Gateway.Query) (k : RL -> Task R).
Arguments Fulfilled {R}.
Arguments Rejected {R}.
Arguments OnT {R}.
Arguments OnL {R}.

Section Run.
Variable W : Type.
(** The effect of an action on the world. *)
Variable act : Act -> W -> W.

(** Runs [t] up to its next [await]. *)
Fixpoint advance {R : Type} (t : Task R) (w : W) : W * Status R :=
  match t with
  | Ret r => (w, Fulfilled r)
  | Throw e => (w, Rejected e)
  | Do a k => advance k (act a w)
  | AwaitT q k => (w, OnT q k)
  | AwaitL q k => (w, OnL q k)
  end.

(** Runs [t] to its end against a gateway that answers at once; the
    queries issued are logged in order. *)
Variable answerT : Gateway.Query -> RT.
Variable answerL : Gateway.Query -> RL.

Fixpoint exec {R : Type} (t : Task R) (w : W) (issued : list Gateway.Query)
  : W * list Gateway.Query * (R + Gateway.Error) :=
  match t with
  | Ret r => (w, issued, inl r)
  | Throw e => (w, issued, inr e)
  | Do a k => exec k (act a w) issued
  | AwaitT q k => exec (k (answerT q)) w (issued ++ [q])
  | AwaitL q k => exec (k (answerL q)) w (issued ++ [q])
  end.
End Run.
End Task.

Arguments Ret {Act RT RL R}.
Arguments Throw {Act RT RL R}.
Arguments Do {Act RT RL R}.
Arguments AwaitT {Act RT RL R}.
Arguments AwaitL {Act RT RL R}.
Arguments bind {Act RT RL A B}.
Arguments tryCatch {Act RT RL A}.
Arguments finally {Act RT RL A}.
Arguments orThrow {Act RT RL A}.
Arguments Fulfilled {Act RT RL R}.
Arguments Rejected {Act RT RL R}.
Arguments OnT {Act RT RL R}.
Arguments OnL {Act RT RL R}.
Arguments advance {Act RT RL W} act {R}.
Arguments exec {Act RT RL W} act answerT answerL {R}.

End Async.

Declare Scope task_scope.
Delimit Scope task_scope with task.
Notation "x <- t ;; k" := (Async.bind t (fun x => k))
  (at level 61, t at next level, right associativity) : task_scope.
Notation "a ;;; k" := (Async.Do a k)
  (at level 61, right associativity) : task_scope.

(** ** The session provider ([useAuth]) and toasts *)

Module Auth.

Record User := mkUser { id : string }.

(** [user?.id] *)
Definition idOf (user : option User) : option string :=
  match user with
  | Some u => Some (id u)
  | None => None
  end.

(** [user?.id] when it is truthy: a non-empty string. *)
Definition truthyId (user : option User) : option string :=
  match user with
  | Some u => if String.eqb (id u) "" then None else Some (id u)
  | None => None
  end.

Definition hasId (user : option User) : bool :=
  match truthyId user with
  | Some _ => true
  | None => false
  end.

Definition optStrEqb (a b : option string) : bool :=
  match a, b with
  | Some x, Some y => String.eqb x y
  | None, None => true
  | _, _ => false
  end.

End Auth.

(** The argument of [toast]. *)
Record Toast := mkToast {
  title : string;
  description : string;
  variant : string
}.

(** [l] with its [i]-th element replaced by [x]. *)
Fixpoint replaceNth {A : Type} (i : nat) (x : A) (l : list A) : list A :=
  match l, i with
  | [], _ => []
  | _ :: l', O => x :: l'
  | y :: l', S j => y :: replaceNth j x l'
  end.

(** ** src/pages/Dashboard.tsx: rows and statistics *)

Module Pages.

Record DashboardStats := mkStats {
  totalReceitas : Js.number;
  totalDespesas : Js.number;
  saldo : Js.number;
  transacoesCount : nat;
  lembretesCount : nat
}.

Record Transacao := mkTransacao {
  id : Z;
  created_at : string;
  quando : option string;
  estabelecimento : option string;
  valor : option Js.number;
  detalhes : option string;
  tipo : option string;
  categoria : option string;
  userid : option string
}.

Record Lembrete := mkLembrete {
  l_id : Z;
  l_created_at : string;
  l_userid : option string;
  descricao : option string;
  data : option string;
  l_valor : option Js.number
}.

(** [useState<DashboardStats>({...})] *)
Definition initialStats : DashboardStats := mkStats Js.zero Js.zero Js.zero 0 0.

(** [transacoes?.filter(t => t.tipo === k).reduce((sum, t) => sum + (t.valor || 0), 0) || 0] *)
Definition somaTipo (k : string) (transacoes : option (list Transacao)) : Js.number :=
  match transacoes with
  | Some ts =>
      Js.orZero
        (fold_left (fun sum t => PrimFloat.add sum (Js.optOrZero (valor t)))
           (filter (fun t => Js.strictEqStr (tipo t) k) ts) Js.zero)
  | None => Js.zero
  end.

(** Lines 115-124: the statistics computed from the two fetched arrays. *)
Definition newStats (transacoes : option (list Transacao))
    (lembretes : option (list Lembrete)) : DashboardStats :=
  let receitas := somaTipo "receita" transacoes in
  let despesas := somaTipo "despesa" transacoes in
  {| totalReceitas := receitas;
     totalDespesas := despesas;
     saldo := PrimFloat.sub receitas despesas;
     transacoesCount := Js.lengthOrZero transacoes;
     lembretesCount := Js.lengthOrZero lembretes |}.

(** *** The component's state and the actions of [fetchDashboardData] *)

Record World := mkWorld {
  stats : DashboardStats;
  transacoes : list Transacao;
  lembretes : list Lembrete;
  loading : bool;
  toasts : list Toast;
  console : list (bool * string)
}.

(** The [useState] initial values; nothing shown or logged yet. *)
Definition initialWorld : World := mkWorld initialStats [] [] true [] [].

Inductive Action : Type :=
| SetStats (s : DashboardStats)
| SetTransacoes (l : list Transacao)
| SetLembretes (l : list Lembrete)
| SetLoading (b : bool)
| ConsoleLog (msg : string)
| ConsoleError (msg : string)
| ShowToast (t : Toast).

Definition act (a : Action) (w : World) : World :=
  match a with
  | SetStats s => mkWorld s (transacoes w) (lembretes w) (loading w) (toasts w) (console w)
  | SetTransacoes l => mkWorld (stats w) l (lembretes w) (loading w) (toasts w) (console w)
  | SetLembretes l => mkWorld (stats w) (transacoes w) l (loading w) (toasts w) (console w)
  | SetLoading b => mkWorld (stats w) (transacoes w) (lembretes w) b (toasts w) (console w)
  | ConsoleLog msg =>
      mkWorld (stats w) (transacoes w) (lembretes w) (loading w) (toasts w)
        (console w ++ [(false, msg)])
  | ConsoleError msg =>
      mkWorld (stats w) (transacoes w) (lembretes w) (loading w) (toasts w)
        (console w ++ [(true, msg)])
  | ShowToast t =>
      mkWorld (stats w) (transacoes w) (lembretes w) (loading w) (toasts w ++ [t])
        (console w)
  end.

Definition Task : Type -> Type :=
  Async.Task Action (Gateway.Response Transacao) (Gateway.Response Lembrete).

Local Open Scope task_scope.

Definition awaitT (q : Gateway.Query) : Task (Gateway.Response Transacao) :=
  Async.AwaitT q Async.Ret.
Definition awaitL (q : Gateway.Query) : Task (Gateway.Response Lembrete) :=
  Async.AwaitL q Async.Ret.

(** [d.toISOString().split('T')[0]] *)
Definition isoDay (d : JsDate.Date) : Task string :=
  s <- Async.orThrow (JsDate.toISOString d) ;;
  Async.Ret (Js.splitHead "T"%char s).

(** The text columns of the two tables that the queries name. *)
Definition transacaoColumn (c : string) (t : Transacao) : option string :=
  if String.eqb c "userid" then userid t
  else if String.eqb c "quando" then quando t
  else if String.eqb c "created_at" then Some (created_at t)
  else if String.eqb c "tipo" then tipo t
  else None.

Definition lembreteColumn (c : string) (l : Lembrete) : option string :=
  if String.eqb c "userid" then l_userid l
  else if String.eqb c "data" then data l
  else if String.eqb c "created_at" then Some (l_created_at l)
  else None.

(** The argument of [toast] in the [catch] block, lines 131-135. *)
Definition errorToast (error : Gateway.Error) : Toast :=
  {| title := "Erro ao carregar dados";
     description :=
       Js.strOr (Gateway.message error)
         "Erro desconhecido ao carregar dados do dashboard";
     variant := "destructive" |}.

(** The two queries, lines 80-86 and 96-102. *)
Definition transacoesQuery (uid desde ate : string) : Gateway.Query :=
  Gateway.from "transacoes" |> Gateway.select "*"
    |> Gateway.eq "userid" (Some uid)
    |> Gateway.gte "quando" desde
    |> Gateway.lte "quando" ate
    |> Gateway.order "quando" false.

Definition lembretesQuery (uid desde ate : string) : Gateway.Query :=
  Gateway.from "lembretes" |> Gateway.select "*"
    |> Gateway.eq "userid" (Some uid)
    |> Gateway.gte "data" desde
    |> Gateway.lte "data" ate
    |> Gateway.order "data" true.

Section Fetch.
Variable LocalTZA : Z -> Z.

(** [fetchDashboardData], lines 62-139. [filterMonth] and [filterYear] are
    the integers [parseInt] reads from the two selector strings. *)
Definition fetchDashboardData (user : option Auth.User)
    (filterMonth filterYear : Z) : Task unit :=
  match Auth.truthyId user with
  | None =>
      ConsoleError "Dashboard: No user ID available" ;;;
      SetLoading false ;;;
      Async.Ret tt
  | Some uid =>
      Async.finally
        (Async.tryCatch
           (SetLoading true ;;;
            ConsoleLog "Dashboard: Fetching data for filters:" ;;;
            let startDate := JsDate.construct LocalTZA filterYear filterMonth 1 0 0 0 in
            let endDate :=
              JsDate.construct LocalTZA filterYear (filterMonth + 1) 0 23 59 59 in
            ConsoleLog "Dashboard: Date range:" ;;;
            desde <- isoDay startDate ;;
            ate <- isoDay endDate ;;
            rt <- awaitT (transacoesQuery uid desde ate) ;;
            match Gateway.error rt with
            | Some transacoesError =>
                ConsoleError "Dashboard: Error fetching transactions:" ;;;
                Async.Throw transacoesError
            | None =>
                ConsoleLog "Dashboard: Transactions fetched:" ;;;
                desde' <- isoDay startDate ;;
                ate' <- isoDay endDate ;;
                rl <- awaitL (lembretesQuery uid desde' ate') ;;
                match Gateway.error rl with
                | Some lembretesError =>
                    ConsoleError "Dashboard: Error fetching lembretes:" ;;;
                    Async.Throw lembretesError
                | None =>
                    ConsoleLog "Dashboard: Lembretes fetched:" ;;;
                    SetTransacoes (Js.orEmpty (Gateway.data rt)) ;;;
                    SetLembretes (Js.orEmpty (Gateway.data rl)) ;;;
                    ConsoleLog "Dashboard: Calculated stats:" ;;;
                    SetStats (newStats (Gateway.data rt) (Gateway.data rl)) ;;;
                    Async.Ret tt
                end
            end)
           (fun error =>
              ConsoleError "Dashboard: Error loading data:" ;;;
              ShowToast (errorToast error) ;;;
              Async.Ret tt))
        (SetLoading false ;;; Async.Ret tt)
  end.

(** *** The component: props, state, in-flight fetches

    [filterMonth] and [filterYear] are held as the integers that [parseInt]
    reads in the two selector strings of lines 52-53 (lines 74-75 use the
    strings through [parseInt] only). The strings themselves, those that
    [parseInt] does not read included, are in [Selectors] below. *)

Record Machine := mkMachine {
  user : option Auth.User;
  filterMonth : Z;
  filterYear : Z;
  world : World;
  issued : list Gateway.Query;
  fetches : list (Async.Status Action (Gateway.Response Transacao)
                    (Gateway.Response Lembrete) unit)
}.

Definition pendingQuery {R}
    (st : Async.Status Action (Gateway.Response Transacao)
            (Gateway.Response Lembrete) R) : list Gateway.Query :=
  match st with
  | Async.OnT q _ => [q]
  | Async.OnL q _ => [q]
  | _ => []
  end.

(** Calls [fetchDashboardData()]: it runs up to its first [await]. *)
Definition startFetch (m : Machine) : Machine :=
  let '(w, st) :=
    Async.advance act (fetchDashboardData (user m) (filterMonth m) (filterYear m))
      (world m) in
  mkMachine (user m) (filterMonth m) (filterYear m) w
    (issued m ++ pendingQuery st) (fetches m ++ [st]).

(** The body of the [useEffect], lines 55-60. *)
Definition effect (m : Machine) : Machine :=
  if Auth.hasId (user m) then
    startFetch
      (mkMachine (user m) (filterMonth m) (filterYear m)
         (act (ConsoleLog "Dashboard: Loading data for user:") (world m))
         (issued m) (fetches m))
  else m.

(** The first render followed by the effect. *)
Definition mount (u : option Auth.User) (month year : Z) : Machine :=
  effect (mkMachine u month year initialWorld [] []).

Inductive Input : Type :=
| SetUser (u : option Auth.User)
| SetFilterMonth (v : Z)
| SetFilterYear (v : Z)
| ResolveT (i : nat) (r : Gateway.Response Transacao)
| ResolveL (i : nat) (r : Gateway.Response Lembrete).

(** Fetch [i] continues with [t] after its awaited response arrived. *)
Definition resume (m : Machine) (i : nat) (t : Task unit) : Machine :=
  let '(w, st) := Async.advance act t (world m) in
  mkMachine (user m) (filterMonth m) (filterYear m) w
    (issued m ++ pendingQuery st) (replaceNth i st (fetches m)).

(** One event of the event loop. The effect runs again when one of its
    dependencies [user?.id], [filterMonth], [filterYear] changed. *)
Definition step (m : Machine) (i : Input) : Machine :=
  match i with
  | SetUser u =>
      let m' := mkMachine u (filterMonth m) (filterYear m) (world m) (issued m)
                  (fetches m) in
      if Auth.optStrEqb (Auth.idOf u) (Auth.idOf (user m)) then m' else effect m'
  | SetFilterMonth v =>
      if v =? filterMonth m then m
      else effect (mkMachine (user m) v (filterYear m) (world m) (issued m) (fetches m))
  | SetFilterYear v =>
      if v =? filterYear m then m
      else effect (mkMachine (user m) (filterMonth m) v (world m) (issued m) (fetches m))
  | ResolveT n r =>
      match nth_error (fetches m) n with
      | Some (Async.OnT _ k) => resume m n (k r)
      | _ => m
      end
  | ResolveL n r =>
      match nth_error (fetches m) n with
      | Some (Async.OnL _ k) => resume m n (k r)
      | _ => m
      end
  end.

Definition steps (m : Machine) (l : list Input) : Machine := fold_left step l m.
End Fetch.

(** *** What the component renders, lines 141-192 *)

Inductive View : Type :=
| LoadingView
| NoUserView
| DashboardView (s : DashboardStats) (ts : list Transacao) (ls : list Lembrete)
    (transactionCount : nat).

Definition render (m : Machine) : View :=
  if loading (world m) then LoadingView
  else if negb (Auth.hasId (user m)) then NoUserView
  else DashboardView (stats (world m)) (transacoes (world m)) (lembretes (world m))
         (List.length (transacoes (world m))).

End Pages.

(** ** src/pages/Dashboard.tsx on the rows as they arrive

    The interface of lines 19-29 declares [valor: number | null]; the rows
    are JSON, and nothing checks them. Here the statistics of lines 115-124
    are computed on amounts that may be any JSON value. *)

Module Untyped.

(** ToBoolean *)
Definition truthy (v : Js.value) : bool :=
  match v with
  | Js.VUndefined => false
  | Js.VNull => false
  | Js.VBool b => b
  | Js.VNum x => Js.truthyNum x
  | Js.VStr s => negb (String.eqb s "")
  end.

(** [v || 0] *)
Definition orZero (v : Js.value) : Js.value :=
  if truthy v then v else Js.VNum Js.zero.

Section Operators.
(** StringToNumber and Number::toString of ECMA-262; the engine's own. *)
Variable StringToNumber : string -> Js.number.
Variable NumberToString : Js.number -> string.

(** ToString *)
Definition toString (v : Js.value) : string :=
  match v with
  | Js.VUndefined => "undefined"
  | Js.VNull => "null"
  | Js.VBool true => "true"
  | Js.VBool false => "false"
  | Js.VNum x => NumberToString x
  | Js.VStr s => s
  end.

(** [a + b]: concatenation when one of the two is a string, addition of the
    two numbers otherwise. *)
Definition plus (a b : Js.value) : Js.value :=
  match a, b with
  | Js.VStr s, _ => Js.VStr (s ++ toString b)
  | _, Js.VStr s => Js.VStr (toString a ++ s)
  | _, _ => Js.VNum (PrimFloat.add (Js.Number StringToNumber a) (Js.Number StringToNumber b))
  end.

(** [a - b] *)
Definition minus (a b : Js.value) : Js.number :=
  PrimFloat.sub (Js.Number StringToNumber a) (Js.Number StringToNumber b).

Record Transacao := mkTransacao {
  id : Z;
  created_at : string;
  quando : option string;
  estabelecimento : option string;
  valor : Js.value;
  detalhes : option string;
  tipo : option string;
  categoria : option string;
  userid : option string
}.


Record DashboardStats := mkStats {
  totalReceitas : Js.value;
  totalDespesas : Js.value;
  saldo : Js.number;
  transacoesCount : nat;
  lembretesCount : nat
}.

(** [transacoes?.filter(t => t.tipo === k).reduce((sum, t) => sum + (t.valor || 0), 0) || 0] *)
Definition somaTipo (k : string) (transacoes : option (list Transacao)) : Js.value :=
  match transacoes with
  | Some ts =>
      orZero
        (fold_left (fun sum t => plus sum (orZero (valor t)))
           (filter (fun t => Js.strictEqStr (tipo t) k) ts) (Js.VNum Js.zero))
  | None => Js.VNum Js.zero
  end.

(** Lines 115-124 *)
Definition newStats (transacoes : option (list Transacao))
    (lembretes : option (list Pages.Lembrete)) : DashboardStats :=
  let receitas := somaTipo "receita" transacoes in
  let despesas := somaTipo "despesa" transacoes in
  {| totalReceitas := receitas;
     totalDespesas := despesas;
     saldo := minus receitas despesas;
     transacoesCount := Js.lengthOrZero transacoes;
     lembretesCount := Js.lengthOrZero lembretes |}.
End Operators.

End Untyped.

(** ** The dashboard of src/lib/supabase.ts: rows and statistics *)

Module Legacy.

Record Transacao := mkTransacao {
  id : Z;
  created_at : string;
  estabelecimento : option string;
  valor : Js.value;
  tipo : option string;
  quando : option string;
  categorias : option string;
  userid : option string
}.

Record Lembrete := mkLembrete {
  l_id : Z;
  l_userid : option string;
  descricao : option string;
  data : option string;
  l_valor : Js.value
}.

Record DashboardStats := mkStats {
  totalReceitas : Js.number;
  totalDespesas : Js.number;
  saldo : Js.number;
  transacoesRecentes : list Transacao;
  lembretesProximos : list Lembrete
}.

Definition initialStats : DashboardStats := mkStats Js.zero Js.zero Js.zero [] [].

Section Stats.
Variable StringToNumber : string -> Js.number.

(** [transacoes?.filter(t => t.tipo === k) || []] *)
Definition porTipo (k : string) (transacoes : option (list Transacao)) : list Transacao :=
  match transacoes with
  | Some ts => filter (fun t => Js.strictEqStr (tipo t) k) ts
  | None => []
  end.

(** [l.reduce((acc, t) => acc + (Number(t.valor) || 0), 0)] *)
Definition total (l : list Transacao) : Js.number :=
  Js.sumBy (fun t => Js.orZero (Js.Number StringToNumber (valor t))) l Js.zero.

(** Lines 87-91 and 104-110: the object handed to [setStats]. *)
Definition newStats (transacoes : option (list Transacao))
    (lembretes : option (list Lembrete)) : DashboardStats :=
  let receitas := porTipo "receita" transacoes in
  let despesas := porTipo "despesa" transacoes in
  let totalReceitas := total receitas in
  let totalDespesas := total despesas in
  {| totalReceitas := totalReceitas;
     totalDespesas := totalDespesas;
     saldo := PrimFloat.sub totalReceitas totalDespesas;
     transacoesRecentes :=
       match transacoes with
       | Some ts => Js.slice0 5 ts
       | None => []
       end;
     lembretesProximos := Js.orEmpty lembretes |}.

(** *** The component's state and the actions of [fetchDashboardData] *)

Record World := mkWorld {
  stats : DashboardStats;
  loading : bool;
  toasts : list Toast;
  console : list (bool * string)
}.

Definition initialWorld : World := mkWorld initialStats true [] [].

Inductive Action : Type :=
| SetStats (s : DashboardStats)
| SetLoading (b : bool)
| ConsoleError (msg : string)
| ShowToast (t : Toast).

Definition act (a : Action) (w : World) : World :=
  match a with
  | SetStats s => mkWorld s (loading w) (toasts w) (console w)
  | SetLoading b => mkWorld (stats w) b (toasts w) (console w)
  | ConsoleError msg => mkWorld (stats w) (loading w) (toasts w) (console w ++ [(true, msg)])
  | ShowToast t => mkWorld (stats w) (loading w) (toasts w ++ [t]) (console w)
  end.

Definition Task : Type -> Type :=
  Async.Task Action (Gateway.Response Transacao) (Gateway.Response Lembrete).

Local Open Scope task_scope.

Definition awaitT (q : Gateway.Query) : Task (Gateway.Response Transacao) :=
  Async.AwaitT q Async.Ret.
Definition awaitL (q : Gateway.Query) : Task (Gateway.Response Lembrete) :=
  Async.AwaitL q Async.Ret.

(** [new Date().toISOString()] at clock reading [now]. *)
Definition nowISO (now : Z) : Task string :=
  Async.orThrow (JsDate.toISOString (JsDate.TimeClip now)).

(** The text columns of the two tables that the queries name. *)
Definition transacaoColumn (c : string) (t : Transacao) : option string :=
  if String.eqb c "userid" then userid t
  else if String.eqb c "quando" then quando t
  else if String.eqb c "created_at" then Some (created_at t)
  else if String.eqb c "tipo" then tipo t
  else None.

Definition lembreteColumn (c : string) (l : Lembrete) : option string :=
  if String.eqb c "userid" then l_userid l
  else if String.eqb c "data" then data l
  else None.

(** The argument of [toast] in the [catch] block, lines 113-117. *)
Definition errorToast (error : Gateway.Error) : Toast :=
  {| title := "Erro ao carregar dados";
     description := Gateway.message error;
     variant := "destructive" |}.

(** The two queries, lines 71-82 and 94-100; the select list of the first is
    the template literal of lines 73-78 up to white space. *)
Definition transacoesQuery (uid : option string) (currentMonth : string) : Gateway.Query :=
  Gateway.from "transacoes" |> Gateway.select "*, categorias ( nome )"
    |> Gateway.eq "userid" uid
    |> Gateway.gte "quando" (currentMonth ++ "-01")
    |> Gateway.lte "quando" (currentMonth ++ "-31")
    |> Gateway.order "created_at" false.

Definition lembretesQuery (uid : option string) (today : string) : Gateway.Query :=
  Gateway.from "lembretes" |> Gateway.select "*"
    |> Gateway.eq "userid" uid
    |> Gateway.gte "data" today
    |> Gateway.order "data" true
    |> Gateway.limit 5.

(** [fetchDashboardData], lines 64-121; [now] and [now'] are the clock
    readings of the two [new Date()]. *)
Definition fetchDashboardData (user : option Auth.User) (now now' : Z) : Task unit :=
  Async.finally
    (Async.tryCatch
       (SetLoading true ;;;
        iso <- nowISO now ;;
        let currentMonth := Js.strSlice0 7 iso in
        rt <- awaitT (transacoesQuery (Auth.idOf user) currentMonth) ;;
        match Gateway.error rt with
        | Some transacoesError => Async.Throw transacoesError
        | None =>
            iso' <- nowISO now' ;;
            rl <- awaitL (lembretesQuery (Auth.idOf user) (Js.splitHead "T"%char iso')) ;;
            match Gateway.error rl with
            | Some lembretesError => Async.Throw lembretesError
            | None =>
                SetStats (newStats (Gateway.data rt) (Gateway.data rl)) ;;;
                Async.Ret tt
            end
        end)
       (fun error =>
          ConsoleError "Erro ao carregar dados do dashboard:" ;;;
          ShowToast (errorToast error) ;;;
          Async.Ret tt))
    (SetLoading false ;;; Async.Ret tt).
End Stats.

End Legacy.

(** ** src/components/layout/UserProfile.tsx *)

Module Profile.

Record UserProfile := mkProfile {
  nome : string;
  phone : string;
  avatar_url : option string
}.

(** The [profile] state cell, and the console. *)
Record World := mkWorld {
  profile : option UserProfile;
  console : list (bool * string)
}.

Definition initialWorld : World := mkWorld None [].

Inductive Action : Type :=
| SetProfile (p : option UserProfile)
| ConsoleError (msg : string).

Definition act (a : Action) (w : World) : World :=
  match a with
  | SetProfile p => mkWorld p (console w)
  | ConsoleError msg => mkWorld (profile w) (console w ++ [(true, msg)])
  end.

(** The component awaits one kind of query only. *)
Definition Task : Type -> Type :=
  Async.Task Action (Gateway.SingleResponse UserProfile) unit.

Local Open Scope task_scope.

(** [fetchProfile], lines 24-37 *)
Definition fetchProfile (user : option Auth.User) : Task unit :=
  Async.tryCatch
    (r <- Async.AwaitT
            (Gateway.from "profiles" |> Gateway.select "nome, phone, avatar_url"
               |> Gateway.eq "id" (Auth.idOf user)
               |> Gateway.single)
            Async.Ret ;;
     match Gateway.s_error r with
     | Some error => Async.Throw error
     | None => SetProfile (Gateway.s_data r) ;;; Async.Ret tt
     end)
    (fun error => ConsoleError "Erro ao carregar perfil:" ;;; Async.Ret tt).

(** What the component returns: [null], or the link built from the profile. *)
Inductive Rendered : Type :=
| Null
| ProfileLink (p : UserProfile).

(** Line 39 and the JSX below it. *)
Definition render (w : World) : Rendered :=
  match profile w with
  | None => Null
  | Some p => ProfileLink p
  end.

(** A fetch that ran to its end for the gateway's answer [r]. *)
Definition afterFetch (user : option Auth.User)
    (r : Gateway.SingleResponse UserProfile) (w : World)
  : World * list Gateway.Query * (unit + Gateway.Error) :=
  Async.exec act (fun _ => r) (fun _ => tt) (fetchProfile user) w [].

End Profile.

(** ** Strings: splitting, joining, reading and writing integers

    A string is a sequence of code units; [ascii] holds the code units below
    256. *)

Module JsString.

(** [s.split(c)] for a separator [c] of one code unit: the pieces of [s]
    between the occurrences of [c]; the empty string gives one empty piece. *)
Fixpoint split (c : ascii) (s : string) : list string :=
  match s with
  | EmptyString => [""]
  | String a r =>
      if Ascii.eqb a c then "" :: split c r
      else match split c r with
           | piece :: pieces => String a piece :: pieces
           | [] => [String a ""]
           end
  end.

(** [s[0]]: the first code unit as a string, [undefined] when [s] is empty. *)
Definition first (s : string) : option string :=
  match s with
  | String a _ => Some (String a "")
  | EmptyString => None
  end.

(** [a.join(sep)]: an [undefined] element is written as the empty string. *)
Fixpoint join (sep : string) (a : list (option string)) : string :=
  match a with
  | [] => ""
  | [x] => match x with Some s => s | None => "" end
  | x :: rest => match x with Some s => s | None => "" end ++ sep ++ join sep rest
  end.

(** White space and line terminators (ECMA-262, 12.2 and 12.3) among the code
    units below 256: TAB, LF, VT, FF, CR, SP, NBSP. *)
Definition isWhiteSpace (c : ascii) : bool :=
  let n := Z.of_N (N_of_ascii c) in
  ((9 <=? n) && (n <=? 13)) || (n =? 32) || (n =? 160).

Fixpoint trimStart (s : string) : string :=
  match s with
  | String c r => if isWhiteSpace c then trimStart r else s
  | EmptyString => ""
  end.

(** The value of a digit in a radix up to 36. *)
Definition digitValue (c : ascii) : option Z :=
  let n := Z.of_N (N_of_ascii c) in
  if (48 <=? n) && (n <=? 57) then Some (n - 48)
  else if (97 <=? n) && (n <=? 122) then Some (n - 87)
  else if (65 <=? n) && (n <=? 90) then Some (n - 55)
  else None.

Definition radixDigit (R : Z) (c : ascii) : option Z :=
  match digitValue c with
  | Some v => if v <? R then Some v else None
  | None => None
  end.

(** The integer that the longest prefix of radix-[R] digits of [s] denotes,
    after the digits read so far ([acc], [None] when there is none yet). *)
Fixpoint readDigits (R : Z) (s : string) (acc : option Z) : option Z :=
  match s with
  | String c r =>
      match radixDigit R c with
      | Some v =>
          readDigits R r (Some (R * match acc with Some n => n | None => 0 end + v))
      | None => acc
      end
  | EmptyString => acc
  end.

(** The sign that [parseInt] reads, and the string after it. *)
Definition signOf (s : string) : Z :=
  match s with
  | String c _ => if Ascii.eqb c "-" then -1 else 1
  | EmptyString => 1
  end.

Definition unsigned (s : string) : string :=
  match s with
  | String c r => if Ascii.eqb c "-" || Ascii.eqb c "+" then r else s
  | EmptyString => ""
  end.

(** What follows a leading [0x] or [0X], if there is one. *)
Definition hexDigits (s : string) : option string :=
  match s with
  | String c (String x r) =>
      if Ascii.eqb c "0" && (Ascii.eqb x "x" || Ascii.eqb x "X") then Some r else None
  | _ => None
  end.

(** [parseInt(s)] (ECMA-262, 19.2.5) with no radix given: [None] is [NaN],
    [Some n] the integer read ([-0] reads as [0]). The engine's result is the
    double nearest to [n]; the two differ beyond [2^53] only. *)
Definition parseInt (s : string) : option Z :=
  let body := trimStart s in
  let sign := signOf body in
  let '(R, digits) :=
    match hexDigits (unsigned body) with
    | Some r => (16, r)
    | None => (10, unsigned body)
    end in
  match readDigits R digits None with
  | Some n => Some (sign * n)
  | None => None
  end.

(** The number of decimal digits of [n >= 0]. *)
Fixpoint decimalLength (fuel : nat) (n : Z) : nat :=
  match fuel with
  | O => 1
  | S f => if n <? 10 then 1 else S (decimalLength f (n / 10))
  end.

(** [x.toString()] for a number [x] that is an integer below [10^21] in
    absolute value, or [NaN] ([None]). *)
Definition numberToString (x : option Z) : string :=
  match x with
  | None => "NaN"
  | Some n =>
      let m := Z.abs n in
      (if n <? 0 then "-" else "") ++ JsDate.padded (decimalLength (Z.to_nat m) m) m
  end.

(** [s.toUpperCase()] on a string of ASCII code units: the letters [a-z]
    become [A-Z], everything else stays. *)
Definition upperAsciiChar (c : ascii) : ascii :=
  let n := N_of_ascii c in
  if (97 <=? n)%N && (n <=? 122)%N then ascii_of_N (n - 32) else c.

Fixpoint upperAscii (s : string) : string :=
  match s with
  | EmptyString => ""
  | String c r => String (upperAsciiChar c) (upperAscii r)
  end.

Fixpoint isAscii (s : string) : bool :=
  match s with
  | EmptyString => true
  | String c r => (N_of_ascii c <? 128)%N && isAscii r
  end.

End JsString.

(** ** Dates in local time: [getMonth], [getFullYear] *)

Module LocalDate.
Section LocalDate.
(** [LocalTZA(t, true)]: the offset of local time from UTC, in milliseconds,
    at the UTC time [t]. *)
Variable LocalTZAutc : Z -> Z.

Definition LocalTime (t : Z) : Z := t + LocalTZAutc t.

(** [d.getMonth()] and [d.getFullYear()]; [NaN] ([None]) for an invalid date. *)
Definition getMonth (d : JsDate.Date) : option Z :=
  match d with
  | Some t => Some (JsDate.MonthFromTime (LocalTime t))
  | None => None
  end.

Definition getFullYear (d : JsDate.Date) : option Z :=
  match d with
  | Some t => Some (JsDate.YearFromTime (LocalTime t))
  | None => None
  end.
End LocalDate.
End LocalDate.

(** ** src/pages/Dashboard.tsx: the two selector strings *)

Module Selectors.

Import Pages.
Local Open Scope task_scope.

Section Selectors.
(** The host's time zone: the offset at a local time and at a UTC time. *)
Variable LocalTZA : Z -> Z.
Variable LocalTZAutc : Z -> Z.

(** Lines 52-53: [new Date().getMonth().toString()] and
    [new Date().getFullYear().toString()], at the clock reading [now]. *)
Definition initialFilterMonth (now : Z) : string :=
  JsString.numberToString (LocalDate.getMonth LocalTZAutc (JsDate.TimeClip now)).

Definition initialFilterYear (now : Z) : string :=
  JsString.numberToString (LocalDate.getFullYear LocalTZAutc (JsDate.TimeClip now)).

(** Lines 74-75: a [NaN] year or month gives an invalid date. *)
Definition startDate (filterMonth filterYear : string) : JsDate.Date :=
  match JsString.parseInt filterYear, JsString.parseInt filterMonth with
  | Some y, Some m => JsDate.construct LocalTZA y m 1 0 0 0
  | _, _ => None
  end.

Definition endDate (filterMonth filterYear : string) : JsDate.Date :=
  match JsString.parseInt filterYear, JsString.parseInt filterMonth with
  | Some y, Some m => JsDate.construct LocalTZA y (m + 1) 0 23 59 59
  | _, _ => None
  end.

(** [fetchDashboardData], lines 62-139, on the state as the component holds
    it: the two selector strings. *)
Definition fetchDashboardData (user : option Auth.User)
    (filterMonth filterYear : string) : Task unit :=
  match Auth.truthyId user with
  | None =>
      ConsoleError "Dashboard: No user ID available" ;;;
      SetLoading false ;;;
      Async.Ret tt
  | Some uid =>
      Async.finally
        (Async.tryCatch
           (SetLoading true ;;;
            ConsoleLog "Dashboard: Fetching data for filters:" ;;;
            let startDate := startDate filterMonth filterYear in
            let endDate := endDate filterMonth filterYear in
            ConsoleLog "Dashboard: Date range:" ;;;
            desde <- isoDay startDate ;;
            ate <- isoDay endDate ;;
            rt <- awaitT (transacoesQuery uid desde ate) ;;
            match Gateway.error rt with
            | Some transacoesError =>
                ConsoleError "Dashboard: Error fetching transactions:" ;;;
                Async.Throw transacoesError
            | None =>
                ConsoleLog "Dashboard: Transactions fetched:" ;;;
                desde' <- isoDay startDate ;;
                ate' <- isoDay endDate ;;
                rl <- awaitL (lembretesQuery uid desde' ate') ;;
                match Gateway.error rl with
                | Some lembretesError =>
                    ConsoleError "Dashboard: Error fetching lembretes:" ;;;
                    Async.Throw lembretesError
                | None =>
                    ConsoleLog "Dashboard: Lembretes fetched:" ;;;
                    SetTransacoes (Js.orEmpty (Gateway.data rt)) ;;;
                    SetLembretes (Js.orEmpty (Gateway.data rl)) ;;;
                    ConsoleLog "Dashboard: Calculated stats:" ;;;
                    SetStats (newStats (Gateway.data rt) (Gateway.data rl)) ;;;
                    Async.Ret tt
                end
            end)
           (fun error =>
              ConsoleError "Dashboard: Error loading data:" ;;;
              ShowToast (errorToast error) ;;;
              Async.Ret tt))
        (SetLoading false ;;; Async.Ret tt)
  end.

(** The fetch that the effect starts at the first render, the state holding
    the initial selector strings read at [now] and [now']. *)
Definition firstFetch (user : option Auth.User) (now now' : Z) : Task unit :=
  fetchDashboardData user (initialFilterMonth now) (initialFilterYear now').
End Selectors.

End Selectors.

(** ** src/components/layout/UserProfile.tsx: the avatar's initials *)

Module ProfileView.

Section Initials.
(** [String.prototype.toUpperCase]; the engine's own. *)
Variable toUpperCase : string -> string.

(** [getInitials], lines 41-48 *)
Definition getInitials (name : string) : string :=
  Js.strSlice0 2
    (toUpperCase (JsString.join "" (map JsString.first (JsString.split " " name)))).

End Initials.

End ProfileView.

(** ** The dashboard of src/lib/supabase.ts: the component and what it renders *)

Module LegacyView.

Import Legacy.

Section View.
Variable StringToNumber : string -> Js.number.
(** [formatCurrency] (lines 123-128) and [formatDate] (lines 130-132) hand
    their argument to [Intl.NumberFormat] and to [toLocaleDateString]; the
    host's own. *)
Variable formatCurrency : Js.value -> string.
Variable formatDate : option string -> string.

Inductive Colour : Type := Green | Red.

(** One row of the list of recent transactions, lines 206-218. *)
Record Row := mkRow {
  key : Z;
  place : option string;
  category : option string;
  date : string;
  colour : Colour;
  sign : string;
  amount : string
}.

Definition row (t : Transacao) : Row :=
  let receita := Js.strictEqStr (tipo t) "receita" in
  {| key := id t;
     place := estabelecimento t;
     category := categorias t;
     date := formatDate (quando t);
     colour := if receita then Green else Red;
     sign := if receita then "+" else "-";
     amount := formatCurrency (Js.VNum (Js.Number StringToNumber (valor t))) |}.

(** One row of the list of reminders, lines 246-257. *)
Record Reminder := mkReminder {
  r_key : Z;
  r_text : option string;
  r_date : string;
  r_amount : string
}.

Definition reminder (l : Lembrete) : Reminder :=
  {| r_key := l_id l;
     r_text := descricao l;
     r_date := formatDate (data l);
     r_amount := formatCurrency (l_valor l) |}.

(** A list, or the message shown in its place when it is empty
    ([l.length > 0 ? ... : ...]). *)
Inductive Listing (A : Type) : Type :=
| Items (l : list A)
| NoneFound.
Arguments Items {A}.
Arguments NoneFound {A}.

Definition listing {A : Type} (l : list A) : Listing A :=
  match l with
  | [] => NoneFound
  | _ => Items l
  end.

Inductive View : Type :=
| Spinner
| Content (receitas despesas saldo : string) (saldoColour : Colour)
    (recentes : Listing Row) (proximos : Listing Reminder).

(** Lines 134-276 *)
Definition render (w : World) : View :=
  if loading w then Spinner
  else
    let s := stats w in
    Content (formatCurrency (Js.VNum (totalReceitas s)))
      (formatCurrency (Js.VNum (totalDespesas s)))
      (formatCurrency (Js.VNum (saldo s)))
      (if PrimFloat.leb Js.zero (saldo s) then Green else Red)
      (listing (map row (transacoesRecentes s)))
      (listing (map reminder (lembretesProximos s))).

(** The effect of lines 58-62, at the first render: the fetch runs, against
    the gateway [answerT], [answerL], when there is a user. *)
Definition mount (answerT : Gateway.Query -> Gateway.Response Transacao)
    (answerL : Gateway.Query -> Gateway.Response Lembrete)
    (user : option Auth.User) (now now' : Z) : World * list Gateway.Query :=
  match user with
  | Some _ =>
      fst (Async.exec act answerT answerL
             (fetchDashboardData StringToNumber user now now') initialWorld [])
  | None => (initialWorld, [])
  end.
End View.

End LegacyView.

(** ** The specification's vocabulary *)

Module Spec.

(** [-0], the one accumulator value that [+ 0] changes. *)
Definition negZero (x : Js.number) : Prop := Prim2SF x = S754_zero true.

Section Totals.
Context {A : Type}.
Variable kind : A -> option string.
Variable amount : A -> Js.number.

(** Testable property 1: [sum(amount for t in T if t.kind == k)], the
    amounts added from [0] in the order of [T]. *)
Fixpoint sumFrom (acc : Js.number) (k : string) (T : list A) : Js.number :=
  match T with
  | [] => acc
  | t :: T' =>
      sumFrom (if Js.strictEqStr (kind t) k then PrimFloat.add acc (amount t) else acc)
        k T'
  end.

Definition sumKind (k : string) (T : list A) : Js.number := sumFrom Js.zero k T.
End Totals.

(** The amount of a record, missing and non-numeric values counting as [0]
    (section 4.1, behaviour 3). *)
Definition pagesAmount (t : Pages.Transacao) : Js.number :=
  match Pages.valor t with
  | Some v => if PrimFloat.is_nan v then Js.zero else v
  | None => Js.zero
  end.

Definition legacyAmount (StringToNumber : string -> Js.number)
    (t : Legacy.Transacao) : Js.number :=
  let v := Js.Number StringToNumber (Legacy.valor t) in
  if PrimFloat.is_nan v then Js.zero else v.



(** A record whose amount, when it is a number, is not an infinity. *)
Definition pagesFinite (t : Pages.Transacao) : bool :=
  match Pages.valor t with
  | Some v => negb (PrimFloat.is_infinity v)
  | None => true
  end.


(** A record whose kind is neither income nor expense. *)
Definition otherKind (tipo : option string) : bool :=
  negb (Js.strictEqStr tipo "receita") && negb (Js.strictEqStr tipo "despesa").

(** A signed sum over all the records: [+ amount] where [sign] holds,
    [- amount] elsewhere. *)
Definition signedSum {A : Type} (amount : A -> Js.number) (sign : A -> bool)
    (T : list A) : Js.number :=
  fold_left
    (fun acc t => if sign t then PrimFloat.add acc (amount t) else PrimFloat.sub acc (amount t))
    T Js.zero.

(** The date part of [d.toISOString()], when [d] is a valid date. *)
Definition isoDayOf (d : JsDate.Date) : option string :=
  match JsDate.toISOString d with
  | inl s => Some (Js.splitHead "T"%char s)
  | inr _ => None
  end.

(** The number of days of month [m] (0-based) of year [y]. *)
Definition daysInMonth (y m : Z) : Z :=
  match m with
  | 1 => if JsDate.DaysInYear y =? 366 then 29 else 28
  | 3 | 5 | 8 | 10 => 30
  | _ => 31
  end.

(** The bounds [(desde, ate)] of the month/year dashboard's date range, when
    both dates are valid. *)
Definition pagesRange (LocalTZA : Z -> Z) (filterMonth filterYear : Z)
  : option (string * string) :=
  match isoDayOf (JsDate.construct LocalTZA filterYear filterMonth 1 0 0 0),
        isoDayOf (JsDate.construct LocalTZA filterYear (filterMonth + 1) 0 23 59 59) with
  | Some desde, Some ate => Some (desde, ate)
  | _, _ => None
  end.

(** The summary a fetch puts in place when both its queries succeed. *)
Definition pagesComplete (rt : Gateway.Response Pages.Transacao)
    (rl : Gateway.Response Pages.Lembrete)
  : Pages.DashboardStats * list Pages.Transacao * list Pages.Lembrete :=
  (Pages.newStats (Gateway.data rt) (Gateway.data rl),
   Js.orEmpty (Gateway.data rt), Js.orEmpty (Gateway.data rl)).

(** The state after a fetch has started, after its transactions arrived, and
    after its reminders arrived (both without error). *)
Definition pagesStarted (w : Pages.World) : Pages.World :=
  Pages.act (Pages.ConsoleLog "Dashboard: Date range:")
    (Pages.act (Pages.ConsoleLog "Dashboard: Fetching data for filters:")
       (Pages.act (Pages.SetLoading true) w)).

Definition pagesAnswered (w : Pages.World) : Pages.World :=
  Pages.act (Pages.ConsoleLog "Dashboard: Transactions fetched:") w.

Definition pagesDone (rt : Gateway.Response Pages.Transacao)
    (rl : Gateway.Response Pages.Lembrete) (w : Pages.World) : Pages.World :=
  fold_left (fun w a => Pages.act a w)
    [Pages.ConsoleLog "Dashboard: Lembretes fetched:";
     Pages.SetTransacoes (Js.orEmpty (Gateway.data rt));
     Pages.SetLembretes (Js.orEmpty (Gateway.data rl));
     Pages.ConsoleLog "Dashboard: Calculated stats:";
     Pages.SetStats (Pages.newStats (Gateway.data rt) (Gateway.data rl));
     Pages.SetLoading false]
    w.

(** The fetch whose reminders response is the last to arrive in [sched]. *)
Fixpoint finishedLast (sched : list Pages.Input) : option nat :=
  match sched with
  | [] => None
  | i :: rest =>
      match finishedLast rest with
      | Some n => Some n
      | None => match i with Pages.ResolveL n _ => Some n | _ => None end
      end
  end.

(** The visible summary: totals, balance and the two lists. *)
Definition pagesSummary (w : Pages.World)
  : Pages.DashboardStats * list Pages.Transacao * list Pages.Lembrete :=
  (Pages.stats w, Pages.transacoes w, Pages.lembretes w).

(** The rows of owner [uid]. *)
Definition ownedBy {A : Type} (owner : A -> option string) (uid : string)
    (rows : list A) : list A :=
  filter (fun r => Auth.optStrEqb (owner r) (Some uid)) rows.

(** All the orders in which the events of [l1] and of [l2] can arrive, each
    list keeping its own order. *)
Fixpoint interleavings {A : Type} (l1 l2 : list A) {struct l1} : list (list A) :=
  match l1 with
  | [] => [l2]
  | x :: l1' =>
      (fix inner (l2 : list A) : list (list A) :=
         match l2 with
         | [] => [x :: l1']
         | y :: l2' =>
             (map (cons x) (interleavings l1' (y :: l2')) ++ map (cons y) (inner l2'))%list
         end) l2
  end.



End Spec.

(** ** Sample data *)

Module Examples.

Definition userA : Auth.User := Auth.mkUser "user-a".
Definition userB : Auth.User := Auth.mkUser "user-b".

(** UTC, and Brasilia time (three hours behind UTC). *)
Definition utc : Z -> Z := fun _ => 0.
Definition brt : Z -> Z := fun _ => -10800000.

(** A row of [transacoes] as the month/year dashboard reads it. *)
Definition row (n : Z) (quando : string) (valor : option Js.number) (tipo owner : string)
  : Pages.Transacao :=
  Pages.mkTransacao n "2024-04-01T12:00:00Z" (Some quando) None valor None (Some tipo)
    None (Some owner).

(** A row of [transacoes] as the current-month dashboard reads it. *)
Definition legacyRow (n : Z) (created quando : string) (valor : Js.value)
    (tipo owner : string) : Legacy.Transacao :=
  Legacy.mkTransacao n created None valor (Some tipo) (Some quando) None (Some owner).

Definition reminder (n : Z) (data owner : string) : Legacy.Lembrete :=
  Legacy.mkLembrete n (Some owner) None (Some data) Js.VNull.

Definition salary : Pages.Transacao := row 1 "2024-04-05" (Some 100.5%float) "receita" "user-a".
Definition rent : Pages.Transacao := row 2 "2024-04-10" (Some 40%float) "despesa" "user-a".
Definition blank : Pages.Transacao := row 3 "2024-04-30" None "receita" "user-a".
Definition transfer : Pages.Transacao := row 4 "2024-04-12" (Some 5%float) "transferencia" "user-a".
Definition foreign : Pages.Transacao := row 5 "2024-04-07" (Some 20%float) "receita" "user-b".
Definition bonus : Pages.Transacao := row 6 "2024-05-03" (Some 7%float) "receita" "user-a".

(** Answers of the gateway: rows, or an error. *)
Definition rows {A : Type} (l : list A) : Gateway.Response A :=
  Gateway.mkResponse (Some l) None.
Definition failure {A : Type} (msg : string) : Gateway.Response A :=
  Gateway.mkResponse None (Some (Gateway.mkError msg)).

Definition ana : Profile.UserProfile := Profile.mkProfile "Ana Lima" "5511999990000" None.

Definition decimal (s : string) : Js.number :=
  if String.eqb s "12.5" then 12.5%float else PrimFloat.nan.

End Examples.

Module Samples.




End Samples.

(** ** The vocabulary of the further properties *)

Module Zones.
(** The month after, and the month before, month [m] (0-based) of year [y]. *)
Definition nextMonth (y m : Z) : Z * Z := if m =? 11 then (y + 1, 0) else (y, m + 1).
Definition prevMonth (y m : Z) : Z * Z := if m =? 0 then (y - 1, 11) else (y, m - 1).

(** The two bounds that the month/year dashboard sends for month [m]
    (0-based) of year [y] in a zone of constant offset [off] (milliseconds
    ahead of UTC): the UTC dates of the local midnight that starts the month
    and of the local second that ends it. *)
Definition lowerBound (off y m : Z) : string :=
  if 0 <? off then
    JsDate.isoYMD (fst (prevMonth y m)) (snd (prevMonth y m) + 1)
      (Spec.daysInMonth (fst (prevMonth y m)) (snd (prevMonth y m)))
  else JsDate.isoYMD y (m + 1) 1.

Definition upperBound (off y m : Z) : string :=
  if off <=? -1000 then
    JsDate.isoYMD (fst (nextMonth y m)) (snd (nextMonth y m) + 1) 1
  else JsDate.isoYMD y (m + 1) (Spec.daysInMonth y m).
End Zones.

Module Words.
(** The first character of every word of [s], a word being a longest run of
    characters other than the space; [atStart] tells whether a word may start
    at the head of [s]. *)
Fixpoint wordStarts (atStart : bool) (s : string) : string :=
  match s with
  | EmptyString => ""
  | String a r =>
      if Ascii.eqb a " " then wordStarts true r
      else if atStart then String a (wordStarts false r)
      else wordStarts false r
  end.
End Words.

Module Binary64.
(** A number that is neither [NaN] nor an infinity. *)
Definition finite (x : spec_float) : Prop :=
  match x with
  | S754_zero _ | S754_finite _ _ _ => True
  | _ => False
  end.
End Binary64.

(** ** What holds along every fetch of the month/year dashboard *)

Module Along.

(** A stretch of a fetch: what the actions between two [await]s make of the
    component's state. *)
Definition Stretch : Type := Pages.World -> Pages.World.

Definition Status : Type :=
  Async.Status Pages.Action (Gateway.Response Pages.Transacao)
    (Gateway.Response Pages.Lembrete) unit.

Section Stretches.
(** [P s settled] is asked of every stretch [s], [settled] telling whether
    the fetch ends with it; [Q] is asked of every query awaited. *)
Variable P : Stretch -> bool -> Prop.
Variable Q : Gateway.Query -> Prop.

Fixpoint along (t : Pages.Task unit) (pre : Stretch) : Prop :=
  match t with
  | Async.Ret _ => P pre true
  | Async.Throw _ => False
  | Async.Do a k => along k (fun w => Pages.act a (pre w))
  | Async.AwaitT q k => P pre false /\ Q q /\ forall r, along (k r) (fun w => w)
  | Async.AwaitL q k => P pre false /\ Q q /\ forall r, along (k r) (fun w => w)
  end.

(** A started fetch whose remaining stretches are all as asked. *)
Definition sound (st : Status) : Prop :=
  match st with
  | Async.Fulfilled _ => True
  | Async.Rejected _ => False
  | Async.OnT _ k => forall r, along (k r) (fun w => w)
  | Async.OnL _ k => forall r, along (k r) (fun w => w)
  end.
End Stretches.

Definition settled (st : Status) : bool :=
  match st with
  | Async.Fulfilled _ => true
  | Async.Rejected _ => true
  | _ => false
  end.

(** The statistics are those of the two lists held. *)
Definition consistent (w : Pages.World) : Prop :=
  Pages.stats w = Pages.newStats (Some (Pages.transacoes w)) (Some (Pages.lembretes w)).

(** The toast of the [catch] block: its title, its variant, some description. *)
Definition errorShaped (t : Toast) : Prop :=
  title t = "Erro ao carregar dados" /\ variant t = "destructive" /\ description t <> "".

(** A query that filters on the id of an owner. *)
Definition ownerQuery (q : Gateway.Query) : Prop :=
  exists uid desde ate,
    uid <> "" /\ (q = Pages.transacoesQuery uid desde ate
                  \/ q = Pages.lembretesQuery uid desde ate).

(** What every stretch of [fetchDashboardData] does. *)
Definition stretchOK (s : Stretch) (last : bool) : Prop :=
  (forall w, consistent w -> consistent (s w))
  /\ (last = true -> forall w, Pages.loading (s w) = false)
  /\ (forall w, exists extra,
        Pages.toasts (s w) = (Pages.toasts w ++ extra)%list
        /\ (List.length extra <= if last then 1 else 0)%nat
        /\ Forall errorShaped extra).

(** The number of fetches that have ended. *)
Definition settledCount (l : list Status) : nat :=
  List.length (filter settled l).

(** The state of the component as a whole. *)
Definition invariant (M : Pages.Machine) : Prop :=
  consistent (Pages.world M)
  /\ Forall (sound stretchOK ownerQuery) (Pages.fetches M)
  /\ (Pages.loading (Pages.world M) = true ->
      Pages.fetches M = [] \/ Exists (fun st => settled st = false) (Pages.fetches M))
  /\ (List.length (Pages.toasts (Pages.world M)) <= settledCount (Pages.fetches M))%nat
  /\ Forall errorShaped (Pages.toasts (Pages.world M))
  /\ Forall ownerQuery (Pages.issued M).

End Along.

(** ** Proof automation *)

(** Unfolds a fetch along the answers it gets, one case per way it can end. *)
Ltac fetch_cases :=
  repeat first
    [ progress cbn -[JsDate.isoDate JsDate.isoTime Js.splitHead Js.strSlice0
                     JsDate.construct JsDate.TimeClip Pages.newStats Legacy.newStats
                     Pages.transacoesQuery Pages.lembretesQuery
                     Legacy.transacoesQuery Legacy.lembretesQuery String.append]
    | match goal with
      | |- context [Gateway.error ?r] =>
          lazymatch r with
          | Gateway.mkResponse _ _ => fail
          | _ =>
              lazymatch goal with
              | H : Gateway.error r = _ |- _ => rewrite H
              | _ => let E := fresh "E" in destruct (Gateway.error r) eqn:E
              end
          end
      | |- context [JsDate.construct ?tz ?y ?m ?d ?h ?mi ?s] =>
          let D := fresh "D" in destruct (JsDate.construct tz y m d h mi s) eqn:D
      | |- context [JsDate.TimeClip ?t] =>
          let D := fresh "D" in destruct (JsDate.TimeClip t) eqn:D
      end ].

(** Computes the innermost [step] of the goal, on a machine given by its
    fields; [known] rewrites with what is known of the continuations. *)
Ltac machine_step known :=
  match goal with
  | |- context [Pages.step ?tz (Pages.mkMachine ?a ?b ?c ?d ?e ?f) ?i] =>
      let H := fresh "Hstep" in
      eassert (H : Pages.step tz (Pages.mkMachine a b c d e f) i = _);
      [ cbn [Pages.step Pages.fetches nth_error]; unfold Pages.resume;
        cbn [Pages.world]; known;
        cbn [Pages.user Pages.filterMonth Pages.filterYear Pages.issued Pages.fetches
             Pages.pendingQuery replaceNth app];
        reflexivity
      | rewrite H; clear H ]
  end.

(** One goal per value of [m] below [n], from what the context bounds [m] by;
    [cases] is the list lemma [small_nat_cases]. *)
Ltac small_cases cases m n :=
  let H := fresh "Hcase" in
  assert (H : In m (map Z.of_nat (seq 0 n))) by (apply cases; lia);
  cbn in H; repeat (destruct H as [<-|H]); [ .. | exact (False_ind _ H) ].

(** Splits on every comparison of a month table. *)
Ltac month_chain :=
  repeat match goal with
         | |- context [?a <? ?b] => destruct (Z.ltb_spec a b)
         | H : context [?a <? ?b] |- _ => destruct (Z.ltb_spec a b)
         end.

(** Computes month tables at literal months, leaving the arithmetic to [lia]. *)
Ltac cal_cbn :=
  try change (0 + 1) with 1;
  repeat match goal with
         | |- context [Z.pos ?a + 1] =>
             let v := eval compute in (Z.pos a + 1) in change (Z.pos a + 1) with v
         end;
  cbn -[Z.add Z.sub Z.mul Z.le Z.lt Z.div Z.modulo].

Local Open Scope list_scope.

(** * Facts about binary64 addition

    The results of [SpecFloat]'s rounding, as far as the sums below need them:
    a rounded non-zero mantissa gives a finite number or an infinity of the
    same sign, never [NaN] or a zero. *)

Section Rounding.
Variables prec emax : Z.
Hypothesis prec_pos : 0 < prec.

Local Abbreviation emin := (SpecFloat.emin prec emax).

Lemma shr_1_digits r p :
  shr_m r = Zpos p -> 1 < Zpos (digits2_pos p) ->
  exists p', shr_m (shr_1 r) = Zpos p'
             /\ Zpos (digits2_pos p) = Zpos (digits2_pos p') + 1.
Proof.
  destruct r as [m b s]; cbn [shr_m]; intros -> Hd.
  destruct p as [p|p|]; [exists p | exists p | exfalso; revert Hd; cbn; lia];
    (split; [reflexivity|]);
    change (Zpos (Pos.succ (digits2_pos p)) = Zpos (digits2_pos p) + 1); lia.
Qed.

Lemma iter_shr_1_digits n : forall r p,
  shr_m r = Zpos p -> Zpos n < Zpos (digits2_pos p) ->
  exists p', shr_m (iter_pos shr_1 n r) = Zpos p'
             /\ Zpos (digits2_pos p) = Zpos (digits2_pos p') + Zpos n.
Proof.
  induction n as [n IH|n IH|]; intros r p Hm Hd; cbn [iter_pos].
  - destruct (shr_1_digits r p Hm) as (p1 & H1 & D1); [lia|].
    destruct (IH _ _ H1) as (p2 & H2 & D2); [lia|].
    destruct (IH _ _ H2) as (p3 & H3 & D3); [lia|].
    exists p3; split; trivial; lia.
  - destruct (IH _ _ Hm) as (p2 & H2 & D2); [lia|].
    destruct (IH _ _ H2) as (p3 & H3 & D3); [lia|].
    exists p3; split; trivial; lia.
  - apply shr_1_digits; trivial.
Qed.

Lemma shr_fexp_pos m e l :
  emin <= e ->
  exists p e', shr_fexp prec emax (Zpos m) e l = (p, e')
               /\ (exists q, shr_m p = Zpos q) /\ emin <= e'.
Proof.
  intros He. unfold shr_fexp, shr.
  set (r := shr_record_of_loc (Zpos m) l).
  assert (Hr : shr_m r = Zpos m) by (unfold r; destruct l as [|[ | | ]]; reflexivity).
  destruct (SpecFloat.fexp prec emax (Zdigits2 (Zpos m) + e) - e) as [|n|n] eqn:Hn.
  - exists r, e; eauto.
  - destruct (iter_shr_1_digits n r m Hr) as (q & Hq & _).
    + unfold SpecFloat.fexp in Hn. simpl Zdigits2 in Hn. lia.
    + exists (iter_pos shr_1 n r), (e + Zpos n). split; trivial. split; [eauto|lia].
  - exists r, e; eauto.
Qed.

Lemma round_nearest_even_pos q l :
  exists q', round_nearest_even (Zpos q) l = Zpos q'.
Proof.
  destruct l as [|[ | | ]]; simpl; eauto.
  destruct q; simpl; eauto.
Qed.

Lemma binary_round_aux_sign sx m e l :
  emin <= e ->
  (exists q e', binary_round_aux prec emax sx (Zpos m) e l = S754_finite sx q e')
  \/ binary_round_aux prec emax sx (Zpos m) e l = S754_infinity sx.
Proof.
  intros He. unfold binary_round_aux.
  destruct (shr_fexp_pos m e l He) as (r1 & e1 & -> & (q1 & Hq1) & He1).
  rewrite Hq1.
  destruct (round_nearest_even_pos q1 (loc_of_shr_record r1)) as (q2 & ->).
  destruct (shr_fexp_pos q2 e1 loc_Exact He1) as (r3 & e3 & -> & (q3 & ->) & He3).
  destruct (e3 <=? emax - prec); eauto.
Qed.

Lemma binary_round_sign sx m e :
  emin <= e ->
  (exists q e', binary_round prec emax sx m e = S754_finite sx q e')
  \/ binary_round prec emax sx m e = S754_infinity sx.
Proof.
  intros He. unfold binary_round, shl_align.
  assert (Hf : emin <= SpecFloat.fexp prec emax (Zpos (digits2_pos m) + e))
    by (unfold SpecFloat.fexp; lia).
  destruct (SpecFloat.fexp prec emax (Zpos (digits2_pos m) + e) - e) eqn:Hd;
    apply binary_round_aux_sign; lia.
Qed.

End Rounding.

(** *** Binary64 addition *)

Lemma valid_finite_emin s m e :
  valid_binary (S754_finite s m e) = true -> (SpecFloat.emin prec emax) <= e.
Proof.
  unfold SpecFloat.valid_binary, bounded, canonical_mantissa, SpecFloat.fexp.
  fold (SpecFloat.emin prec emax). intros H. apply andb_prop in H as [H _].
  apply Z.eqb_eq in H. lia.
Qed.

Lemma binary_normalize_cases m e :
  (SpecFloat.emin prec emax) <= e ->
  binary_normalize prec emax m e false = S754_zero false
  \/ (exists s q e', binary_normalize prec emax m e false = S754_finite s q e')
  \/ (exists s, binary_normalize prec emax m e false = S754_infinity s).
Proof.
  intros He. destruct m as [|p|p]; cbn [binary_normalize]; auto.
  - destruct (binary_round_sign prec emax eq_refl false p e He) as [(q & e' & ->)| ->];
      [right; left; eauto | right; right; eauto].
  - destruct (binary_round_sign prec emax eq_refl true p e He) as [(q & e' & ->)| ->];
      [right; left; eauto | right; right; eauto].
Qed.

Lemma SFadd_finite_cases sx mx ex sy my ey :
  valid_binary (S754_finite sx mx ex) = true ->
  valid_binary (S754_finite sy my ey) = true ->
  let z := SF64add (S754_finite sx mx ex) (S754_finite sy my ey) in
  z <> S754_nan /\ z <> S754_zero true.
Proof.
  intros Vx%valid_finite_emin Vy%valid_finite_emin z.
  unfold z, SF64add, SFadd.
  match goal with |- context [binary_normalize _ _ ?m ?e _] =>
    destruct (binary_normalize_cases m e) as [E|[(s & q & e' & E)|(s & E)]];
      [lia| | | ]; rewrite E; split; discriminate
  end.
Qed.

(** A sum is [-0] only when the right operand is. *)
Lemma SFadd_neg_zero x y :
  valid_binary x = true -> valid_binary y = true ->
  SF64add x y = S754_zero true -> y = S754_zero true.
Proof.
  intros Vx Vy.
  destruct x as [[|]| [|] | |sx mx ex], y as [[|]| [|] | |sy my ey];
    try (cbn; congruence).
  intros H. destruct (SFadd_finite_cases sx mx ex sy my ey Vx Vy) as [_ N].
  contradiction.
Qed.

(** A sum of two numbers is [NaN] only when the right operand is infinite. *)
Lemma SFadd_nan x y :
  valid_binary x = true -> valid_binary y = true ->
  x <> S754_nan -> y <> S754_nan -> (forall s, y <> S754_infinity s) ->
  SF64add x y <> S754_nan.
Proof.
  intros Vx Vy Nx Ny Iy.
  destruct x as [[|]| [|] | |sx mx ex], y as [[|]| [|] | |sy my ey];
    try (cbn; congruence); try (exfalso; eapply Iy; reflexivity).
  apply (SFadd_finite_cases sx mx ex sy my ey Vx Vy).
Qed.

Lemma SFadd_zero_r x s :
  x <> S754_zero true -> SF64add x (S754_zero s) = x.
Proof. destruct s, x as [[|]| [|] | |sx mx ex]; cbn; congruence. Qed.

(** *** The same facts on primitive floats *)

Lemma Prim2SF_zero : Prim2SF PrimFloat.zero = S754_zero false.
Proof. reflexivity. Qed.

Lemma is_nan_Prim2SF x : PrimFloat.is_nan x = true <-> Prim2SF x = S754_nan.
Proof.
  unfold Prim2SF. destruct (PrimFloat.is_nan x); split; trivial; try discriminate.
  destruct (PrimFloat.is_zero x); [discriminate|].
  destruct (PrimFloat.is_infinity x); [discriminate|].
  destruct (Z.frexp x) as [r e].
  destruct (shr_fexp _ _ _ _ _) as [q e'].
  destruct (shr_m q); discriminate.
Qed.

Lemma is_zero_Prim2SF x :
  PrimFloat.is_zero x = true <-> exists s, Prim2SF x = S754_zero s.
Proof.
  unfold PrimFloat.is_zero. rewrite eqb_spec, Prim2SF_zero.
  destruct (Prim2SF x) as [s|s| |s m e]; cbn; split; eauto;
    try discriminate; try (intros [s' H]; discriminate).
  - destruct s; discriminate.
  - destruct s; discriminate.
Qed.

Lemma is_infinity_Prim2SF x :
  PrimFloat.is_infinity x = true <-> exists s, Prim2SF x = S754_infinity s.
Proof.
  unfold PrimFloat.is_infinity. rewrite eqb_spec, abs_spec.
  change (Prim2SF infinity) with (S754_infinity false).
  destruct (Prim2SF x) as [s|s| |s m e]; cbn; split; eauto;
    try discriminate; try (intros [s' H]; discriminate).
Qed.

Lemma add_neg_zero x y : Spec.negZero (x + y)%float -> Spec.negZero y.
Proof.
  unfold Spec.negZero. rewrite add_spec. apply SFadd_neg_zero; apply Prim2SF_valid.
Qed.

Lemma add_any_zero x z :
  ~ Spec.negZero x -> PrimFloat.is_zero z = true -> (x + z)%float = x.
Proof.
  intros H [s Hz]%is_zero_Prim2SF. apply Prim2SF_inj. rewrite add_spec, Hz.
  now apply SFadd_zero_r.
Qed.

Lemma add_zero_r x : ~ Spec.negZero x -> (x + PrimFloat.zero)%float = x.
Proof. intros H. now apply add_any_zero. Qed.

Lemma add_is_nan x y :
  PrimFloat.is_nan x = false -> PrimFloat.is_nan y = false ->
  PrimFloat.is_infinity y = false ->
  PrimFloat.is_nan (x + y)%float = false.
Proof.
  intros Hx Hy Iy.
  destruct (PrimFloat.is_nan (x + y)%float) eqn:E; trivial.
  apply is_nan_Prim2SF in E. rewrite add_spec in E.
  exfalso; revert E. apply SFadd_nan; try apply Prim2SF_valid.
  - intros H%is_nan_Prim2SF; congruence.
  - intros H%is_nan_Prim2SF; congruence.
  - intros s H. assert (PrimFloat.is_infinity y = true)
      by (apply is_infinity_Prim2SF; eauto). congruence.
Qed.



(** * Coercions and sums *)

Lemma zero_not_negZero : ~ Spec.negZero Js.zero.
Proof. unfold Spec.negZero, Js.zero. rewrite Prim2SF_zero. discriminate. Qed.

Lemma orZero_not_negZero v : ~ Spec.negZero (Js.orZero v).
Proof.
  unfold Js.orZero, Js.truthyNum.
  destruct (PrimFloat.is_zero v) eqn:Z; cbn; [apply zero_not_negZero|].
  destruct (PrimFloat.is_nan v); cbn; [apply zero_not_negZero|].
  intros H. assert (PrimFloat.is_zero v = true) by (apply is_zero_Prim2SF; eauto).
  congruence.
Qed.

Lemma orZero_not_nan v : PrimFloat.is_nan (Js.orZero v) = false.
Proof.
  unfold Js.orZero, Js.truthyNum.
  destruct (PrimFloat.is_zero v); cbn; trivial.
  destruct (PrimFloat.is_nan v) eqn:N; cbn; trivial.
Qed.

Lemma orZero_finite v :
  PrimFloat.is_infinity v = false -> PrimFloat.is_infinity (Js.orZero v) = false.
Proof. unfold Js.orZero. destruct (Js.truthyNum v); trivial. Qed.

(** [x || 0] is [x] for every number but [NaN] and [-0]. *)
Lemma orZero_fixed x :
  PrimFloat.is_nan x = false -> ~ Spec.negZero x -> Js.orZero x = x.
Proof.
  intros N Z. unfold Js.orZero, Js.truthyNum. rewrite N, orb_false_r.
  destruct (PrimFloat.is_zero x) eqn:E; cbn; trivial.
  apply is_zero_Prim2SF in E as [[|] E]; [contradiction|].
  apply Prim2SF_inj. now rewrite E.
Qed.

(** Adding [x || 0] and adding [x] agree for a number [x]. *)
Lemma add_orZero acc v :
  ~ Spec.negZero acc -> PrimFloat.is_nan v = false ->
  PrimFloat.add acc (Js.orZero v) = PrimFloat.add acc v.
Proof.
  intros Hacc N. unfold Js.orZero, Js.truthyNum. rewrite N, orb_false_r.
  destruct (PrimFloat.is_zero v) eqn:E; cbn; trivial.
  rewrite (add_any_zero acc v), add_zero_r; trivial.
Qed.

Section Accumulate.
Context {A : Type}.
(** [c]: what the code adds for a record; [a]: the record's amount. *)
Variables c a : A -> Js.number.
Variable kind : A -> option string.
Hypothesis c_not_negZero : forall t, ~ Spec.negZero (c t).
Hypothesis c_amount :
  forall acc t, ~ Spec.negZero acc -> PrimFloat.add acc (c t) = PrimFloat.add acc (a t).

Local Abbreviation accumulate := (Js.sumBy c).

Lemma accumulate_not_negZero l : forall acc,
  ~ Spec.negZero acc -> ~ Spec.negZero (accumulate l acc).
Proof.
  induction l as [|t l IH]; intros acc H; cbn; trivial.
  apply IH. intros N%add_neg_zero. now apply (c_not_negZero t).
Qed.

Lemma accumulate_not_nan l : forall acc,
  PrimFloat.is_nan acc = false ->
  Forall (fun t => PrimFloat.is_nan (c t) = false
                   /\ PrimFloat.is_infinity (c t) = false) l ->
  PrimFloat.is_nan (accumulate l acc) = false.
Proof.
  induction l as [|t l IH]; intros acc H F; cbn; trivial.
  inversion F as [|? ? [N I] F']; subst.
  apply IH; trivial. now apply add_is_nan.
Qed.

(** The code's filter-then-reduce is the specification's sum. *)
Lemma accumulate_filter_sumFrom k T : forall acc,
  ~ Spec.negZero acc ->
  accumulate (filter (fun t => Js.strictEqStr (kind t) k) T) acc
  = Spec.sumFrom kind a acc k T.
Proof.
  induction T as [|t T IH]; intros acc H; cbn; trivial.
  destruct (Js.strictEqStr (kind t) k); cbn; [|now apply IH].
  rewrite <- (c_amount acc t H). apply IH.
  intros N%add_neg_zero. now apply (c_not_negZero t).
Qed.

(** A record for which the code adds [0] can be left out. *)
Lemma accumulate_skip l1 t l2 acc :
  ~ Spec.negZero acc -> c t = Js.zero ->
  accumulate (l1 ++ t :: l2) acc = accumulate (l1 ++ l2) acc.
Proof.
  intros H Z. unfold Js.sumBy. rewrite !fold_left_app. cbn. rewrite Z.
  fold (Js.sumBy c l1 acc). rewrite add_zero_r; trivial.
  now apply accumulate_not_negZero.
Qed.
End Accumulate.

(** * The totals of the two dashboards *)

Lemma pages_contribution_not_negZero (t : Pages.Transacao) :
  ~ Spec.negZero (Js.optOrZero (Pages.valor t)).
Proof.
  destruct (Pages.valor t) as [v|]; cbn;
    [apply orZero_not_negZero | apply zero_not_negZero].
Qed.

Lemma pages_contribution_amount acc (t : Pages.Transacao) :
  ~ Spec.negZero acc ->
  PrimFloat.add acc (Js.optOrZero (Pages.valor t)) = PrimFloat.add acc (Spec.pagesAmount t).
Proof.
  intros H. unfold Spec.pagesAmount. destruct (Pages.valor t) as [v|]; cbn; trivial.
  destruct (PrimFloat.is_nan v) eqn:N; [|now apply add_orZero].
  unfold Js.orZero, Js.truthyNum. now rewrite N, orb_true_r.
Qed.

Lemma legacy_contribution_amount stn acc (t : Legacy.Transacao) :
  ~ Spec.negZero acc ->
  PrimFloat.add acc (Js.orZero (Js.Number stn (Legacy.valor t)))
  = PrimFloat.add acc (Spec.legacyAmount stn t).
Proof.
  intros H. unfold Spec.legacyAmount.
  destruct (PrimFloat.is_nan (Js.Number stn (Legacy.valor t))) eqn:N;
    [|now apply add_orZero].
  unfold Js.orZero, Js.truthyNum. now rewrite N, orb_true_r.
Qed.

Lemma pages_sum_spec k T :
  Js.sumBy (fun t => Js.optOrZero (Pages.valor t))
    (filter (fun t => Js.strictEqStr (Pages.tipo t) k) T) Js.zero
  = Spec.sumKind Pages.tipo Spec.pagesAmount k T.
Proof.
  apply accumulate_filter_sumFrom.
  - apply pages_contribution_not_negZero.
  - apply pages_contribution_amount.
  - apply zero_not_negZero.
Qed.

Lemma legacy_sum_spec stn k T :
  Legacy.total stn (Legacy.porTipo k (Some T))
  = Spec.sumKind Legacy.tipo (Spec.legacyAmount stn) k T.
Proof.
  unfold Legacy.total, Legacy.porTipo. apply accumulate_filter_sumFrom.
  - intros t. apply orZero_not_negZero.
  - apply legacy_contribution_amount.
  - apply zero_not_negZero.
Qed.

Lemma pages_sum_not_negZero l :
  ~ Spec.negZero (Js.sumBy (fun t => Js.optOrZero (Pages.valor t)) l Js.zero).
Proof.
  apply accumulate_not_negZero;
    [apply pages_contribution_not_negZero | apply zero_not_negZero].
Qed.

Lemma pages_sum_not_nan k T :
  forallb Spec.pagesFinite T = true ->
  PrimFloat.is_nan
    (Js.sumBy (fun t => Js.optOrZero (Pages.valor t))
       (filter (fun t => Js.strictEqStr (Pages.tipo t) k) T) Js.zero) = false.
Proof.
  intros F. apply accumulate_not_nan; [reflexivity|].
  apply Forall_forall. intros t [Ht _]%filter_In.
  rewrite forallb_forall in F. specialize (F t Ht). unfold Spec.pagesFinite in F.
  destruct (Pages.valor t) as [v|]; cbn; [|split; reflexivity].
  split; [apply orZero_not_nan|]. apply orZero_finite.
  now destruct (PrimFloat.is_infinity v).
Qed.

(** On records with finite amounts the trailing [|| 0] of [somaTipo] changes nothing. *)
Lemma pages_somaTipo_spec k T :
  forallb Spec.pagesFinite T = true ->
  Pages.somaTipo k (Some T) = Spec.sumKind Pages.tipo Spec.pagesAmount k T.
Proof.
  intros F. unfold Pages.somaTipo. rewrite orZero_fixed.
  - apply pages_sum_spec.
  - now apply pages_sum_not_nan.
  - apply pages_sum_not_negZero.
Qed.

Lemma zero_minus_zero : PrimFloat.sub Js.zero Js.zero = Js.zero.
Proof. reflexivity. Qed.

(** C1. For every list [T] of fetched transactions the summary has
    [totalReceitas = sum(amount for t in T if t.tipo == 'receita')],
    [totalDespesas = sum(amount for t in T if t.tipo == 'despesa')] and
    [saldo = totalReceitas - totalDespesas], exactly, in both dashboards (in
    the month/year dashboard for amounts that are finite numbers or null: its
    totals are [sum || 0], which is the sum unless the sum is [NaN]); for the
    empty list, and for a null array, all three are zero. *)
Theorem totals_correct :
  (forall stn T L,
      let s := Legacy.newStats stn (Some T) L in
      Legacy.totalReceitas s = Spec.sumKind Legacy.tipo (Spec.legacyAmount stn) "receita" T
      /\ Legacy.totalDespesas s = Spec.sumKind Legacy.tipo (Spec.legacyAmount stn) "despesa" T
      /\ Legacy.saldo s = PrimFloat.sub (Legacy.totalReceitas s) (Legacy.totalDespesas s))
  /\ (forall T L,
      forallb Spec.pagesFinite T = true ->
      let s := Pages.newStats (Some T) L in
      Pages.totalReceitas s = Spec.sumKind Pages.tipo Spec.pagesAmount "receita" T
      /\ Pages.totalDespesas s = Spec.sumKind Pages.tipo Spec.pagesAmount "despesa" T
      /\ Pages.saldo s = PrimFloat.sub (Pages.totalReceitas s) (Pages.totalDespesas s))
  /\ (forall T L,
      let s := Pages.newStats (Some T) L in
      Pages.totalReceitas s
      = Js.orZero (Spec.sumKind Pages.tipo Spec.pagesAmount "receita" T)
      /\ Pages.totalDespesas s
         = Js.orZero (Spec.sumKind Pages.tipo Spec.pagesAmount "despesa" T)
      /\ Pages.saldo s = PrimFloat.sub (Pages.totalReceitas s) (Pages.totalDespesas s))
  /\ (forall stn T L,
      T = Some [] \/ T = None ->
      let s := Legacy.newStats stn T L in
      Legacy.totalReceitas s = Js.zero /\ Legacy.totalDespesas s = Js.zero
      /\ Legacy.saldo s = Js.zero)
  /\ (forall T L,
      T = Some [] \/ T = None ->
      let s := Pages.newStats T L in
      Pages.totalReceitas s = Js.zero /\ Pages.totalDespesas s = Js.zero
      /\ Pages.saldo s = Js.zero).
Proof.
  repeat split.
  - apply legacy_sum_spec.
  - apply legacy_sum_spec.
  - cbn. now apply pages_somaTipo_spec.
  - cbn. now apply pages_somaTipo_spec.
  - cbn. now rewrite <- pages_sum_spec.
  - cbn. now rewrite <- pages_sum_spec.
  - destruct H; subst; reflexivity.
  - destruct H; subst; reflexivity.
  - destruct H; subst; reflexivity.
  - destruct H; subst; reflexivity.
  - destruct H; subst; reflexivity.
  - destruct H; subst; reflexivity.
Qed.

(** * One run of [fetchDashboardData] *)

(** C5. A run of [fetchDashboardData] never rejects, and ends in one of these
    ways only. No query answered (no identity, or no date range): the summary
    is as before. The transactions query failed: it is the only query issued
    (the reminders query is not), the summary is as before, and exactly one
    toast reports the error. The reminders query failed: the same, after two
    queries. Both succeeded: the complete summary is in place and no toast is
    shown. This holds for both dashboards. *)
Theorem fetch_all_or_nothing :
  (forall tz aT aL user fm fy w,
      let '(w', issued, res) :=
        Async.exec Pages.act aT aL (Pages.fetchDashboardData tz user fm fy) w [] in
      res = inl tt
      /\ match issued with
         | [] =>
             Spec.pagesSummary w' = Spec.pagesSummary w
             /\ (Pages.toasts w' = Pages.toasts w
                 \/ exists t, Pages.toasts w' = Pages.toasts w ++ [t])
         | [qt] =>
             Gateway.table qt = "transacoes"
             /\ exists e, Gateway.error (aT qt) = Some e
                  /\ Spec.pagesSummary w' = Spec.pagesSummary w
                  /\ Pages.toasts w' = Pages.toasts w ++ [Pages.errorToast e]
         | [qt; ql] =>
             Gateway.table qt = "transacoes" /\ Gateway.table ql = "lembretes"
             /\ Gateway.error (aT qt) = None
             /\ match Gateway.error (aL ql) with
                | Some e =>
                    Spec.pagesSummary w' = Spec.pagesSummary w
                    /\ Pages.toasts w' = Pages.toasts w ++ [Pages.errorToast e]
                | None =>
                    Spec.pagesSummary w'
                    = (Pages.newStats (Gateway.data (aT qt)) (Gateway.data (aL ql)),
                       Js.orEmpty (Gateway.data (aT qt)),
                       Js.orEmpty (Gateway.data (aL ql)))
                    /\ Pages.toasts w' = Pages.toasts w
                end
         | _ => False
         end)
  /\ (forall stn aT aL user now now' w,
      let '(w', issued, res) :=
        Async.exec Legacy.act aT aL (Legacy.fetchDashboardData stn user now now') w [] in
      res = inl tt
      /\ match issued with
         | [] =>
             Legacy.stats w' = Legacy.stats w
             /\ exists t, Legacy.toasts w' = Legacy.toasts w ++ [t]
         | [qt] =>
             Gateway.table qt = "transacoes"
             /\ ((exists e, Gateway.error (aT qt) = Some e
                    /\ Legacy.toasts w' = Legacy.toasts w ++ [Legacy.errorToast e])
                 \/ (exists t, Legacy.toasts w' = Legacy.toasts w ++ [t]))
             /\ Legacy.stats w' = Legacy.stats w
         | [qt; ql] =>
             Gateway.table qt = "transacoes" /\ Gateway.table ql = "lembretes"
             /\ Gateway.error (aT qt) = None
             /\ match Gateway.error (aL ql) with
                | Some e =>
                    Legacy.stats w' = Legacy.stats w
                    /\ Legacy.toasts w' = Legacy.toasts w ++ [Legacy.errorToast e]
                | None =>
                    Legacy.stats w'
                    = Legacy.newStats stn (Gateway.data (aT qt)) (Gateway.data (aL ql))
                    /\ Legacy.toasts w' = Legacy.toasts w
                end
         | _ => False
         end).
Proof.
  split.
  - intros tz aT aL user fm fy w. unfold Pages.fetchDashboardData.
    destruct (Auth.truthyId user) as [uid|]; fetch_cases;
      repeat match goal with
             | |- _ /\ _ => split
             | |- _ = _ => reflexivity
             | |- exists _, _ => eexists
             | H : ?x = _ |- context [?x] => rewrite H
             | |- _ \/ _ => first [left; reflexivity | right; eexists; reflexivity]
             end.
  - intros stn aT aL user now now' w. unfold Legacy.fetchDashboardData, Legacy.nowISO.
    fetch_cases;
      repeat match goal with
             | |- _ /\ _ => split
             | |- _ = _ => reflexivity
             | |- exists _, _ => eexists
             | H : ?x = _ |- context [?x] => rewrite H
             | |- _ \/ _ => first [left; eexists; split; [eassumption|reflexivity]
                                  | right; eexists; reflexivity]
             end.
Qed.

(** * No identity *)

(** A component whose user never had an id issues nothing and keeps the
    initial state, whatever the selectors do. *)
Lemma no_identity_invariant tz inputs : forall M,
  Auth.hasId (Pages.user M) = false -> Pages.fetches M = [] ->
  forallb (fun i => match i with
                    | Pages.SetUser u => negb (Auth.hasId u)
                    | _ => true
                    end) inputs = true ->
  let M' := Pages.steps tz M inputs in
  Pages.world M' = Pages.world M /\ Pages.issued M' = Pages.issued M
  /\ Pages.fetches M' = [] /\ Auth.hasId (Pages.user M') = false.
Proof.
  induction inputs as [|i inputs IH]; intros M Hu Hf Hi; cbn; [auto|].
  cbn in Hi. apply andb_prop in Hi as [Hi Hr].
  assert (S : Pages.world (Pages.step tz M i) = Pages.world M
              /\ Pages.issued (Pages.step tz M i) = Pages.issued M
              /\ Pages.fetches (Pages.step tz M i) = []
              /\ Auth.hasId (Pages.user (Pages.step tz M i)) = false).
  { destruct i as [u|v|v|n r|n r]; cbn.
    - apply negb_true_iff in Hi.
      destruct (Auth.optStrEqb _ _); unfold Pages.effect; cbn; rewrite ?Hi; cbn; auto.
    - destruct (v =? Pages.filterMonth M); unfold Pages.effect; cbn; rewrite ?Hu; auto.
    - destruct (v =? Pages.filterYear M); unfold Pages.effect; cbn; rewrite ?Hu; auto.
    - rewrite Hf. destruct n; cbn; auto.
    - rewrite Hf. destruct n; cbn; auto. }
  destruct S as (Sw & Si & Sf & Su).
  destruct (IH (Pages.step tz M i) Su Sf Hr) as (A & B & C & D).
  unfold Pages.steps in *. cbn in *. rewrite A, B, Sw, Si. auto.
Qed.

(** The guard of [fetchDashboardData] itself (lines 63-67) would clear
    [loading]; the effect never reaches it. *)
Lemma fetch_without_user_clears_loading tz aT aL fm fy w :
  let '(w', issued, res) :=
    Async.exec Pages.act aT aL (Pages.fetchDashboardData tz None fm fy) w [] in
  issued = [] /\ res = inl tt /\ Pages.loading w' = false
  /\ Pages.toasts w' = Pages.toasts w /\ Spec.pagesSummary w' = Spec.pagesSummary w.
Proof. cbn. auto. Qed.

(** C6. Mounted without a user (or with a user whose id is empty), the
    component issues no query and keeps the zero-valued initial summary, with
    no toast and nothing logged; [loading] is still [true], so what it renders
    is the loading skeleton and not the no-identity view of lines 161-171. *)
Theorem no_identity_renders_loading :
  forall tz month year u,
    u = None \/ u = Some (Auth.mkUser "") ->
    let M := Pages.mount tz u month year in
    Pages.issued M = [] /\ Pages.fetches M = []
    /\ Pages.world M = Pages.initialWorld
    /\ Pages.stats (Pages.world M) = Pages.mkStats Js.zero Js.zero Js.zero 0 0
    /\ Pages.render M = Pages.LoadingView
    /\ Pages.render M <> Pages.NoUserView.
Proof.
  intros tz month year u [-> | ->]; cbn; repeat split; discriminate.
Qed.

Lemma no_identity_renders_loading_at_mount :
  let M := Pages.mount Examples.brt None 3 2024 in
  Pages.issued M = [] /\ Pages.fetches M = []
  /\ Pages.world M = Pages.initialWorld
  /\ Pages.stats (Pages.world M) = Pages.mkStats Js.zero Js.zero Js.zero 0 0
  /\ Pages.render M = Pages.LoadingView
  /\ Pages.render M <> Pages.NoUserView.
Proof. apply (no_identity_renders_loading Examples.brt 3 2024 None). now left. Defined.

(** * The profile *)

(** C10 (as amended). A run of [fetchProfile] never throws to its caller. When
    the query returns an error the error is only logged and the profile state
    stays as it was; otherwise the state becomes the returned row (or null).
    The component renders nothing exactly when the state holds no profile, so
    it never renders with a missing profile; after an error it renders
    nothing when no profile had been loaded before. *)
Theorem profile_fetch_outcome :
  forall user r w,
    let '(w', issued, res) := Profile.afterFetch user r w in
    res = inl tt
    /\ match Gateway.s_error r with
       | Some e =>
           Profile.profile w' = Profile.profile w
           /\ Profile.console w' = Profile.console w ++ [(true, "Erro ao carregar perfil:"%string)]
           /\ (Profile.profile w = None -> Profile.render w' = Profile.Null)
       | None =>
           Profile.profile w' = Gateway.s_data r
           /\ Profile.console w' = Profile.console w
       end
    /\ (Profile.render w' = Profile.Null <-> Profile.profile w' = None)
    /\ (forall p, Profile.render w' = Profile.ProfileLink p -> Profile.profile w' = Some p).
Proof.
  intros user r w. unfold Profile.afterFetch, Profile.fetchProfile. cbn.
  destruct (Gateway.s_error r) as [e|]; cbn; unfold Profile.render; cbn.
  - repeat split; intros; destruct (Profile.profile w); congruence.
  - repeat split; intros; destruct (Gateway.s_data r); congruence.
Qed.

(** An error does not always blank the component: when a profile was loaded
    before the failing query, the component goes on rendering it. *)
Lemma profile_error_keeps_old_profile :
  let w := Profile.mkWorld (Some Examples.ana) [] in
  let r := Gateway.mkSingle None (Some (Gateway.mkError "network")) in
  let '(w', _, _) := Profile.afterFetch (Some Examples.userA) r w in
  Profile.render w' = Profile.ProfileLink Examples.ana
  /\ Profile.render w' <> Profile.Null.
Proof. cbn. split; [reflexivity|discriminate]. Qed.

(** * Records that add nothing *)

Lemma filter_drop {A} (p : A -> bool) l1 t l2 :
  p t = false -> filter p (l1 ++ t :: l2) = filter p (l1 ++ l2).
Proof. intros H. rewrite !filter_app. cbn. now rewrite H. Qed.

Lemma filter_keep {A} (p : A -> bool) l1 t l2 :
  p t = true -> filter p (l1 ++ t :: l2) = filter p l1 ++ t :: filter p l2.
Proof. intros H. rewrite !filter_app. cbn. now rewrite H. Qed.



(** A record for which the code adds [0], or which the filter rejects, can be
    left out of the fetched list without changing a total. *)
Lemma pages_somaTipo_skip k l1 t l2 :
  Js.optOrZero (Pages.valor t) = Js.zero \/ Js.strictEqStr (Pages.tipo t) k = false ->
  Pages.somaTipo k (Some (l1 ++ t :: l2)) = Pages.somaTipo k (Some (l1 ++ l2)).
Proof.
  intros H. unfold Pages.somaTipo. f_equal.
  destruct (Js.strictEqStr (Pages.tipo t) k) eqn:K.
  - destruct H as [H|H]; [|discriminate].
    rewrite filter_keep, filter_app by exact K.
    apply (accumulate_skip (fun t => Js.optOrZero (Pages.valor t)));
      [apply pages_contribution_not_negZero | apply zero_not_negZero | exact H].
  - now rewrite filter_drop.
Qed.

Lemma legacy_total_skip stn k l1 t l2 :
  Js.orZero (Js.Number stn (Legacy.valor t)) = Js.zero
  \/ Js.strictEqStr (Legacy.tipo t) k = false ->
  Legacy.total stn (Legacy.porTipo k (Some (l1 ++ t :: l2)))
  = Legacy.total stn (Legacy.porTipo k (Some (l1 ++ l2))).
Proof.
  intros H. unfold Legacy.total, Legacy.porTipo.
  destruct (Js.strictEqStr (Legacy.tipo t) k) eqn:K.
  - destruct H as [H|H]; [|discriminate].
    rewrite filter_keep, filter_app by exact K.
    apply (accumulate_skip (fun t => Js.orZero (Js.Number stn (Legacy.valor t))));
      [intros; apply orZero_not_negZero | apply zero_not_negZero | exact H].
  - now rewrite filter_drop.
Qed.



(** ** Amounts that are not numbers, in the month/year dashboard *)



Section UntypedSums.
Variable stn : string -> Js.number.
Variable nts : Js.number -> string.







End UntypedSums.




(** Two totals that overflow: the balance of the month/year dashboard, on
    rows as declared, is [NaN] when both totals are infinite. *)
Example balance_of_two_overflows :
  let big n k := Examples.row n "2024-04-02" (Some 0x1p1023%float) k "user-a" in
  let s := Pages.newStats
             (Some [big 1 "receita"; big 2 "receita"; big 3 "despesa"; big 4 "despesa"])
             None in
  PrimFloat.is_infinity (Pages.totalReceitas s) = true
  /\ PrimFloat.is_infinity (Pages.totalDespesas s) = true
  /\ PrimFloat.is_nan (Pages.saldo s) = true.
Proof. vm_compute. repeat split. Qed.

Lemma firstn_keeps {A} n (l1 : list A) t l2 :
  (List.length l1 < n)%nat -> In t (firstn n (l1 ++ t :: l2)).
Proof.
  intros Hl. rewrite firstn_app. apply in_or_app. right.
  destruct (n - List.length l1)%nat eqn:E; [lia|]. now left.
Qed.

(** C9. A fetched transaction whose kind is neither ['receita'] nor
    ['despesa'] adds nothing to either total (the totals and the balance are
    those of the list without it), yet it is counted in [transacoesCount] and
    kept in the list shown; so the balance can differ from every signed sum
    over all the fetched transactions. *)
Theorem other_kinds_counted_not_summed :
  (forall l1 t l2 L, Spec.otherKind (Pages.tipo t) = true ->
      let s := Pages.newStats (Some (l1 ++ t :: l2)) L in
      let s' := Pages.newStats (Some (l1 ++ l2)) L in
      Pages.totalReceitas s = Pages.totalReceitas s'
      /\ Pages.totalDespesas s = Pages.totalDespesas s'
      /\ Pages.saldo s = Pages.saldo s'
      /\ Pages.transacoesCount s = S (Pages.transacoesCount s'))
  /\ (forall tz aT aL user fm fy w l1 t l2,
      let '(w', issued, _) :=
        Async.exec Pages.act aT aL (Pages.fetchDashboardData tz user fm fy) w [] in
      match issued with
      | [qt; ql] =>
          Gateway.error (aL ql) = None ->
          Gateway.data (aT qt) = Some (l1 ++ t :: l2) ->
          In t (Pages.transacoes w')
          /\ Pages.transacoesCount (Pages.stats w') = List.length (Pages.transacoes w')
      | _ => True
      end)
  /\ (forall stn l1 t l2 L, Spec.otherKind (Legacy.tipo t) = true ->
      let s := Legacy.newStats stn (Some (l1 ++ t :: l2)) L in
      let s' := Legacy.newStats stn (Some (l1 ++ l2)) L in
      Legacy.totalReceitas s = Legacy.totalReceitas s'
      /\ Legacy.totalDespesas s = Legacy.totalDespesas s'
      /\ Legacy.saldo s = Legacy.saldo s'
      /\ ((List.length l1 < 5)%nat -> In t (Legacy.transacoesRecentes s)))
  /\ (forall sign L,
      Pages.saldo (Pages.newStats (Some [Examples.transfer]) L)
      <> Spec.signedSum Spec.pagesAmount sign [Examples.transfer]).
Proof.
  split.
  { intros l1 t l2 L K. apply andb_prop in K as [K1 K2].
    apply negb_true_iff in K1, K2. cbn -[Pages.somaTipo].
    rewrite !(pages_somaTipo_skip _ l1 t l2) by (now right).
    repeat split. rewrite !length_app. cbn. lia. }
  split.
  { intros tz aT aL user fm fy w l1 t l2. unfold Pages.fetchDashboardData.
    destruct (Auth.truthyId user); fetch_cases; trivial; try discriminate.
    intros _ Ed. rewrite Ed. cbn. split; [|reflexivity].
    apply in_or_app. right. now left. }
  split.
  { intros stn l1 t l2 L K. apply andb_prop in K as [K1 K2].
    apply negb_true_iff in K1, K2. cbn -[Legacy.total Legacy.porTipo].
    rewrite !(legacy_total_skip stn _ l1 t l2) by (now right).
    repeat split. intros Hl. now apply (firstn_keeps 5). }
  intros sign L H. unfold Spec.signedSum in H. cbn in H.
  destruct (sign Examples.transfer);
    apply (f_equal PrimFloat.is_zero) in H; vm_compute in H; discriminate.
Qed.

(** * The gateway that honours its query *)

Section HonestGateway.
Context {A : Type}.
Variable column : string -> A -> option string.


Lemma insertRow_In c asc r l x :
  In x (Gateway.insertRow column c asc r l) <-> x = r \/ In x l.
Proof.
  induction l as [|y l IH]; cbn; [intuition|].
  destruct (Gateway.before column c asc y r); cbn; rewrite ?IH; intuition.
Qed.



Lemma sortRows_In c asc l x : In x (Gateway.sortRows column c asc l) <-> In x l.
Proof.
  induction l as [|y l IH]; [cbn; tauto|].
  change (Gateway.sortRows column c asc (y :: l))
    with (Gateway.insertRow column c asc y (Gateway.sortRows column c asc l)).
  rewrite insertRow_In, IH. cbn. intuition.
Qed.




Lemma firstn_incl n : forall (l : list A) x, In x (firstn n l) -> In x l.
Proof.
  induction n as [|n IH]; intros [|y l] x; cbn; try tauto.
  intros [->|H]; auto.
Qed.

(** Every row of the answer satisfies every filter of the query. *)
Lemma execute_holds rows q r :
  In r (Gateway.execute column rows q) ->
  In r rows /\ Gateway.holdsAll column (Gateway.filters q) r = true.
Proof.
  unfold Gateway.execute. intros H. apply filter_In.
  destruct (Gateway.rowLimit q) as [n|]; [apply firstn_incl in H|];
    (destruct (Gateway.ordering q) as [[c asc]|]; [apply sortRows_In in H|]); exact H.
Qed.

(** The answer depends only on the rows that pass a predicate implied by the
    filters. *)
Lemma execute_restrict (keep : A -> bool) rows q :
  (forall r, Gateway.holdsAll column (Gateway.filters q) r = true -> keep r = true) ->
  Gateway.execute column rows q = Gateway.execute column (filter keep rows) q.
Proof.
  intros K. unfold Gateway.execute.
  assert (E : filter (Gateway.holdsAll column (Gateway.filters q)) (filter keep rows)
              = filter (Gateway.holdsAll column (Gateway.filters q)) rows).
  { induction rows as [|r rows IH]; cbn; trivial.
    destruct (keep r) eqn:Kr; cbn; rewrite IH; trivial.
    destruct (Gateway.holdsAll column (Gateway.filters q) r) eqn:H; trivial.
    apply K in H. congruence. }
  now rewrite E.
Qed.
End HonestGateway.

(** * Owner isolation *)

Lemma pages_transacoes_owner uid desde ate r :
  Gateway.holdsAll Pages.transacaoColumn
    (Gateway.filters (Pages.transacoesQuery uid desde ate)) r = true ->
  Auth.optStrEqb (Pages.userid r) (Some uid) = true.
Proof.
  cbn.
  destruct (Pages.userid r); cbn; [|discriminate].
  intros H. now apply andb_prop in H as [H _].
Qed.

Lemma pages_lembretes_owner uid desde ate r :
  Gateway.holdsAll Pages.lembreteColumn
    (Gateway.filters (Pages.lembretesQuery uid desde ate)) r = true ->
  Auth.optStrEqb (Pages.l_userid r) (Some uid) = true.
Proof.
  cbn.
  destruct (Pages.l_userid r); cbn; [|discriminate].
  intros H. now apply andb_prop in H as [H _].
Qed.

Lemma legacy_transacoes_owner uid cm r :
  Gateway.holdsAll Legacy.transacaoColumn
    (Gateway.filters (Legacy.transacoesQuery (Some uid) cm)) r = true ->
  Auth.optStrEqb (Legacy.userid r) (Some uid) = true.
Proof.
  cbn.
  destruct (Legacy.userid r); cbn; [|discriminate].
  intros H. now apply andb_prop in H as [H _].
Qed.

Lemma legacy_lembretes_owner uid today r :
  Gateway.holdsAll Legacy.lembreteColumn
    (Gateway.filters (Legacy.lembretesQuery (Some uid) today)) r = true ->
  Auth.optStrEqb (Legacy.l_userid r) (Some uid) = true.
Proof.
  cbn.
  destruct (Legacy.l_userid r); cbn; [|discriminate].
  intros H. now apply andb_prop in H as [H _].
Qed.

Lemma optStrEqb_eq a b : Auth.optStrEqb a b = true -> a = b.
Proof.
  destruct a, b; cbn; try discriminate; trivial.
  now intros ->%String.eqb_eq.
Qed.

(** C3 (as amended). Owner isolation is the work of the [userid] filter of the
    two queries. For a gateway that honours the query, a run for owner [uid]
    is unchanged when rows of other owners are added to or removed from the
    tables, and every row it shows belongs to [uid]; the aggregation itself
    applies no owner filter. This holds for both dashboards. *)
Theorem owner_isolation_by_query :
  (forall tz user fm fy w uid rowsT rowsT' rowsL rowsL',
      Auth.truthyId user = Some uid ->
      Spec.ownedBy Pages.userid uid rowsT = Spec.ownedBy Pages.userid uid rowsT' ->
      Spec.ownedBy Pages.l_userid uid rowsL = Spec.ownedBy Pages.l_userid uid rowsL' ->
      Async.exec Pages.act (Gateway.respond Pages.transacaoColumn rowsT)
        (Gateway.respond Pages.lembreteColumn rowsL)
        (Pages.fetchDashboardData tz user fm fy) w []
      = Async.exec Pages.act (Gateway.respond Pages.transacaoColumn rowsT')
          (Gateway.respond Pages.lembreteColumn rowsL')
          (Pages.fetchDashboardData tz user fm fy) w [])
  /\ (forall tz user fm fy uid rowsT rowsL,
      Auth.truthyId user = Some uid ->
      let '(w', _, _) :=
        Async.exec Pages.act (Gateway.respond Pages.transacaoColumn rowsT)
          (Gateway.respond Pages.lembreteColumn rowsL)
          (Pages.fetchDashboardData tz user fm fy) Pages.initialWorld [] in
      (forall r, In r (Pages.transacoes w') -> Pages.userid r = Some uid)
      /\ (forall r, In r (Pages.lembretes w') -> Pages.l_userid r = Some uid))
  /\ (forall stn u now now' w rowsT rowsT' rowsL rowsL',
      Spec.ownedBy Legacy.userid (Auth.id u) rowsT
      = Spec.ownedBy Legacy.userid (Auth.id u) rowsT' ->
      Spec.ownedBy Legacy.l_userid (Auth.id u) rowsL
      = Spec.ownedBy Legacy.l_userid (Auth.id u) rowsL' ->
      Async.exec Legacy.act (Gateway.respond Legacy.transacaoColumn rowsT)
        (Gateway.respond Legacy.lembreteColumn rowsL)
        (Legacy.fetchDashboardData stn (Some u) now now') w []
      = Async.exec Legacy.act (Gateway.respond Legacy.transacaoColumn rowsT')
          (Gateway.respond Legacy.lembreteColumn rowsL')
          (Legacy.fetchDashboardData stn (Some u) now now') w [])
  /\ (forall stn u now now' rowsT rowsL,
      let '(w', _, _) :=
        Async.exec Legacy.act (Gateway.respond Legacy.transacaoColumn rowsT)
          (Gateway.respond Legacy.lembreteColumn rowsL)
          (Legacy.fetchDashboardData stn (Some u) now now') Legacy.initialWorld [] in
      (forall r, In r (Legacy.transacoesRecentes (Legacy.stats w')) ->
                 Legacy.userid r = Some (Auth.id u))
      /\ (forall r, In r (Legacy.lembretesProximos (Legacy.stats w')) ->
                    Legacy.l_userid r = Some (Auth.id u))).
Proof.
  split; [|split; [|split]].
  - intros tz user fm fy w uid rowsT rowsT' rowsL rowsL' Hu HT HL.
    assert (ET : forall d a,
               Gateway.execute Pages.transacaoColumn rowsT (Pages.transacoesQuery uid d a)
               = Gateway.execute Pages.transacaoColumn rowsT' (Pages.transacoesQuery uid d a)).
    { intros d a.
      rewrite (execute_restrict _ _ rowsT _ (pages_transacoes_owner uid d a)).
      rewrite (execute_restrict _ _ rowsT' _ (pages_transacoes_owner uid d a)).
      unfold Spec.ownedBy in HT. now rewrite HT. }
    assert (EL : forall d a,
               Gateway.execute Pages.lembreteColumn rowsL (Pages.lembretesQuery uid d a)
               = Gateway.execute Pages.lembreteColumn rowsL' (Pages.lembretesQuery uid d a)).
    { intros d a.
      rewrite (execute_restrict _ _ rowsL _ (pages_lembretes_owner uid d a)).
      rewrite (execute_restrict _ _ rowsL' _ (pages_lembretes_owner uid d a)).
      unfold Spec.ownedBy in HL. now rewrite HL. }
    unfold Pages.fetchDashboardData. rewrite Hu. unfold Gateway.respond.
    fetch_cases; rewrite ?ET, ?EL; reflexivity.
  - intros tz user fm fy uid rowsT rowsL Hu.
    unfold Pages.fetchDashboardData. rewrite Hu. unfold Gateway.respond.
    fetch_cases; (split; [|]); intros r Hr; try contradiction;
      apply execute_holds in Hr as [_ Hr]; apply optStrEqb_eq;
      [eapply pages_transacoes_owner | eapply pages_lembretes_owner]; exact Hr.
  - intros stn u now now' w rowsT rowsT' rowsL rowsL' HT HL.
    assert (ET : forall cm,
               Gateway.execute Legacy.transacaoColumn rowsT
                 (Legacy.transacoesQuery (Some (Auth.id u)) cm)
               = Gateway.execute Legacy.transacaoColumn rowsT'
                   (Legacy.transacoesQuery (Some (Auth.id u)) cm)).
    { intros cm.
      rewrite (execute_restrict _ _ rowsT _ (legacy_transacoes_owner (Auth.id u) cm)).
      rewrite (execute_restrict _ _ rowsT' _ (legacy_transacoes_owner (Auth.id u) cm)).
      unfold Spec.ownedBy in HT. now rewrite HT. }
    assert (EL : forall d,
               Gateway.execute Legacy.lembreteColumn rowsL
                 (Legacy.lembretesQuery (Some (Auth.id u)) d)
               = Gateway.execute Legacy.lembreteColumn rowsL'
                   (Legacy.lembretesQuery (Some (Auth.id u)) d)).
    { intros d.
      rewrite (execute_restrict _ _ rowsL _ (legacy_lembretes_owner (Auth.id u) d)).
      rewrite (execute_restrict _ _ rowsL' _ (legacy_lembretes_owner (Auth.id u) d)).
      unfold Spec.ownedBy in HL. now rewrite HL. }
    unfold Legacy.fetchDashboardData, Legacy.nowISO, Gateway.respond.
    fetch_cases; rewrite ?ET, ?EL; reflexivity.
  - intros stn u now now' rowsT rowsL.
    unfold Legacy.fetchDashboardData, Legacy.nowISO, Gateway.respond.
    fetch_cases; (split; [|]); intros r Hr; try contradiction.
    + apply firstn_incl in Hr. apply execute_holds in Hr as [_ Hr].
      apply optStrEqb_eq. eapply legacy_transacoes_owner. exact Hr.
    + apply execute_holds in Hr as [_ Hr].
      apply optStrEqb_eq. eapply legacy_lembretes_owner. exact Hr.
Qed.

(** No owner filter in the aggregation: when the rows the gateway returns hold
    records of two owners, the run for owner A shows and sums the record of
    owner B. *)
Lemma raw_rows_of_another_owner_are_summed :
  let aT := fun _ => Examples.rows [Examples.salary; Examples.foreign] in
  let aL := fun _ => Examples.rows [] in
  let '(w', _, _) :=
    Async.exec Pages.act aT aL
      (Pages.fetchDashboardData Examples.utc (Some Examples.userA) 3 2024)
      Pages.initialWorld [] in
  In Examples.foreign (Pages.transacoes w')
  /\ Pages.userid Examples.foreign = Some "user-b"%string
  /\ Pages.totalReceitas (Pages.stats w') = 120.5%float
  /\ Pages.totalReceitas (Pages.newStats (Some [Examples.salary]) None) = 100.5%float.
Proof. vm_compute. repeat split. right. left. reflexivity. Qed.

Lemma owner_isolation_by_query_witness :
  Async.exec Pages.act
    (Gateway.respond Pages.transacaoColumn [Examples.salary; Examples.foreign; Examples.rent])
    (Gateway.respond Pages.lembreteColumn [])
    (Pages.fetchDashboardData Examples.brt (Some Examples.userA) 3 2024)
    Pages.initialWorld []
  = Async.exec Pages.act
      (Gateway.respond Pages.transacaoColumn [Examples.salary; Examples.rent])
      (Gateway.respond Pages.lembreteColumn [])
      (Pages.fetchDashboardData Examples.brt (Some Examples.userA) 3 2024)
      Pages.initialWorld [].
Proof.
  apply (proj1 owner_isolation_by_query Examples.brt (Some Examples.userA) 3 2024
           Pages.initialWorld "user-a"%string); reflexivity.
Defined.

Lemma totals_correct_witness :
  let T := [Examples.salary; Examples.rent; Examples.blank; Examples.transfer] in
  let s := Pages.newStats (Some T) None in
  Pages.totalReceitas s = Spec.sumKind Pages.tipo Spec.pagesAmount "receita" T
  /\ Pages.totalDespesas s = Spec.sumKind Pages.tipo Spec.pagesAmount "despesa" T
  /\ Pages.saldo s = PrimFloat.sub (Pages.totalReceitas s) (Pages.totalDespesas s).
Proof.
  apply (proj1 (proj2 totals_correct)
           [Examples.salary; Examples.rent; Examples.blank; Examples.transfer] None).
  reflexivity.
Defined.

(** * The lists shown *)




(** * Overlapping fetches *)

(** The three stretches of a successful fetch: up to the first [await], from
    the transactions to the second [await], and from the reminders to the end. *)
Lemma pages_fetch_shape tz user fm fy uid desde ate :
  Auth.truthyId user = Some uid ->
  Spec.pagesRange tz fm fy = Some (desde, ate) ->
  exists k1,
    (forall w, Async.advance Pages.act (Pages.fetchDashboardData tz user fm fy) w
               = (Spec.pagesStarted w, Async.OnT (Pages.transacoesQuery uid desde ate) k1))
    /\ forall rt, Gateway.error rt = None ->
       exists k2,
         (forall w, Async.advance Pages.act (k1 rt) w
                    = (Spec.pagesAnswered w,
                       Async.OnL (Pages.lembretesQuery uid desde ate) k2))
         /\ forall rl, Gateway.error rl = None ->
            forall w, Async.advance Pages.act (k2 rl) w
                      = (Spec.pagesDone rt rl w, Async.Fulfilled tt).
Proof.
  intros Hu R. unfold Spec.pagesRange, Spec.isoDayOf in R.
  unfold Pages.fetchDashboardData, Pages.isoDay. rewrite Hu.
  destruct (JsDate.toISOString (JsDate.construct tz fy fm 1 0 0 0)) as [s|]; [|discriminate].
  destruct (JsDate.toISOString (JsDate.construct tz fy (fm + 1) 0 23 59 59)) as [e|];
    [|discriminate].
  injection R as <- <-.
  eexists. split; [intros w; reflexivity|].
  intros rt Et. cbn -[Js.splitHead Pages.transacoesQuery Pages.lembretesQuery]. rewrite Et.
  eexists. split; [intros w; reflexivity|].
  intros rl El w. cbn -[Js.splitHead Pages.transacoesQuery Pages.lembretesQuery Pages.newStats].
  rewrite El. reflexivity.
Qed.

Lemma summary_started w : Spec.pagesSummary (Spec.pagesStarted w) = Spec.pagesSummary w.
Proof. reflexivity. Qed.

Lemma summary_answered w : Spec.pagesSummary (Spec.pagesAnswered w) = Spec.pagesSummary w.
Proof. reflexivity. Qed.

Lemma summary_done rt rl w :
  Spec.pagesSummary (Spec.pagesDone rt rl w) = Spec.pagesComplete rt rl.
Proof. reflexivity. Qed.

(** C8 (as amended). The component has no stale-response protection. With a
    fetch in flight for the parameters P1 and a second one started by a change
    to P2, and both fetches succeeding, the summary shown in the end is that
    of the fetch whose last response arrives last, in every order of arrival:
    it reflects P2 only when P2's fetch finishes last, and a P1 result that
    arrives later is not discarded. *)
Theorem last_resolved_fetch_wins :
  forall tz u fm1 fm2 fy rt1 rl1 rt2 rl2 sched,
    Auth.hasId (Some u) = true -> fm2 <> fm1 ->
    Spec.pagesRange tz fm1 fy <> None -> Spec.pagesRange tz fm2 fy <> None ->
    Gateway.error rt1 = None -> Gateway.error rl1 = None ->
    Gateway.error rt2 = None -> Gateway.error rl2 = None ->
    In sched (Spec.interleavings
                [Pages.ResolveT 0 rt1; Pages.ResolveL 0 rl1]
                [Pages.ResolveT 1 rt2; Pages.ResolveL 1 rl2]) ->
    let M := Pages.steps tz
               (Pages.step tz (Pages.mount tz (Some u) fm1 fy) (Pages.SetFilterMonth fm2))
               sched in
    Pages.filterMonth M = fm2
    /\ Spec.pagesSummary (Pages.world M)
       = match Spec.finishedLast sched with
         | Some 0%nat => Spec.pagesComplete rt1 rl1
         | _ => Spec.pagesComplete rt2 rl2
         end.
Proof.
  intros tz u fm1 fm2 fy rt1 rl1 rt2 rl2 sched Hu Hfm R1 R2 E1 E1' E2 E2' Hs.
  pose proof Hu as Hid. unfold Auth.hasId in Hid.
  destruct (Auth.truthyId (Some u)) as [uid|] eqn:Hid'; [clear Hid|discriminate].
  destruct (Spec.pagesRange tz fm1 fy) as [[d1 a1]|] eqn:P1; [clear R1|contradiction].
  destruct (Spec.pagesRange tz fm2 fy) as [[d2 a2]|] eqn:P2; [clear R2|contradiction].
  destruct (pages_fetch_shape tz (Some u) fm1 fy uid d1 a1 Hid' P1) as (k1 & A1 & B1).
  destruct (B1 rt1 E1) as (k1' & A1' & C1). specialize (C1 rl1 E1'). clear B1.
  destruct (pages_fetch_shape tz (Some u) fm2 fy uid d2 a2 Hid' P2) as (k2 & A2 & B2).
  destruct (B2 rt2 E2) as (k2' & A2' & C2). specialize (C2 rl2 E2'). clear B2.
  apply Z.eqb_neq in Hfm.
  unfold Pages.mount, Pages.effect. cbn [Pages.user]. rewrite Hu.
  unfold Pages.startFetch. cbn [Pages.user Pages.filterMonth Pages.filterYear Pages.world].
  rewrite A1. cbn [Pages.step Pages.filterMonth]. rewrite Hfm.
  unfold Pages.effect. cbn [Pages.user]. rewrite Hu.
  unfold Pages.startFetch. cbn [Pages.user Pages.filterMonth Pages.filterYear Pages.world].
  rewrite A2.
  cbn [Pages.user Pages.filterMonth Pages.filterYear Pages.world Pages.issued
       Pages.fetches Pages.pendingQuery app].
  cbn in Hs.
  repeat (destruct Hs as [<-|Hs]; [|]); try contradiction;
    unfold Pages.steps; cbn [fold_left];
    repeat machine_step ltac:(rewrite ?A1', ?C1, ?A2', ?C2);
    (split; [reflexivity|apply summary_done]).
Qed.

Lemma last_resolved_fetch_wins_witness :
  let april := Examples.rows [Examples.salary] in
  let may := Examples.rows [Examples.bonus] in
  let none := Examples.rows (@nil Pages.Lembrete) in
  let sched := [Pages.ResolveT 1 may; Pages.ResolveT 0 april;
                Pages.ResolveL 1 none; Pages.ResolveL 0 none] in
  let M := Pages.steps Examples.brt
             (Pages.step Examples.brt (Pages.mount Examples.brt (Some Examples.userA) 3 2024)
                (Pages.SetFilterMonth 4))
             sched in
  Pages.filterMonth M = 4
  /\ Spec.pagesSummary (Pages.world M)
     = match Spec.finishedLast sched with
       | Some 0%nat => Spec.pagesComplete april none
       | _ => Spec.pagesComplete may none
       end.
Proof.
  apply (last_resolved_fetch_wins Examples.brt Examples.userA 3 4 2024);
    try reflexivity; try discriminate.
  cbn. repeat (first [left; reflexivity | right]).
Defined.

(** A stale response overwrites a newer one: the selector shows May (P2), the
    fetch for April (P1) resolves after the fetch for May, and the summary
    shown in the end is April's. *)
Lemma stale_response_overwrites :
  let april := Examples.rows [Examples.salary] in
  let may := Examples.rows [Examples.bonus] in
  let none := Examples.rows (@nil Pages.Lembrete) in
  let M := Pages.steps Examples.utc
             (Pages.step Examples.utc (Pages.mount Examples.utc (Some Examples.userA) 3 2024)
                (Pages.SetFilterMonth 4))
             [Pages.ResolveT 1 may; Pages.ResolveL 1 none;
              Pages.ResolveT 0 april; Pages.ResolveL 0 none] in
  Pages.filterMonth M = 4
  /\ Pages.render M
     = Pages.DashboardView (Pages.newStats (Some [Examples.salary]) (Some []))
         [Examples.salary] [] 1
  /\ Spec.pagesSummary (Pages.world M) = Spec.pagesComplete april none
  /\ Spec.pagesSummary (Pages.world M) <> Spec.pagesComplete may none.
Proof.
  vm_compute. repeat split. discriminate.
Qed.

(** * Calendar arithmetic *)

Lemma small_nat_cases (n : nat) m :
  0 <= m < Z.of_nat n -> In m (map Z.of_nat (seq 0 n)).
Proof.
  intros H. rewrite <- (Z2Nat.id m) by lia.
  apply in_map, in_seq. lia.
Qed.

Lemma DayFromYear_succ y :
  JsDate.DayFromYear (y + 1) = JsDate.DayFromYear y + JsDate.DaysInYear y.
Proof.
  unfold JsDate.DayFromYear, JsDate.DaysInYear.
  destruct (Z.eqb_spec (y mod 4) 0), (Z.eqb_spec (y mod 100) 0),
    (Z.eqb_spec (y mod 400) 0); cbn [negb]; Z.div_mod_to_equations; lia.
Qed.

Lemma DaysInYear_cases y : JsDate.DaysInYear y = 365 \/ JsDate.DaysInYear y = 366.
Proof.
  unfold JsDate.DaysInYear.
  destruct (negb _); auto. destruct (negb _); auto. destruct (negb _); auto.
Qed.

Lemma DayFromYear_lt a b : a < b -> JsDate.DayFromYear a + 365 <= JsDate.DayFromYear b.
Proof. unfold JsDate.DayFromYear. intros H. Z.div_mod_to_equations. lia. Qed.

Lemma YearFromDay_spec d :
  JsDate.DayFromYear (JsDate.YearFromDay d) <= d
  < JsDate.DayFromYear (JsDate.YearFromDay d + 1).
Proof.
  unfold JsDate.YearFromDay.
  destruct (Z.ltb_spec d (JsDate.DayFromYear (1970 + 400 * d / 146097))).
  - replace (1970 + 400 * d / 146097 - 1 + 1) with (1970 + 400 * d / 146097) by lia.
    split; [|lia]. unfold JsDate.DayFromYear in *. Z.div_mod_to_equations; lia.
  - destruct (Z.leb_spec (JsDate.DayFromYear (1970 + 400 * d / 146097 + 1)) d).
    + split; [lia|]. unfold JsDate.DayFromYear in *. Z.div_mod_to_equations; lia.
    + lia.
Qed.

Lemma DayFromYear_le a b : a <= b -> JsDate.DayFromYear a <= JsDate.DayFromYear b.
Proof. unfold JsDate.DayFromYear. intros H. Z.div_mod_to_equations. lia. Qed.

Lemma YearFromDay_unique y d :
  JsDate.DayFromYear y <= d < JsDate.DayFromYear (y + 1) -> JsDate.YearFromDay d = y.
Proof.
  intros H. pose proof (YearFromDay_spec d) as S.
  destruct (Z.lt_trichotomy (JsDate.YearFromDay d) y) as [L|[E|G]]; trivial.
  - pose proof (DayFromYear_le (JsDate.YearFromDay d + 1) y). lia.
  - pose proof (DayFromYear_le (y + 1) (JsDate.YearFromDay d)). lia.
Qed.

Lemma YearFromDay_mono d1 d2 : d1 <= d2 -> JsDate.YearFromDay d1 <= JsDate.YearFromDay d2.
Proof.
  intros H. pose proof (YearFromDay_spec d1). pose proof (YearFromDay_spec d2).
  destruct (Z.le_gt_cases (JsDate.YearFromDay d1) (JsDate.YearFromDay d2)) as [L|G]; trivial.
  pose proof (DayFromYear_le (JsDate.YearFromDay d2 + 1) (JsDate.YearFromDay d1)). lia.
Qed.

Lemma DayWithinYear_range t :
  0 <= JsDate.DayWithinYear t < 365 + JsDate.InLeapYear t.
Proof.
  unfold JsDate.DayWithinYear, JsDate.InLeapYear, JsDate.YearFromTime.
  pose proof (YearFromDay_spec (JsDate.Day t)) as S.
  rewrite DayFromYear_succ in S.
  destruct (DaysInYear_cases (JsDate.YearFromDay (JsDate.Day t))) as [E|E];
    rewrite E in *; cbn; lia.
Qed.

Lemma month_date_range t :
  0 <= JsDate.MonthFromTime t <= 11 /\ 1 <= JsDate.DateFromTime t <= 31.
Proof.
  pose proof (DayWithinYear_range t) as R.
  unfold JsDate.DateFromTime, JsDate.MonthFromTime.
  assert (L : JsDate.InLeapYear t = 0 \/ JsDate.InLeapYear t = 1)
    by (unfold JsDate.InLeapYear; destruct (_ =? _); auto).
  set (k := JsDate.DayWithinYear t) in *. set (leap := JsDate.InLeapYear t) in *.
  clearbody k leap. month_chain; cbn [JsDate.monthStart]; lia.
Qed.

(** Dates grow with the day number. *)
Lemma ymd_mono t1 t2 :
  JsDate.Day t1 <= JsDate.Day t2 ->
  JsDate.YearFromTime t1 < JsDate.YearFromTime t2
  \/ (JsDate.YearFromTime t1 = JsDate.YearFromTime t2
      /\ (JsDate.MonthFromTime t1 < JsDate.MonthFromTime t2
          \/ (JsDate.MonthFromTime t1 = JsDate.MonthFromTime t2
              /\ JsDate.DateFromTime t1 <= JsDate.DateFromTime t2))).
Proof.
  intros H. pose proof (YearFromDay_mono _ _ H) as Y.
  fold (JsDate.YearFromTime t1) (JsDate.YearFromTime t2) in Y.
  destruct (Z.eq_dec (JsDate.YearFromTime t1) (JsDate.YearFromTime t2)) as [E|N]; [|lia].
  right. split; trivial.
  assert (K : JsDate.DayWithinYear t1 <= JsDate.DayWithinYear t2)
    by (unfold JsDate.DayWithinYear; rewrite E; lia).
  assert (L : JsDate.InLeapYear t1 = JsDate.InLeapYear t2)
    by (unfold JsDate.InLeapYear; now rewrite E).
  assert (L' : JsDate.InLeapYear t2 = 0 \/ JsDate.InLeapYear t2 = 1)
    by (unfold JsDate.InLeapYear; destruct (_ =? _); auto).
  unfold JsDate.DateFromTime, JsDate.MonthFromTime. rewrite L.
  set (k1 := JsDate.DayWithinYear t1) in *. set (k2 := JsDate.DayWithinYear t2) in *.
  set (leap := JsDate.InLeapYear t2) in *. clearbody k1 k2 leap.
  month_chain; cbn [JsDate.monthStart]; lia.
Qed.

Lemma MakeDay_in_year y m d :
  0 <= m <= 11 ->
  JsDate.MakeDay y m d
  = JsDate.DayFromYear y
    + JsDate.monthStart (if JsDate.DaysInYear y =? 366 then 1 else 0) m + d - 1.
Proof.
  intros Hm. unfold JsDate.MakeDay.
  rewrite (Z.div_small m 12), (Z.mod_small m 12), Z.add_0_r by lia. reflexivity.
Qed.

(** The date of the day number that [MakeDay] gives for a date of the calendar. *)
Lemma ymd_of_MakeDay y m d t :
  0 <= m <= 11 -> 1 <= d <= Spec.daysInMonth y m ->
  JsDate.Day t = JsDate.MakeDay y m d ->
  JsDate.YearFromTime t = y /\ JsDate.MonthFromTime t = m /\ JsDate.DateFromTime t = d.
Proof.
  intros Hm Hd Ht. rewrite MakeDay_in_year in Ht by trivial.
  assert (Y : JsDate.YearFromTime t = y).
  { unfold JsDate.YearFromTime. apply YearFromDay_unique.
    rewrite DayFromYear_succ, Ht.
    unfold Spec.daysInMonth in Hd.
    destruct (DaysInYear_cases y) as [E|E]; rewrite E in *;
      small_cases small_nat_cases m 12%nat; cbn in *; lia. }
  split; trivial.
  unfold JsDate.DateFromTime, JsDate.MonthFromTime, JsDate.DayWithinYear, JsDate.InLeapYear.
  rewrite Y, Ht.
  assert (D : d <= 28 + (if JsDate.DaysInYear y =? 366 then 1 else 0) \/ m <> 1)
    by (unfold Spec.daysInMonth in Hd; destruct (Z.eq_dec m 1) as [->|]; auto;
        left; destruct (_ =? _); lia).
  set (leap := if JsDate.DaysInYear y =? 366 then 1 else 0) in *.
  assert (L : leap = 0 \/ leap = 1) by (unfold leap; destruct (_ =? _); auto).
  clearbody leap. unfold Spec.daysInMonth in Hd.
  small_cases small_nat_cases m 12%nat;
    cbn [JsDate.monthStart]; month_chain; cbn [JsDate.monthStart]; lia.
Qed.

(** * Date strings *)

Lemma digit_compare a b :
  0 <= a <= 9 -> 0 <= b <= 9 -> Ascii.compare (JsDate.digit a) (JsDate.digit b) = (a ?= b).
Proof.
  intros Ha Hb. unfold Ascii.compare, JsDate.digit.
  rewrite !N_ascii_embedding by lia.
  rewrite Z2N.inj_compare by lia. apply Z.add_compare_mono_l.
Qed.

Lemma digit_not_T n : 0 <= n <= 9 -> Ascii.eqb (JsDate.digit n) "T" = false.
Proof.
  intros H. apply Ascii.eqb_neq. intros E.
  apply (f_equal N_of_ascii) in E. unfold JsDate.digit in E.
  rewrite N_ascii_embedding in E by lia.
  change (N_of_ascii "T") with 84%N in E. lia.
Qed.

(** Zero-padded numbers of one width compare as their values do. *)
Lemma padded_compare len : forall a b r1 r2,
  0 <= a -> 0 <= b ->
  String.compare (JsDate.padded len a ++ r1) (JsDate.padded len b ++ r2)
  = match a mod 10 ^ Z.of_nat len ?= b mod 10 ^ Z.of_nat len with
    | Eq => String.compare r1 r2
    | c => c
    end.
Proof.
  induction len as [|k IH]; intros a b r1 r2 Ha Hb.
  - cbn [JsDate.padded String.append]. change (10 ^ Z.of_nat 0) with 1.
    now rewrite !Z.mod_1_r.
  - cbn [JsDate.padded String.append String.compare].
    assert (P : 0 < 10 ^ Z.of_nat k) by (apply Z.pow_pos_nonneg; lia).
    pose proof (Z.mod_pos_bound (a / 10 ^ Z.of_nat k) 10).
    pose proof (Z.mod_pos_bound (b / 10 ^ Z.of_nat k) 10).
    rewrite digit_compare by lia.
    rewrite IH by trivial.
    rewrite Nat2Z.inj_succ, Z.pow_succ_r by lia.
    rewrite (Z.mul_comm 10), !Z.rem_mul_r by lia.
    pose proof (Z.mod_pos_bound a (10 ^ Z.of_nat k) P).
    pose proof (Z.mod_pos_bound b (10 ^ Z.of_nat k) P).
    set (da := (a / 10 ^ Z.of_nat k) mod 10). set (db := (b / 10 ^ Z.of_nat k) mod 10).
    set (ra := a mod 10 ^ Z.of_nat k) in *. set (rb := b mod 10 ^ Z.of_nat k) in *.
    set (p := 10 ^ Z.of_nat k) in *. clearbody da db ra rb p.
    destruct (Z.compare_spec da db) as [E|L|G].
    + subst db. destruct (Z.compare_spec ra rb) as [E'|L'|G'].
      * subst. now rewrite Z.compare_refl.
      * now replace (ra + p * da ?= rb + p * da) with Lt
          by (symmetry; apply Z.compare_lt_iff; lia).
      * now replace (ra + p * da ?= rb + p * da) with Gt
          by (symmetry; apply Z.compare_gt_iff; lia).
    + now replace (ra + p * da ?= rb + p * db) with Lt
        by (symmetry; apply Z.compare_lt_iff; nia).
    + now replace (ra + p * da ?= rb + p * db) with Gt
        by (symmetry; apply Z.compare_gt_iff; nia).
Qed.

Lemma isoYear_four y : 0 <= y <= 9999 -> JsDate.isoYear y = JsDate.padded 4 y.
Proof.
  intros H. unfold JsDate.isoYear.
  destruct (Z.leb_spec 0 y), (Z.leb_spec y 9999); trivial; lia.
Qed.

Lemma append_nil_r s : (s ++ "")%string = s.
Proof. induction s as [|c s IH]; cbn; now rewrite ?IH. Qed.

Lemma append_assoc_r a b c : ((a ++ b) ++ c)%string = (a ++ (b ++ c))%string.
Proof. induction a as [|x a IH]; cbn; now rewrite ?IH. Qed.

(** Dates in [YYYY-MM-DD] form compare as dates. *)
Lemma isoYMD_leb y1 m1 d1 y2 m2 d2 :
  0 <= y1 <= 9999 -> 0 <= y2 <= 9999 ->
  0 <= m1 <= 99 -> 0 <= m2 <= 99 -> 0 <= d1 <= 99 -> 0 <= d2 <= 99 ->
  y1 < y2 \/ (y1 = y2 /\ (m1 < m2 \/ (m1 = m2 /\ d1 <= d2))) ->
  String.leb (JsDate.isoYMD y1 m1 d1) (JsDate.isoYMD y2 m2 d2) = true.
Proof.
  intros Hy1 Hy2 Hm1 Hm2 Hd1 Hd2 H. unfold String.leb, JsDate.isoYMD.
  rewrite !isoYear_four by trivial.
  rewrite padded_compare by lia.
  change (10 ^ Z.of_nat 4) with 10000. rewrite !Z.mod_small by lia.
  destruct (Z.compare_spec y1 y2) as [E|L|G]; trivial; [|lia].
  cbn [String.append String.compare]. change (Ascii.compare "-" "-") with Eq. cbv iota.
  rewrite padded_compare by lia.
  change (10 ^ Z.of_nat 2) with 100. rewrite !Z.mod_small by lia.
  destruct (Z.compare_spec m1 m2) as [E'|L'|G']; trivial; [|lia].
  cbn [String.append String.compare]. change (Ascii.compare "-" "-") with Eq. cbv iota.
  rewrite <- (append_nil_r (JsDate.padded 2 d1)), <- (append_nil_r (JsDate.padded 2 d2)).
  rewrite padded_compare by lia.
  change (10 ^ Z.of_nat 2) with 100. rewrite !Z.mod_small by lia.
  destruct (Z.compare_spec d1 d2) as [E''|L''|G'']; trivial. lia.
Qed.

Lemma splitHead_padded c len : forall n r,
  (forall k, 0 <= k <= 9 -> Ascii.eqb (JsDate.digit k) c = false) ->
  Js.splitHead c (JsDate.padded len n ++ r) = (JsDate.padded len n ++ Js.splitHead c r)%string.
Proof.
  induction len as [|k IH]; intros n r H; cbn [JsDate.padded String.append]; trivial.
  cbn [Js.splitHead]. rewrite H by (pose proof (Z.mod_pos_bound (n / 10 ^ Z.of_nat k) 10); lia).
  now rewrite IH.
Qed.

(** The date part of an ISO string, for a year of four digits. *)
Lemma splitHead_iso y m d rest :
  0 <= y <= 9999 ->
  Js.splitHead "T" (JsDate.isoYMD y m d ++ "T" ++ rest) = JsDate.isoYMD y m d.
Proof.
  intros Hy. unfold JsDate.isoYMD. rewrite isoYear_four by trivial.
  rewrite !append_assoc_r.
  rewrite splitHead_padded by apply digit_not_T.
  cbn [String.append Js.splitHead]. change (Ascii.eqb "-" "T") with false. cbv iota.
  rewrite splitHead_padded by apply digit_not_T.
  cbn [String.append Js.splitHead]. change (Ascii.eqb "-" "T") with false. cbv iota.
  rewrite splitHead_padded by apply digit_not_T.
  reflexivity.
Qed.

(** * The date range of the month/year dashboard *)

Lemma DayFromYear_bounds y :
  0 <= y <= 10000 -> -720000 <= JsDate.DayFromYear y <= 2940000.
Proof. intros H. unfold JsDate.DayFromYear. Z.div_mod_to_equations. lia. Qed.

Lemma monthStart_bounds leap m :
  0 <= leap <= 1 -> 0 <= m <= 12 -> 0 <= JsDate.monthStart leap m <= 366.
Proof.
  intros Hl Hm.
  small_cases small_nat_cases m 13%nat; cal_cbn; lia.
Qed.

(** Day 0 of the next month is the last day of the month. *)
Lemma MakeDay_last y m :
  0 <= m <= 11 -> JsDate.MakeDay y (m + 1) 0 = JsDate.MakeDay y m (Spec.daysInMonth y m).
Proof.
  intros Hm. rewrite (MakeDay_in_year y m) by trivial.
  destruct (Z.eq_dec m 11) as [->|N].
  - unfold JsDate.MakeDay. change ((11 + 1) / 12) with 1. change ((11 + 1) mod 12) with 0.
    rewrite DayFromYear_succ. unfold Spec.daysInMonth.
    destruct (DaysInYear_cases y) as [E|E]; rewrite E;
      destruct (DaysInYear_cases (y + 1)) as [E'|E']; rewrite E'; cal_cbn; lia.
  - rewrite MakeDay_in_year by lia. unfold Spec.daysInMonth.
    destruct (DaysInYear_cases y) as [E|E]; rewrite E;
      small_cases small_nat_cases m 11%nat; cal_cbn; lia.
Qed.

Lemma daysInMonth_range y m : 28 <= Spec.daysInMonth y m <= 31.
Proof.
  unfold Spec.daysInMonth.
  destruct m as [|[p|p|]|]; try lia; try (destruct (_ =? _); lia);
    repeat (destruct p as [p|p|]; try lia).
Qed.

Lemma monthStart_last leap m :
  0 <= leap <= 1 -> 0 <= m <= 11 -> 0 <= JsDate.monthStart leap m <= 334 + leap.
Proof.
  intros Hl Hm.
  small_cases small_nat_cases m 12%nat; cal_cbn; lia.
Qed.

Lemma leap_flag y :
  JsDate.DaysInYear y = 365 + (if JsDate.DaysInYear y =? 366 then 1 else 0)
  /\ 0 <= (if JsDate.DaysInYear y =? 366 then 1 else 0) <= 1.
Proof. destruct (DaysInYear_cases y) as [E|E]; rewrite E; cbn; lia. Qed.

(** The year of a time value, from bounds on its day number. *)
Lemma YearFromTime_between a b t :
  JsDate.DayFromYear a <= JsDate.Day t < JsDate.DayFromYear (b + 1) ->
  a <= JsDate.YearFromTime t <= b.
Proof.
  intros H. unfold JsDate.YearFromTime.
  pose proof (YearFromDay_spec (JsDate.Day t)) as S.
  set (Y := JsDate.YearFromDay (JsDate.Day t)) in *.
  split.
  - destruct (Z.le_gt_cases a Y) as [L|G]; trivial.
    pose proof (DayFromYear_le (Y + 1) a). lia.
  - destruct (Z.le_gt_cases Y b) as [L|G]; trivial.
    pose proof (DayFromYear_le (b + 1) Y). lia.
Qed.

Section Range.
Variable tz : Z -> Z.
Hypothesis tz_bound : forall t, -50400000 <= tz t <= 50400000.
Variables fy fm : Z.
Hypothesis fy_range : 100 <= fy <= 9998.
Hypothesis fm_range : 0 <= fm <= 11.

Lemma first_day_bounds :
  JsDate.DayFromYear fy <= JsDate.MakeDay fy fm 1 < JsDate.DayFromYear (fy + 1) - 30.
Proof.
  rewrite MakeDay_in_year, DayFromYear_succ by trivial.
  destruct (DaysInYear_cases fy) as [E|E]; rewrite E; cal_cbn.
  - pose proof (monthStart_last 0 fm). lia.
  - pose proof (monthStart_last 1 fm). lia.
Qed.

Lemma last_day_bounds :
  JsDate.MakeDay fy fm 1 + 27 <= JsDate.MakeDay fy (fm + 1) 0
  < JsDate.DayFromYear (fy + 1).
Proof.
  rewrite MakeDay_last, !MakeDay_in_year, DayFromYear_succ by trivial.
  unfold Spec.daysInMonth.
  destruct (DaysInYear_cases fy) as [E|E]; rewrite E;
    small_cases small_nat_cases fm 12%nat; cal_cbn; lia.
Qed.

Lemma construct_start :
  exists ts, JsDate.construct tz fy fm 1 0 0 0 = Some ts
             /\ JsDate.MakeDay fy fm 1 - 1 <= JsDate.Day ts <= JsDate.MakeDay fy fm 1.
Proof.
  unfold JsDate.construct, JsDate.UTC, JsDate.MakeDate, JsDate.MakeTime, JsDate.TimeClip.
  destruct (Z.leb_spec fy 99); [lia|]. rewrite andb_false_r.
  pose proof first_day_bounds as B.
  pose proof (DayFromYear_bounds fy). pose proof (DayFromYear_bounds (fy + 1)).
  set (D := JsDate.MakeDay fy fm 1) in *.
  set (z := tz _). pose proof (tz_bound (D * JsDate.msPerDay
                          + (0 * JsDate.msPerHour + 0 * JsDate.msPerMinute
                             + 0 * JsDate.msPerSecond + 0))) as Z. fold z in Z.
  clearbody z D. unfold JsDate.msPerDay, JsDate.msPerHour, JsDate.msPerMinute,
    JsDate.msPerSecond in *.
  destruct (Z.ltb_spec 8640000000000000 (Z.abs (D * 86400000 + (0 * 3600000 + 0 * 60000 + 0 * 1000 + 0) - z)));
    [lia|].
  eexists. split; [reflexivity|]. unfold JsDate.Day, JsDate.msPerDay.
  Z.div_mod_to_equations. lia.
Qed.

Lemma construct_end :
  exists te, JsDate.construct tz fy (fm + 1) 0 23 59 59 = Some te
             /\ JsDate.MakeDay fy (fm + 1) 0 <= JsDate.Day te
                <= JsDate.MakeDay fy (fm + 1) 0 + 1.
Proof.
  unfold JsDate.construct, JsDate.UTC, JsDate.MakeDate, JsDate.MakeTime, JsDate.TimeClip.
  destruct (Z.leb_spec fy 99); [lia|]. rewrite andb_false_r.
  pose proof first_day_bounds as B. pose proof last_day_bounds as B'.
  pose proof (DayFromYear_bounds fy). pose proof (DayFromYear_bounds (fy + 1)).
  set (D := JsDate.MakeDay fy (fm + 1) 0) in *.
  set (z := tz _). pose proof (tz_bound (D * JsDate.msPerDay
                          + (23 * JsDate.msPerHour + 59 * JsDate.msPerMinute
                             + 59 * JsDate.msPerSecond + 0))) as Z. fold z in Z.
  clearbody z D. unfold JsDate.msPerDay, JsDate.msPerHour, JsDate.msPerMinute,
    JsDate.msPerSecond in *.
  destruct (Z.ltb_spec 8640000000000000 (Z.abs (D * 86400000 + (23 * 3600000 + 59 * 60000 + 59 * 1000 + 0) - z)));
    [lia|].
  eexists. split; [reflexivity|]. unfold JsDate.Day, JsDate.msPerDay.
  Z.div_mod_to_equations. lia.
Qed.
End Range.

Lemma Day_of_day n : JsDate.Day (n * JsDate.msPerDay) = n.
Proof. unfold JsDate.Day, JsDate.msPerDay. now rewrite Z.div_mul. Qed.

(** Every date of the selected month lies between the two bounds that the
    month/year dashboard sends, whatever the host's time zone. *)
Lemma pages_range_contains tz fm fy d :
  (forall t, -50400000 <= tz t <= 50400000) ->
  100 <= fy <= 9998 -> 0 <= fm <= 11 -> 1 <= d <= Spec.daysInMonth fy fm ->
  exists desde ate,
    Spec.pagesRange tz fm fy = Some (desde, ate)
    /\ String.leb desde (JsDate.isoYMD fy (fm + 1) d) = true
    /\ String.leb (JsDate.isoYMD fy (fm + 1) d) ate = true.
Proof.
  intros Htz Hy Hm Hd.
  destruct (construct_start tz Htz fy fm Hy Hm) as (ts & Cs & Bs).
  destruct (construct_end tz Htz fy fm Hy Hm) as (te & Ce & Be).
  pose proof (first_day_bounds fy fm Hm) as F.
  pose proof (last_day_bounds fy fm Hm) as L.
  pose proof (DayFromYear_succ (fy - 1)) as P. replace (fy - 1 + 1) with fy in P by lia.
  pose proof (DayFromYear_succ (fy + 1)) as N.
  destruct (DaysInYear_cases (fy - 1)) as [E1|E1], (DaysInYear_cases (fy + 1)) as [E2|E2].
  all: assert (Ys : fy - 1 <= JsDate.YearFromTime ts <= fy)
         by (apply YearFromTime_between; lia).
  all: assert (Ye : fy <= JsDate.YearFromTime te <= fy + 1)
         by (apply YearFromTime_between; lia).
  all: destruct (ymd_of_MakeDay fy fm d (JsDate.MakeDay fy fm d * JsDate.msPerDay) Hm Hd
                   (Day_of_day _)) as (Y0 & M0 & D0).
  all: pose proof (month_date_range ts) as Rs; pose proof (month_date_range te) as Re.
  all: unfold Spec.pagesRange, Spec.isoDayOf; rewrite Cs, Ce; cbn [JsDate.toISOString];
    unfold JsDate.isoDate; rewrite !splitHead_iso by lia;
    do 2 eexists; (split; [reflexivity|]); split.
  all: pose proof (daysInMonth_range fy fm) as Rd.
  all: apply isoYMD_leb; try lia.
  all: try (pose proof (ymd_mono ts (JsDate.MakeDay fy fm d * JsDate.msPerDay)) as Mo;
            rewrite Day_of_day, Y0, M0, D0 in Mo;
            rewrite (MakeDay_in_year fy fm d) in Mo by trivial;
            rewrite (MakeDay_in_year fy fm 1) in Bs by trivial; lia).
  all: pose proof (ymd_mono (JsDate.MakeDay fy fm d * JsDate.msPerDay) te) as Mo;
    rewrite Day_of_day, Y0, M0, D0 in Mo;
    rewrite (MakeDay_in_year fy fm d) in Mo by trivial;
    rewrite MakeDay_last, MakeDay_in_year in Be by trivial; lia.
Qed.

(** In UTC the two bounds are the first and the last day of the month. *)
Lemma pages_range_utc fm fy :
  100 <= fy <= 9998 -> 0 <= fm <= 11 ->
  Spec.pagesRange (fun _ => 0) fm fy
  = Some (JsDate.isoYMD fy (fm + 1) 1, JsDate.isoYMD fy (fm + 1) (Spec.daysInMonth fy fm)).
Proof.
  intros Hy Hm.
  assert (Htz : forall t : Z, -50400000 <= (fun _ : Z => 0) t <= 50400000) by (intros; lia).
  destruct (construct_start _ Htz fy fm Hy Hm) as (ts & Cs & _).
  destruct (construct_end _ Htz fy fm Hy Hm) as (te & Ce & _).
  pose proof (daysInMonth_range fy fm) as Rd.
  assert (Ds : JsDate.Day ts = JsDate.MakeDay fy fm 1).
  { revert Cs. unfold JsDate.construct, JsDate.UTC, JsDate.MakeDate, JsDate.MakeTime,
      JsDate.TimeClip.
    destruct (_ <? _); [discriminate|]. intros [= <-].
    destruct ((0 <=? fy) && (fy <=? 99)) eqn:R;
      [apply andb_prop in R as [_ R%Z.leb_le]; lia|].
    unfold JsDate.Day, JsDate.msPerDay, JsDate.msPerHour, JsDate.msPerMinute,
      JsDate.msPerSecond.
    Z.div_mod_to_equations. lia. }
  assert (De : JsDate.Day te = JsDate.MakeDay fy fm (Spec.daysInMonth fy fm)).
  { rewrite <- MakeDay_last by trivial.
    revert Ce. unfold JsDate.construct, JsDate.UTC, JsDate.MakeDate, JsDate.MakeTime,
      JsDate.TimeClip.
    destruct (_ <? _); [discriminate|]. intros [= <-].
    destruct ((0 <=? fy) && (fy <=? 99)) eqn:R;
      [apply andb_prop in R as [_ R%Z.leb_le]; lia|].
    unfold JsDate.Day, JsDate.msPerDay, JsDate.msPerHour, JsDate.msPerMinute,
      JsDate.msPerSecond.
    Z.div_mod_to_equations. lia. }
  destruct (ymd_of_MakeDay fy fm 1 ts Hm ltac:(lia) Ds) as (Ys & Ms & Dts).
  destruct (ymd_of_MakeDay fy fm (Spec.daysInMonth fy fm) te Hm ltac:(lia) De) as (Ye & Me & Dte).
  unfold Spec.pagesRange, Spec.isoDayOf. rewrite Cs, Ce. cbn [JsDate.toISOString].
  unfold JsDate.isoDate. rewrite Ys, Ms, Dts, Ye, Me, Dte.
  now rewrite !splitHead_iso by lia.
Qed.

(** The two bounds of the current-month dashboard: day 01 and the literal
    day 31 of the month of [now] (in UTC). *)
Lemma legacy_month_bounds now :
  Z.abs now <= 8640000000000000 -> 0 <= JsDate.YearFromTime now <= 9999 ->
  exists iso,
    JsDate.toISOString (JsDate.TimeClip now) = inl iso
    /\ (Js.strSlice0 7 iso ++ "-01")%string
       = JsDate.isoYMD (JsDate.YearFromTime now) (JsDate.MonthFromTime now + 1) 1
    /\ (Js.strSlice0 7 iso ++ "-31")%string
       = JsDate.isoYMD (JsDate.YearFromTime now) (JsDate.MonthFromTime now + 1) 31.
Proof.
  intros Hn Hy. unfold JsDate.TimeClip.
  destruct (Z.ltb_spec 8640000000000000 (Z.abs now)); [lia|].
  eexists. split; [reflexivity|].
  unfold JsDate.isoDate, JsDate.isoYMD. rewrite isoYear_four by trivial.
  split; reflexivity.
Qed.

(** June 2024, a 30-day month: the bounds in UTC and in Brasilia time, and the
    bounds of the current-month dashboard at noon of June 15 (UTC). *)
Example june_ranges :
  Spec.pagesRange Examples.utc 5 2024 = Some ("2024-06-01", "2024-06-30")%string
  /\ Spec.pagesRange Examples.brt 5 2024 = Some ("2024-06-01", "2024-07-01")%string
  /\ Gateway.filters (Legacy.transacoesQuery (Some "user-a"%string) "2024-06")
     = [Gateway.FEq "userid" (Some "user-a"%string);
        Gateway.FGte "quando" "2024-06-01"; Gateway.FLte "quando" "2024-06-31"]
  /\ JsDate.toISOString (JsDate.TimeClip 1718452800000) = inl "2024-06-15T12:00:00.000Z"%string.
Proof. vm_compute. repeat split. Qed.

(** * Sample runs *)

Example pages_stats_sample :
  Pages.newStats
    (Some [Examples.salary; Examples.rent; Examples.blank; Examples.transfer]) (Some [])
  = Pages.mkStats 100.5%float 40%float 60.5%float 4 0.
Proof. reflexivity. Qed.

Example legacy_stats_sample :
  let T := [Examples.legacyRow 1 "2024-04-03" "2024-04-02" (Js.VStr "12.5") "receita" "user-a";
            Examples.legacyRow 2 "2024-04-04" "2024-04-03" (Js.VStr "abc") "receita" "user-a";
            Examples.legacyRow 3 "2024-04-05" "2024-04-04" Js.VNull "despesa" "user-a";
            Examples.legacyRow 4 "2024-04-06" "2024-04-05" (Js.VNum 2.5%float) "despesa" "user-a"] in
  let s := Legacy.newStats Examples.decimal (Some T) None in
  Legacy.totalReceitas s = 12.5%float /\ Legacy.totalDespesas s = 2.5%float
  /\ Legacy.saldo s = 10%float /\ Legacy.transacoesRecentes s = T
  /\ Legacy.lembretesProximos s = [].
Proof. repeat split. Qed.

Example failed_fetch_sample :
  let '(w', issued, res) :=
    Async.exec Pages.act (fun _ => Examples.failure "boom") (fun _ => Examples.rows [])
      (Pages.fetchDashboardData Examples.brt (Some Examples.userB) 3 2024)
      Pages.initialWorld [] in
  res = inl tt
  /\ issued = [Pages.transacoesQuery "user-b" "2024-04-01" "2024-05-01"]
  /\ Spec.pagesSummary w' = Spec.pagesSummary Pages.initialWorld
  /\ Pages.loading w' = false
  /\ Pages.toasts w' = [mkToast "Erro ao carregar dados" "boom" "destructive"].
Proof. vm_compute. repeat split. Qed.

Example reminders_sample :
  Gateway.execute Legacy.lembreteColumn
    [Examples.reminder 1 "2024-04-20" "user-a"; Examples.reminder 2 "2024-04-09" "user-a";
     Examples.reminder 3 "2024-04-12" "user-b"; Examples.reminder 4 "2024-04-10" "user-a";
     Examples.reminder 5 "2024-06-01" "user-a"; Examples.reminder 6 "2024-05-02" "user-a";
     Examples.reminder 7 "2024-04-11" "user-a"; Examples.reminder 8 "2024-07-01" "user-a"]
    (Legacy.lembretesQuery (Some "user-a"%string) "2024-04-10")
  = [Examples.reminder 4 "2024-04-10" "user-a"; Examples.reminder 7 "2024-04-11" "user-a";
     Examples.reminder 1 "2024-04-20" "user-a"; Examples.reminder 6 "2024-05-02" "user-a";
     Examples.reminder 5 "2024-06-01" "user-a"].
Proof. reflexivity. Qed.

(** * What every fetch keeps, and the component with it *)

Lemma truthyId_nonempty user uid : Auth.truthyId user = Some uid -> uid <> ""%string.
Proof.
  destruct user as [u|]; cbn; [|discriminate].
  destruct (String.eqb_spec (Auth.id u) ""); [discriminate|]. now intros [= <-].
Qed.

Lemma newStats_orEmpty dt dl :
  Pages.newStats dt dl = Pages.newStats (Some (Js.orEmpty dt)) (Some (Js.orEmpty dl)).
Proof. destruct dt, dl; reflexivity. Qed.

Lemma errorToast_shaped e : Along.errorShaped (Pages.errorToast e).
Proof.
  repeat split. cbn. unfold Js.strOr.
  destruct (String.eqb_spec (Gateway.message e) ""); [discriminate|trivial].
Qed.

(** Settles what is asked of one stretch, given by its effect on the state. *)
Ltac stretch_ok :=
  unfold Along.stretchOK, Along.consistent; cbn [Pages.stats Pages.transacoes Pages.lembretes
                                                Pages.loading Pages.toasts];
  split; [|split];
  [ first [ intros w Hw; exact Hw | intros w _; apply newStats_orEmpty ]
  | first [ discriminate | intros _ w; reflexivity ]
  | intros w;
    first [ exists []; rewrite app_nil_r; repeat split; [cbn; lia | constructor]
          | eexists [_]; repeat split; [cbn; lia | repeat constructor; apply errorToast_shaped] ] ].

Ltac along_cases :=
  cbn -[Pages.newStats Pages.transacoesQuery Pages.lembretesQuery Js.splitHead Pages.errorToast];
  repeat match goal with
         | |- _ /\ _ => split
         | |- forall r, _ => intros ?r
         | |- Along.stretchOK _ _ => stretch_ok
         | |- Along.ownerQuery _ => do 3 eexists; split; [eassumption|]; first [left; reflexivity | right; reflexivity]
         | |- context [Gateway.error ?r] =>
             destruct (Gateway.error r);
             cbn -[Pages.newStats Pages.transacoesQuery Pages.lembretesQuery Js.splitHead
                   Pages.errorToast]
         end.

Lemma fetch_along tz user fm fy :
  Along.along Along.stretchOK Along.ownerQuery
    (Pages.fetchDashboardData tz user fm fy) (fun w => w).
Proof.
  unfold Pages.fetchDashboardData.
  destruct (Auth.truthyId user) as [uid|] eqn:Hu; [|along_cases].
  apply truthyId_nonempty in Hu.
  unfold Pages.isoDay.
  destruct (JsDate.toISOString (JsDate.construct tz fy fm 1 0 0 0)) as [s|msg];
    destruct (JsDate.toISOString (JsDate.construct tz fy (fm + 1) 0 23 59 59)) as [e|msg'];
    along_cases.
Qed.

(** Running a task that is as asked, from a state reached by [pre]. *)
Lemma advance_along P Q (t : Pages.Task unit) : forall pre,
  Along.along P Q t pre ->
  forall w, exists s,
    fst (Async.advance Pages.act t (pre w)) = s w
    /\ P s (Along.settled (snd (Async.advance Pages.act t (pre w))))
    /\ Along.sound P Q (snd (Async.advance Pages.act t (pre w)))
    /\ Forall Q (Pages.pendingQuery (snd (Async.advance Pages.act t (pre w)))).
Proof.
  induction t as [r|e|a k IH|q k IH|q k IH]; intros pre H w; cbn in *.
  - exists pre. auto.
  - contradiction.
  - destruct (IH _ H w) as (s & E & HP & HS & HQ). exists s. auto.
  - destruct H as (HP & HQ & HK). exists pre. auto.
  - destruct H as (HP & HQ & HK). exists pre. auto.
Qed.

Lemma settledCount_app l st :
  Along.settledCount (l ++ [st])
  = (Along.settledCount l + if Along.settled st then 1 else 0)%nat.
Proof.
  unfold Along.settledCount. rewrite filter_app, length_app. cbn.
  destruct (Along.settled st); reflexivity.
Qed.

Lemma settledCount_replace st old : forall l n,
  nth_error l n = Some old -> Along.settled old = false ->
  Along.settledCount (replaceNth n st l)
  = (Along.settledCount l + if Along.settled st then 1 else 0)%nat.
Proof.
  unfold Along.settledCount.
  induction l as [|x l IH]; intros [|n] H Ho; cbn in *; try discriminate.
  - injection H as ->. rewrite Ho. destruct (Along.settled st); cbn; lia.
  - specialize (IH n H Ho). destruct (Along.settled x); cbn; lia.
Qed.

Lemma Forall_replaceNth {A} (P : A -> Prop) x : forall l n,
  Forall P l -> P x -> Forall P (replaceNth n x l).
Proof.
  induction l as [|y l IH]; intros [|n] Hl Hx; cbn; trivial;
    inversion Hl; subst; constructor; auto.
Qed.

Lemma In_replaceNth {A} (x old : A) : forall l n,
  nth_error l n = Some old -> In x (replaceNth n x l).
Proof.
  induction l as [|y l IH]; intros [|n] H; cbn in *; try discriminate; eauto.
Qed.

(** The state after one more stretch of some fetch, the list of fetches
    becoming [l']. *)
Lemma invariant_stretch M (t : Pages.Task unit) l' :
  Along.invariant M ->
  Along.along Along.stretchOK Along.ownerQuery t (fun w => w) ->
  let st := snd (Async.advance Pages.act t (Pages.world M)) in
  (Along.sound Along.stretchOK Along.ownerQuery st ->
   Forall (Along.sound Along.stretchOK Along.ownerQuery) l') ->
  In st l' ->
  Along.settledCount l'
  = (Along.settledCount (Pages.fetches M) + if Along.settled st then 1 else 0)%nat ->
  Along.invariant
    (Pages.mkMachine (Pages.user M) (Pages.filterMonth M) (Pages.filterYear M)
       (fst (Async.advance Pages.act t (Pages.world M)))
       (Pages.issued M ++ Pages.pendingQuery st) l').
Proof.
  intros (Hc & Hs & Hl & Ht & Hf & Hq) Ha st Hl' Hin Hn.
  destruct (advance_along _ _ t _ Ha (Pages.world M)) as (s & E & (Pc & Pl & Pt) & S & Q).
  fold st in E, Pl, Pt, S, Q |- *.
  destruct (Pt (Pages.world M)) as (extra & Et & Ln & Fe).
  unfold Along.invariant. cbn [Pages.world Pages.fetches Pages.issued]. rewrite E.
  repeat split.
  - auto.
  - auto.
  - intros L. right. apply Exists_exists. exists st. split; trivial.
    destruct (Along.settled st); trivial. rewrite Pl in L; [discriminate|reflexivity].
  - rewrite Et, length_app, Hn. destruct (Along.settled st); lia.
  - rewrite Et. apply Forall_app. auto.
  - apply Forall_app. auto.
Qed.

Lemma invariant_startFetch tz M :
  Along.invariant M -> Along.invariant (Pages.startFetch tz M).
Proof.
  intros H. unfold Pages.startFetch.
  pose proof (invariant_stretch M
                (Pages.fetchDashboardData tz (Pages.user M) (Pages.filterMonth M)
                   (Pages.filterYear M))
                (Pages.fetches M ++ [snd (Async.advance Pages.act
                   (Pages.fetchDashboardData tz (Pages.user M) (Pages.filterMonth M)
                      (Pages.filterYear M)) (Pages.world M))]) H (fetch_along _ _ _ _)) as I.
  cbv zeta in I.
  destruct (Async.advance Pages.act _ (Pages.world M)) as [w st]. cbn [fst snd] in I.
  apply I.
  - intros S. apply Forall_app. split; [apply H | auto].
  - apply in_or_app. right. now left.
  - apply settledCount_app.
Qed.

Lemma invariant_resume M n old (t : Pages.Task unit) :
  Along.invariant M ->
  nth_error (Pages.fetches M) n = Some old -> Along.settled old = false ->
  Along.along Along.stretchOK Along.ownerQuery t (fun w => w) ->
  Along.invariant (Pages.resume M n t).
Proof.
  intros H Hn Ho Ha. unfold Pages.resume.
  pose proof (invariant_stretch M t
                (replaceNth n (snd (Async.advance Pages.act t (Pages.world M)))
                   (Pages.fetches M)) H Ha) as I.
  cbv zeta in I.
  destruct (Async.advance Pages.act t (Pages.world M)) as [w st]. cbn [fst snd] in I.
  apply I.
  - intros S. apply Forall_replaceNth; [apply H | trivial].
  - eapply In_replaceNth; eassumption.
  - eapply settledCount_replace; eassumption.
Qed.

Lemma invariant_effect tz M :
  Along.invariant M -> Along.invariant (Pages.effect tz M).
Proof.
  intros H. unfold Pages.effect.
  destruct (Auth.hasId (Pages.user M)); [now apply invariant_startFetch | trivial].
Qed.

Lemma invariant_step tz M i :
  Along.invariant M -> Along.invariant (Pages.step tz M i).
Proof.
  intros H. destruct i as [u|v|v|n r|n r]; cbn [Pages.step].
  - destruct (Auth.optStrEqb _ _); [exact H | apply invariant_effect; exact H].
  - destruct (v =? _); [exact H | apply invariant_effect; exact H].
  - destruct (v =? _); [exact H | apply invariant_effect; exact H].
  - destruct (nth_error (Pages.fetches M) n) as [[ | |q k|q k]|] eqn:E; trivial.
    eapply invariant_resume; try eassumption; trivial.
    destruct H as (_ & Hs & _). rewrite Forall_forall in Hs.
    apply (Hs _ (nth_error_In _ _ E)).
  - destruct (nth_error (Pages.fetches M) n) as [[ | |q k|q k]|] eqn:E; trivial.
    eapply invariant_resume; try eassumption; trivial.
    destruct H as (_ & Hs & _). rewrite Forall_forall in Hs.
    apply (Hs _ (nth_error_In _ _ E)).
Qed.

Lemma invariant_reachable tz u m y inputs :
  Along.invariant (Pages.steps tz (Pages.mount tz u m y) inputs).
Proof.
  assert (I0 : Along.invariant (Pages.mount tz u m y)).
  { apply invariant_effect. repeat split; cbn; auto. }
  revert I0. generalize (Pages.mount tz u m y) as M.
  unfold Pages.steps. induction inputs as [|i l IH]; intros M HM; cbn; trivial.
  apply IH, invariant_step, HM.
Qed.

(** * The component in every state it can reach *)

(** X1. In every state the component can reach (any changes of user and
    selectors, any responses, in any order) the statistics held are those of
    the two lists held: the counts are the lengths of the lists and the
    balance is the difference of the two totals. Overlapping fetches never
    leave the statistics of one fetch beside the lists of another. *)
Theorem summary_always_consistent :
  forall tz u m y inputs,
    let w := Pages.world (Pages.steps tz (Pages.mount tz u m y) inputs) in
    Pages.stats w = Pages.newStats (Some (Pages.transacoes w)) (Some (Pages.lembretes w))
    /\ Pages.transacoesCount (Pages.stats w) = List.length (Pages.transacoes w)
    /\ Pages.lembretesCount (Pages.stats w) = List.length (Pages.lembretes w)
    /\ Pages.saldo (Pages.stats w)
       = PrimFloat.sub (Pages.totalReceitas (Pages.stats w))
           (Pages.totalDespesas (Pages.stats w)).
Proof.
  intros tz u m y inputs w.
  destruct (invariant_reachable tz u m y inputs) as (Hc & _).
  fold w in Hc. unfold Along.consistent in Hc. rewrite Hc. repeat split.
Qed.

(** X2. No fetch ever ends rejected, and in every reachable state [loading]
    is [true] only if no fetch was ever started or some started fetch still
    awaits a response; so once a fetch has been started and all have ended,
    the loading skeleton is not what the component renders. *)
Theorem loading_only_while_pending :
  forall tz u m y inputs,
    let M := Pages.steps tz (Pages.mount tz u m y) inputs in
    (forall e, ~ In (Async.Rejected e) (Pages.fetches M))
    /\ (Pages.loading (Pages.world M) = true ->
        Pages.fetches M = []
        \/ exists st, In st (Pages.fetches M) /\ Along.settled st = false)
    /\ (Pages.fetches M <> [] ->
        forallb Along.settled (Pages.fetches M) = true ->
        Pages.render M <> Pages.LoadingView).
Proof.
  intros tz u m y inputs M.
  destruct (invariant_reachable tz u m y inputs) as (_ & Hs & Hl & _). fold M in Hs, Hl.
  assert (L : Pages.loading (Pages.world M) = true ->
              Pages.fetches M = []
              \/ exists st, In st (Pages.fetches M) /\ Along.settled st = false).
  { intros H. destruct (Hl H) as [E|E]; [now left|right]. now apply Exists_exists in E. }
  split; [|split; trivial].
  - intros e H. rewrite Forall_forall in Hs. exact (Hs _ H).
  - intros Hne Hall R. unfold Pages.render in R.
    destruct (Pages.loading (Pages.world M)) eqn:Ld.
    + destruct (L eq_refl) as [E|(st & Hin & Hst)]; [contradiction|].
      rewrite forallb_forall in Hall. rewrite (Hall _ Hin) in Hst. discriminate.
    + destruct (negb _); discriminate.
Qed.

(** X3. In every reachable state there are at most as many toasts as
    fetches that have ended, and every toast is the error toast of the
    [catch] block: its title, the destructive variant, a description that is
    not empty. *)
Theorem one_toast_per_ended_fetch :
  forall tz u m y inputs,
    let M := Pages.steps tz (Pages.mount tz u m y) inputs in
    (List.length (Pages.toasts (Pages.world M)) <= Along.settledCount (Pages.fetches M))%nat
    /\ forall t, In t (Pages.toasts (Pages.world M)) ->
         title t = "Erro ao carregar dados"%string /\ variant t = "destructive"%string
         /\ description t <> ""%string.
Proof.
  intros tz u m y inputs M.
  destruct (invariant_reachable tz u m y inputs) as (_ & _ & _ & Hn & Hf & _).
  fold M in Hn, Hf. split; trivial.
  intros t Ht. rewrite Forall_forall in Hf. exact (Hf t Ht).
Qed.

(** X4. Every query the component ever issues is the transactions query or
    the reminders query of [fetchDashboardData] for some owner id that is not
    empty: its filters hold the equality on [userid]. *)
Theorem every_query_names_an_owner :
  forall tz u m y inputs,
    Forall
      (fun q =>
         exists uid desde ate,
           uid <> ""%string
           /\ (q = Pages.transacoesQuery uid desde ate
               \/ q = Pages.lembretesQuery uid desde ate)
           /\ In (Gateway.FEq "userid" (Some uid)) (Gateway.filters q))
      (Pages.issued (Pages.steps tz (Pages.mount tz u m y) inputs)).
Proof.
  intros tz u m y inputs.
  destruct (invariant_reachable tz u m y inputs) as (_ & _ & _ & _ & _ & Hi).
  eapply Forall_impl; [|exact Hi].
  intros q (uid & d & a & Hu & [-> | ->]);
    exists uid, d, a; (split; [trivial|]); (split; [auto|]); cbn; auto.
Qed.

(** X5. When the user changes while a fetch is in flight, the earlier fetch
    goes on with the id of the earlier user, and the summary shown in the end
    is that of the fetch whose last response arrives last: the earlier user's
    when that fetch ends last, although the component then holds the later
    user. *)
Theorem last_fetch_wins_across_users :
  forall tz u1 u2 fm fy rt1 rl1 rt2 rl2 sched,
    Auth.hasId (Some u1) = true -> Auth.hasId (Some u2) = true ->
    Auth.id u1 <> Auth.id u2 ->
    Spec.pagesRange tz fm fy <> None ->
    Gateway.error rt1 = None -> Gateway.error rl1 = None ->
    Gateway.error rt2 = None -> Gateway.error rl2 = None ->
    In sched (Spec.interleavings
                [Pages.ResolveT 0 rt1; Pages.ResolveL 0 rl1]
                [Pages.ResolveT 1 rt2; Pages.ResolveL 1 rl2]) ->
    let M0 := Pages.step tz (Pages.mount tz (Some u1) fm fy) (Pages.SetUser (Some u2)) in
    let M := Pages.steps tz M0 sched in
    (exists desde ate,
        Pages.issued M0 = [Pages.transacoesQuery (Auth.id u1) desde ate;
                           Pages.transacoesQuery (Auth.id u2) desde ate])
    /\ Pages.user M = Some u2
    /\ Spec.pagesSummary (Pages.world M)
       = match Spec.finishedLast sched with
         | Some 0%nat => Spec.pagesComplete rt1 rl1
         | _ => Spec.pagesComplete rt2 rl2
         end.
Proof.
  intros tz u1 u2 fm fy rt1 rl1 rt2 rl2 sched Hu1 Hu2 Hne R E1 E1' E2 E2' Hs.
  assert (Hid1 : Auth.truthyId (Some u1) = Some (Auth.id u1)).
  { revert Hu1. unfold Auth.hasId. cbn. destruct (String.eqb _ _); [discriminate|trivial]. }
  assert (Hid2 : Auth.truthyId (Some u2) = Some (Auth.id u2)).
  { revert Hu2. unfold Auth.hasId. cbn. destruct (String.eqb _ _); [discriminate|trivial]. }
  destruct (Spec.pagesRange tz fm fy) as [[d a]|] eqn:P; [clear R|contradiction].
  destruct (pages_fetch_shape tz (Some u1) fm fy _ d a Hid1 P) as (k1 & A1 & B1).
  destruct (B1 rt1 E1) as (k1' & A1' & C1). specialize (C1 rl1 E1'). clear B1.
  destruct (pages_fetch_shape tz (Some u2) fm fy _ d a Hid2 P) as (k2 & A2 & B2).
  destruct (B2 rt2 E2) as (k2' & A2' & C2). specialize (C2 rl2 E2'). clear B2.
  apply String.eqb_neq in Hne. rewrite String.eqb_sym in Hne.
  unfold Pages.mount, Pages.effect. cbn [Pages.user]. rewrite Hu1.
  unfold Pages.startFetch. cbn [Pages.user Pages.filterMonth Pages.filterYear Pages.world].
  rewrite A1. cbn [Pages.step Pages.user Auth.idOf Auth.optStrEqb]. rewrite Hne.
  unfold Pages.effect. cbn [Pages.user]. rewrite Hu2.
  unfold Pages.startFetch. cbn [Pages.user Pages.filterMonth Pages.filterYear Pages.world].
  rewrite A2.
  cbn [Pages.user Pages.filterMonth Pages.filterYear Pages.world Pages.issued
       Pages.fetches Pages.pendingQuery app].
  split; [exists d, a; reflexivity|].
  cbn in Hs.
  repeat (destruct Hs as [<-|Hs]; [|]); try contradiction;
    unfold Pages.steps; cbn [fold_left];
    repeat machine_step ltac:(rewrite ?A1', ?C1, ?A2', ?C2);
    (split; [reflexivity|apply summary_done]).
Qed.

Lemma last_fetch_wins_across_users_witness :
  let a := Examples.rows [Examples.salary] in
  let b := Examples.rows [Examples.foreign] in
  let none := Examples.rows (@nil Pages.Lembrete) in
  let sched := [Pages.ResolveT 1 b; Pages.ResolveL 1 none;
                Pages.ResolveT 0 a; Pages.ResolveL 0 none] in
  let M0 := Pages.step Examples.utc (Pages.mount Examples.utc (Some Examples.userA) 3 2024)
              (Pages.SetUser (Some Examples.userB)) in
  let M := Pages.steps Examples.utc M0 sched in
  (exists desde ate,
      Pages.issued M0 = [Pages.transacoesQuery (Auth.id Examples.userA) desde ate;
                         Pages.transacoesQuery (Auth.id Examples.userB) desde ate])
  /\ Pages.user M = Some Examples.userB
  /\ Spec.pagesSummary (Pages.world M)
     = match Spec.finishedLast sched with
       | Some 0%nat => Spec.pagesComplete a none
       | _ => Spec.pagesComplete b none
       end.
Proof.
  apply (last_fetch_wins_across_users Examples.utc Examples.userA Examples.userB 3 2024);
    try reflexivity; try discriminate.
  cbn. repeat (first [left; reflexivity | right]).
Defined.

(** * The months next to a month *)

Lemma MakeDay_date y m d : JsDate.MakeDay y m d = JsDate.MakeDay y m 0 + d.
Proof. unfold JsDate.MakeDay. lia. Qed.

Lemma MakeDay_next y m :
  0 <= m <= 11 ->
  JsDate.MakeDay y (m + 1) 1
  = JsDate.MakeDay (fst (Zones.nextMonth y m)) (snd (Zones.nextMonth y m)) 1.
Proof.
  intros Hm. unfold Zones.nextMonth. destruct (Z.eqb_spec m 11) as [->|N]; [|reflexivity].
  cbn [fst snd]. unfold JsDate.MakeDay.
  change ((11 + 1) / 12) with 1. change ((11 + 1) mod 12) with 0.
  change (0 / 12) with 0. change (0 mod 12) with 0. cbv zeta. now replace (y + 1 + 0) with (y + 1) by lia.
Qed.

Lemma MakeDay_prev y m :
  0 <= m <= 11 ->
  JsDate.MakeDay y m 0
  = JsDate.MakeDay (fst (Zones.prevMonth y m)) (snd (Zones.prevMonth y m))
      (Spec.daysInMonth (fst (Zones.prevMonth y m)) (snd (Zones.prevMonth y m))).
Proof.
  intros Hm. unfold Zones.prevMonth. destruct (Z.eqb_spec m 0) as [->|N]; cbn [fst snd].
  - rewrite <- MakeDay_last by lia. unfold JsDate.MakeDay.
    change ((11 + 1) / 12) with 1. change ((11 + 1) mod 12) with 0.
    change (0 / 12) with 0. change (0 mod 12) with 0.
    cbv zeta. replace (y - 1 + 1) with y by lia. now replace (y + 0) with y by lia.
  - rewrite <- MakeDay_last by lia. now replace (m - 1 + 1) with m by lia.
Qed.

(** The two dates of [fetchDashboardData] in a zone of constant offset. *)
Lemma construct_constant off y m d h mi s :
  100 <= y <= 9998 -> 0 <= m <= 12 -> 0 <= d <= 1 ->
  -50400000 <= off <= 50400000 ->
  0 <= JsDate.MakeTime h mi s 0 < JsDate.msPerDay ->
  JsDate.construct (fun _ => off) y m d h mi s
  = Some (JsDate.MakeDay y m d * JsDate.msPerDay + JsDate.MakeTime h mi s 0 - off).
Proof.
  intros Hy Hm Hd Ho Ht.
  unfold JsDate.construct, JsDate.UTC, JsDate.MakeDate, JsDate.TimeClip.
  destruct (Z.leb_spec y 99); [lia|]. rewrite andb_false_r.
  assert (B : -730000 <= JsDate.MakeDay y m d <= 2950000).
  { unfold JsDate.MakeDay.
    assert (Hq : y <= y + m / 12 <= y + 1) by (Z.div_mod_to_equations; lia).
    pose proof (DayFromYear_bounds (y + m / 12) ltac:(lia)).
    pose proof (monthStart_bounds (if JsDate.DaysInYear (y + m / 12) =? 366 then 1 else 0)
                  (m mod 12) ltac:(destruct (_ =? _); lia)
                  ltac:(Z.div_mod_to_equations; lia)).
    lia. }
  unfold JsDate.msPerDay in *.
  destruct (Z.ltb_spec 8640000000000000
              (Z.abs (JsDate.MakeDay y m d * 86400000 + JsDate.MakeTime h mi s 0 - off)));
    [lia|reflexivity].
Qed.

Lemma isoDay_of_MakeDay y m d t :
  0 <= y <= 9999 -> 0 <= m <= 11 -> 1 <= d <= Spec.daysInMonth y m ->
  Z.abs t <= 8640000000000000 ->
  JsDate.Day t = JsDate.MakeDay y m d ->
  Spec.isoDayOf (Some t) = Some (JsDate.isoYMD y (m + 1) d).
Proof.
  intros Hy Hm Hd Ht E.
  destruct (ymd_of_MakeDay y m d t Hm Hd E) as (Y & M & D).
  unfold Spec.isoDayOf, JsDate.toISOString, JsDate.isoDate. rewrite Y, M, D.
  now rewrite splitHead_iso.
Qed.

(** West of Greenwich the last second of the month is already the next day
    in UTC: the upper bound is the first day of the following month. *)
Lemma pages_range_west off fm fy :
  -50400000 <= off <= -1000 -> 100 <= fy <= 9998 -> 0 <= fm <= 11 ->
  Spec.pagesRange (fun _ => off) fm fy
  = Some (JsDate.isoYMD fy (fm + 1) 1,
          JsDate.isoYMD (fst (Zones.nextMonth fy fm)) (snd (Zones.nextMonth fy fm) + 1) 1).
Proof.
  intros Ho Hy Hm. unfold Spec.pagesRange.
  rewrite !construct_constant by first [lia | cbv; split; [discriminate|reflexivity]].
  assert (N : 0 <= fst (Zones.nextMonth fy fm) <= 9999
              /\ 0 <= snd (Zones.nextMonth fy fm) <= 11)
    by (unfold Zones.nextMonth; destruct (Z.eqb_spec fm 11); cbn; lia).
  pose proof (daysInMonth_range fy fm).
  pose proof (daysInMonth_range (fst (Zones.nextMonth fy fm)) (snd (Zones.nextMonth fy fm))).
  pose proof (first_day_bounds fy fm Hm) as F. pose proof (last_day_bounds fy fm Hm) as L.
  pose proof (DayFromYear_bounds fy ltac:(lia)).
  pose proof (DayFromYear_bounds (fy + 1) ltac:(lia)).
  rewrite (isoDay_of_MakeDay fy fm 1); try lia.
  - rewrite (isoDay_of_MakeDay (fst (Zones.nextMonth fy fm)) (snd (Zones.nextMonth fy fm)) 1);
      try lia; trivial.
    + unfold JsDate.msPerDay, JsDate.MakeTime, JsDate.msPerHour, JsDate.msPerMinute,
        JsDate.msPerSecond. lia.
    + rewrite <- MakeDay_next by trivial. rewrite (MakeDay_date fy (fm + 1) 1).
      unfold JsDate.Day, JsDate.msPerDay, JsDate.MakeTime, JsDate.msPerHour,
        JsDate.msPerMinute, JsDate.msPerSecond.
      Z.div_mod_to_equations. lia.
  - unfold JsDate.msPerDay, JsDate.MakeTime, JsDate.msPerHour, JsDate.msPerMinute,
      JsDate.msPerSecond. lia.
  - unfold JsDate.Day, JsDate.msPerDay, JsDate.MakeTime, JsDate.msPerHour,
      JsDate.msPerMinute, JsDate.msPerSecond.
    Z.div_mod_to_equations. lia.
Qed.

(** East of Greenwich local midnight is still the day before in UTC: the
    lower bound is the last day of the month before. *)
Lemma pages_range_east off fm fy :
  1 <= off <= 50400000 -> 100 <= fy <= 9998 -> 0 <= fm <= 11 ->
  Spec.pagesRange (fun _ => off) fm fy
  = Some (JsDate.isoYMD (fst (Zones.prevMonth fy fm)) (snd (Zones.prevMonth fy fm) + 1)
            (Spec.daysInMonth (fst (Zones.prevMonth fy fm)) (snd (Zones.prevMonth fy fm))),
          JsDate.isoYMD fy (fm + 1) (Spec.daysInMonth fy fm)).
Proof.
  intros Ho Hy Hm. unfold Spec.pagesRange.
  rewrite !construct_constant by first [lia | cbv; split; [discriminate|reflexivity]].
  assert (N : 0 <= fst (Zones.prevMonth fy fm) <= 9999
              /\ 0 <= snd (Zones.prevMonth fy fm) <= 11)
    by (unfold Zones.prevMonth; destruct (Z.eqb_spec fm 0); cbn; lia).
  pose proof (daysInMonth_range fy fm).
  pose proof (daysInMonth_range (fst (Zones.prevMonth fy fm)) (snd (Zones.prevMonth fy fm))).
  pose proof (first_day_bounds fy fm Hm) as F. pose proof (last_day_bounds fy fm Hm) as L.
  pose proof (DayFromYear_bounds fy ltac:(lia)).
  pose proof (DayFromYear_bounds (fy + 1) ltac:(lia)).
  rewrite (isoDay_of_MakeDay (fst (Zones.prevMonth fy fm)) (snd (Zones.prevMonth fy fm))
             (Spec.daysInMonth (fst (Zones.prevMonth fy fm)) (snd (Zones.prevMonth fy fm))));
    try lia.
  - rewrite (isoDay_of_MakeDay fy fm (Spec.daysInMonth fy fm)); try lia; trivial.
    + unfold JsDate.msPerDay, JsDate.MakeTime, JsDate.msPerHour, JsDate.msPerMinute,
        JsDate.msPerSecond. lia.
    + rewrite <- MakeDay_last by trivial.
      unfold JsDate.Day, JsDate.msPerDay, JsDate.MakeTime, JsDate.msPerHour,
        JsDate.msPerMinute, JsDate.msPerSecond.
      Z.div_mod_to_equations. lia.
  - unfold JsDate.msPerDay, JsDate.MakeTime, JsDate.msPerHour, JsDate.msPerMinute,
      JsDate.msPerSecond. lia.
  - rewrite <- MakeDay_prev by trivial. rewrite (MakeDay_date fy fm 1).
    unfold JsDate.Day, JsDate.msPerDay, JsDate.MakeTime, JsDate.msPerHour,
      JsDate.msPerMinute, JsDate.msPerSecond.
    Z.div_mod_to_equations. lia.
Qed.

(** * The date range away from UTC *)

(** X6. In a time zone of constant offset behind UTC (by one second to
    fourteen hours) the upper bound of the date range is the first day of the
    month after the selected one: a transaction of the owner dated on that
    day passes the filters of the query for the selected month. *)
Theorem west_of_utc_next_month_begins_inside :
  forall off fm fy uid t,
    -50400000 <= off <= -1000 -> 100 <= fy <= 9998 -> 0 <= fm <= 11 ->
    Pages.userid t = Some uid ->
    Pages.quando t
    = Some (JsDate.isoYMD (fst (Zones.nextMonth fy fm)) (snd (Zones.nextMonth fy fm) + 1) 1) ->
    exists desde ate,
      Spec.pagesRange (fun _ => off) fm fy = Some (desde, ate)
      /\ desde = JsDate.isoYMD fy (fm + 1) 1
      /\ ate = JsDate.isoYMD (fst (Zones.nextMonth fy fm)) (snd (Zones.nextMonth fy fm) + 1) 1
      /\ Gateway.holdsAll Pages.transacaoColumn
           (Gateway.filters (Pages.transacoesQuery uid desde ate)) t = true.
Proof.
  intros off fm fy uid t Ho Hy Hm Hu Hq.
  do 2 eexists. split; [apply pages_range_west; trivial|]. do 2 (split; [reflexivity|]).
  assert (N : 0 <= fst (Zones.nextMonth fy fm) <= 9999
              /\ 0 <= snd (Zones.nextMonth fy fm) <= 11
              /\ (fy < fst (Zones.nextMonth fy fm)
                  \/ fy = fst (Zones.nextMonth fy fm) /\ fm < snd (Zones.nextMonth fy fm)))
    by (unfold Zones.nextMonth; destruct (Z.eqb_spec fm 11); cbn; lia).
  cbn -[JsDate.isoYMD]. rewrite Hu, Hq, String.eqb_refl.
  rewrite !isoYMD_leb by lia. reflexivity.
Qed.

Lemma west_of_utc_next_month_begins_inside_witness :
  exists desde ate,
    Spec.pagesRange (fun _ => -10800000) 3 2024 = Some (desde, ate)
    /\ desde = JsDate.isoYMD 2024 (3 + 1) 1
    /\ ate = JsDate.isoYMD (fst (Zones.nextMonth 2024 3)) (snd (Zones.nextMonth 2024 3) + 1) 1
    /\ Gateway.holdsAll Pages.transacaoColumn
         (Gateway.filters (Pages.transacoesQuery "user-a" desde ate))
         (Examples.row 7 "2024-05-01" (Some 9%float) "despesa" "user-a") = true.
Proof.
  apply (west_of_utc_next_month_begins_inside (-10800000) 3 2024 "user-a"%string
           (Examples.row 7 "2024-05-01" (Some 9%float) "despesa" "user-a"));
    try lia; reflexivity.
Defined.

(** X7. In a time zone of constant offset ahead of UTC (by up to fourteen
    hours) the lower bound of the date range is the last day of the month
    before the selected one: a transaction of the owner dated on that day
    passes the filters of the query for the selected month, whose upper bound
    is the last day of the month. *)
Theorem east_of_utc_previous_month_ends_inside :
  forall off fm fy uid t,
    1 <= off <= 50400000 -> 100 <= fy <= 9998 -> 0 <= fm <= 11 ->
    Pages.userid t = Some uid ->
    Pages.quando t
    = Some (JsDate.isoYMD (fst (Zones.prevMonth fy fm)) (snd (Zones.prevMonth fy fm) + 1)
              (Spec.daysInMonth (fst (Zones.prevMonth fy fm)) (snd (Zones.prevMonth fy fm)))) ->
    exists desde ate,
      Spec.pagesRange (fun _ => off) fm fy = Some (desde, ate)
      /\ desde
         = JsDate.isoYMD (fst (Zones.prevMonth fy fm)) (snd (Zones.prevMonth fy fm) + 1)
             (Spec.daysInMonth (fst (Zones.prevMonth fy fm)) (snd (Zones.prevMonth fy fm)))
      /\ ate = JsDate.isoYMD fy (fm + 1) (Spec.daysInMonth fy fm)
      /\ Gateway.holdsAll Pages.transacaoColumn
           (Gateway.filters (Pages.transacoesQuery uid desde ate)) t = true.
Proof.
  intros off fm fy uid t Ho Hy Hm Hu Hq.
  do 2 eexists. split; [apply pages_range_east; trivial|]. do 2 (split; [reflexivity|]).
  assert (N : 0 <= fst (Zones.prevMonth fy fm) <= 9999
              /\ 0 <= snd (Zones.prevMonth fy fm) <= 11
              /\ (fst (Zones.prevMonth fy fm) < fy
                  \/ fst (Zones.prevMonth fy fm) = fy /\ snd (Zones.prevMonth fy fm) < fm))
    by (unfold Zones.prevMonth; destruct (Z.eqb_spec fm 0); cbn; lia).
  pose proof (daysInMonth_range fy fm).
  pose proof (daysInMonth_range (fst (Zones.prevMonth fy fm)) (snd (Zones.prevMonth fy fm))).
  cbn -[JsDate.isoYMD Spec.daysInMonth]. rewrite Hu, Hq, String.eqb_refl.
  rewrite !isoYMD_leb by lia. reflexivity.
Qed.

Lemma east_of_utc_previous_month_ends_inside_witness :
  exists desde ate,
    Spec.pagesRange (fun _ => 3600000) 3 2024 = Some (desde, ate)
    /\ desde
       = JsDate.isoYMD (fst (Zones.prevMonth 2024 3)) (snd (Zones.prevMonth 2024 3) + 1)
           (Spec.daysInMonth (fst (Zones.prevMonth 2024 3)) (snd (Zones.prevMonth 2024 3)))
    /\ ate = JsDate.isoYMD 2024 (3 + 1) (Spec.daysInMonth 2024 3)
    /\ Gateway.holdsAll Pages.transacaoColumn
         (Gateway.filters (Pages.transacoesQuery "user-a" desde ate))
         (Examples.row 8 "2024-03-31" (Some 9%float) "despesa" "user-a") = true.
Proof.
  apply (east_of_utc_previous_month_ends_inside 3600000 3 2024 "user-a"%string
           (Examples.row 8 "2024-03-31" (Some 9%float) "despesa" "user-a"));
    try lia; reflexivity.
Defined.

Lemma construct_two_digit tz y m d h mi s :
  0 <= y <= 99 ->
  JsDate.construct tz y m d h mi s = JsDate.construct tz (1900 + y) m d h mi s.
Proof.
  intros H. unfold JsDate.construct.
  destruct (Z.leb_spec 0 y), (Z.leb_spec y 99); try lia.
  destruct (Z.leb_spec (1900 + y) 99); [lia|]. now rewrite andb_false_r.
Qed.

(** X8. A selected year from 0 to 99 is read by [new Date] as the year
    1900 later: the fetch is the fetch for that year, and in UTC its range is
    the first to the last day of the month in that year. *)
Theorem two_digit_years_select_the_1900s :
  forall tz user fm fy,
    0 <= fy <= 99 ->
    Pages.fetchDashboardData tz user fm fy = Pages.fetchDashboardData tz user fm (1900 + fy)
    /\ (0 <= fm <= 11 ->
        Spec.pagesRange Examples.utc fm fy
        = Some (JsDate.isoYMD (1900 + fy) (fm + 1) 1,
                JsDate.isoYMD (1900 + fy) (fm + 1) (Spec.daysInMonth (1900 + fy) fm))).
Proof.
  intros tz user fm fy Hy. split.
  - unfold Pages.fetchDashboardData. now rewrite !(construct_two_digit tz fy).
  - intros Hm. rewrite <- (pages_range_utc fm (1900 + fy)) by lia.
    unfold Spec.pagesRange, Examples.utc. now rewrite !(construct_two_digit _ fy).
Qed.

Lemma two_digit_years_select_the_1900s_witness :
  Pages.fetchDashboardData Examples.brt (Some Examples.userA) 3 24
  = Pages.fetchDashboardData Examples.brt (Some Examples.userA) 3 (1900 + 24)
  /\ (0 <= 3 <= 11 ->
      Spec.pagesRange Examples.utc 3 24
      = Some (JsDate.isoYMD (1900 + 24) (3 + 1) 1,
              JsDate.isoYMD (1900 + 24) (3 + 1) (Spec.daysInMonth (1900 + 24) 3))).
Proof.
  apply (two_digit_years_select_the_1900s Examples.brt (Some Examples.userA) 3 24). lia.
Defined.

(** * Reading back the integers that [toString] writes *)

Lemma digit_code d : 0 <= d <= 9 -> Z.of_N (N_of_ascii (JsDate.digit d)) = 48 + d.
Proof.
  intros H. unfold JsDate.digit. rewrite N_ascii_embedding by lia. lia.
Qed.

Lemma radixDigit_digit d : 0 <= d <= 9 -> JsString.radixDigit 10 (JsDate.digit d) = Some d.
Proof.
  intros H. unfold JsString.radixDigit, JsString.digitValue. rewrite digit_code by trivial.
  destruct (Z.leb_spec 48 (48 + d)); [|lia].
  destruct (Z.leb_spec (48 + d) 57); [|lia]. cbn [andb].
  replace (48 + d - 48) with d by lia.
  destruct (Z.ltb_spec d 10); [reflexivity|lia].
Qed.

Lemma readDigits_padded len : forall n rest a,
  0 <= n ->
  JsString.readDigits 10 (JsDate.padded len n ++ rest) (Some a)
  = JsString.readDigits 10 rest (Some (10 ^ Z.of_nat len * a + n mod 10 ^ Z.of_nat len)).
Proof.
  induction len as [|k IH]; intros n rest a Hn.
  - cbn [JsDate.padded String.append]. change (10 ^ Z.of_nat 0) with 1.
    rewrite Z.mod_1_r. do 2 f_equal. lia.
  - cbn [JsDate.padded String.append JsString.readDigits].
    assert (P : 0 < 10 ^ Z.of_nat k) by (apply Z.pow_pos_nonneg; lia).
    pose proof (Z.mod_pos_bound (n / 10 ^ Z.of_nat k) 10 ltac:(lia)).
    rewrite radixDigit_digit by lia. rewrite IH by trivial. do 2 f_equal.
    rewrite Nat2Z.inj_succ, Z.pow_succ_r by lia.
    rewrite (Z.mul_comm 10 (10 ^ Z.of_nat k)), Z.rem_mul_r by lia. lia.
Qed.

Lemma decimalLength_bound fuel : forall n,
  0 <= n <= Z.of_nat fuel -> n < 10 ^ Z.of_nat (JsString.decimalLength fuel n).
Proof.
  induction fuel as [|f IH]; intros n H; cbn [JsString.decimalLength].
  - cbn. lia.
  - destruct (Z.ltb_spec n 10); [cbn; lia|].
    rewrite Nat2Z.inj_succ, Z.pow_succ_r by lia.
    assert (n / 10 < 10 ^ Z.of_nat (JsString.decimalLength f (n / 10)))
      by (apply IH; Z.div_mod_to_equations; lia).
    Z.div_mod_to_equations; lia.
Qed.

Lemma decimalLength_succ fuel n : exists k, JsString.decimalLength fuel n = S k.
Proof. destruct fuel; cbn; [eauto|]. destruct (n <? 10); eauto. Qed.

Lemma digit_eqb d c :
  0 <= d <= 9 -> ~ 48 <= Z.of_N (N_of_ascii c) <= 57 -> Ascii.eqb (JsDate.digit d) c = false.
Proof.
  intros H N. apply Ascii.eqb_neq. intros E. rewrite <- E, digit_code in N by trivial. lia.
Qed.

Lemma padded_head k m :
  exists d, 0 <= d <= 9 /\ JsDate.padded (S k) m = String (JsDate.digit d) (JsDate.padded k m).
Proof.
  exists ((m / 10 ^ Z.of_nat k) mod 10). split; [|reflexivity].
  pose proof (Z.mod_pos_bound (m / 10 ^ Z.of_nat k) 10 ltac:(lia)). lia.
Qed.

(** A string of digits has no sign and no [0x] in front. *)
Lemma digits_plain k m :
  JsString.trimStart (JsDate.padded (S k) m) = JsDate.padded (S k) m
  /\ JsString.signOf (JsDate.padded (S k) m) = 1
  /\ JsString.unsigned (JsDate.padded (S k) m) = JsDate.padded (S k) m
  /\ JsString.hexDigits (JsDate.padded (S k) m) = None.
Proof.
  destruct (padded_head k m) as (d & Hd & ->).
  repeat split.
  - cbn [JsString.trimStart]. unfold JsString.isWhiteSpace.
    rewrite digit_code by trivial.
    destruct (Z.leb_spec 9 (48 + d)), (Z.leb_spec (48 + d) 13),
      (Z.eqb_spec (48 + d) 32), (Z.eqb_spec (48 + d) 160); cbn; trivial; lia.
  - cbn. now rewrite digit_eqb by (trivial; cbn; lia).
  - cbn. now rewrite !digit_eqb by (trivial; cbn; lia).
  - cbn [JsString.hexDigits]. destruct k as [|k]; [reflexivity|].
    destruct (padded_head k m) as (d' & Hd' & ->).
    rewrite (digit_eqb d' "x"), (digit_eqb d' "X") by (trivial; cbn; lia).
    now rewrite andb_false_r.
Qed.

Lemma readDigits_number k m :
  0 <= m < 10 ^ Z.of_nat (S k) ->
  JsString.readDigits 10 (JsDate.padded (S k) m) None = Some m.
Proof.
  intros Hm. cbn [JsDate.padded JsString.readDigits].
  assert (P : 0 < 10 ^ Z.of_nat k) by (apply Z.pow_pos_nonneg; lia).
  pose proof (Z.mod_pos_bound (m / 10 ^ Z.of_nat k) 10 ltac:(lia)).
  rewrite radixDigit_digit by lia.
  rewrite <- (append_nil_r (JsDate.padded k m)), readDigits_padded by lia.
  cbn [JsString.readDigits]. f_equal.
  rewrite Nat2Z.inj_succ, Z.pow_succ_r in Hm by lia.
  rewrite (Z.mod_small (m / 10 ^ Z.of_nat k) 10) by (Z.div_mod_to_equations; nia).
  Z.div_mod_to_equations; nia.
Qed.

(** [parseInt(x.toString()) = x] for the integers and for [NaN]. *)
Lemma parseInt_numberToString x : JsString.parseInt (JsString.numberToString x) = x.
Proof.
  destruct x as [n|]; [|reflexivity].
  unfold JsString.numberToString. cbv zeta.
  assert (Hb : 0 <= Z.abs n <= Z.of_nat (Z.to_nat (Z.abs n))) by lia.
  pose proof (decimalLength_bound _ _ Hb) as B.
  destruct (decimalLength_succ (Z.to_nat (Z.abs n)) (Z.abs n)) as (k & Ek).
  rewrite Ek in *.
  destruct (digits_plain k (Z.abs n)) as (T & S1 & S2 & S3).
  pose proof (readDigits_number k (Z.abs n) ltac:(lia)) as U.
  unfold JsString.parseInt.
  destruct (Z.ltb_spec n 0).
  - change (JsString.trimStart ("-" ++ JsDate.padded (S k) (Z.abs n)))
      with ("-" ++ JsDate.padded (S k) (Z.abs n))%string.
    change (JsString.signOf ("-" ++ JsDate.padded (S k) (Z.abs n))) with (-1).
    change (JsString.unsigned ("-" ++ JsDate.padded (S k) (Z.abs n)))
      with (JsDate.padded (S k) (Z.abs n)).
    rewrite S3, U. f_equal. lia.
  - change ("" ++ JsDate.padded (S k) (Z.abs n))%string with (JsDate.padded (S k) (Z.abs n)).
    rewrite T, S1, S2, S3, U. f_equal. lia.
Qed.

Example parseInt_samples :
  map JsString.parseInt ["  42px"; "0x1F"; "-7"; ""; "abc"; "+5"; "08"; "0x"; "3.7"; "NaN"]%string
  = [Some 42; Some 31; Some (-7); None; None; Some 5; Some 8; None; Some 3; None]
  /\ map JsString.numberToString [Some 2024; Some 0; Some (-12); Some 10; None]
     = ["2024"; "0"; "-12"; "10"; "NaN"]%string.
Proof. split; reflexivity. Qed.

(** * The selector strings of the month/year dashboard *)

(** On selector strings that [parseInt] reads, the fetch is that of the
    integers read. *)
Lemma selectors_fetch_parsed tz user fm fy m y :
  JsString.parseInt fm = Some m -> JsString.parseInt fy = Some y ->
  Selectors.fetchDashboardData tz user fm fy = Pages.fetchDashboardData tz user m y.
Proof.
  intros Hm Hy. unfold Selectors.fetchDashboardData, Pages.fetchDashboardData,
    Selectors.startDate, Selectors.endDate.
  now rewrite Hm, Hy.
Qed.

Lemma construct_out_of_range tz fm fy d h mi s :
  (forall t, -50400000 <= tz t <= 50400000) -> 0 <= fm <= 11 ->
  0 <= d <= 31 -> 0 <= JsDate.MakeTime h mi s 0 < JsDate.msPerDay ->
  275761 <= fy \/ fy <= -271822 ->
  JsDate.construct tz fy fm d h mi s = None.
Proof.
  intros Htz Hm Hd Ht Hy.
  unfold JsDate.construct, JsDate.UTC, JsDate.MakeDate, JsDate.TimeClip.
  replace ((0 <=? fy) && (fy <=? 99)) with false
    by (destruct (Z.leb_spec fy 99), (Z.leb_spec 0 fy); trivial; lia).
  rewrite MakeDay_in_year by trivial.
  pose proof (monthStart_last (if JsDate.DaysInYear fy =? 366 then 1 else 0) fm
                ltac:(destruct (_ =? _); lia) Hm) as B.
  assert (L : 0 <= (if JsDate.DaysInYear fy =? 366 then 1 else 0) <= 1)
    by (destruct (_ =? _); lia).
  set (ms := JsDate.monthStart _ fm) in *. clearbody ms.
  set (t := (JsDate.DayFromYear fy + ms + d - 1) * JsDate.msPerDay + JsDate.MakeTime h mi s 0).
  pose proof (Htz t) as Z. set (z := tz t) in *. clearbody z. subst t.
  unfold JsDate.msPerDay in *.
  assert (M : JsDate.DayFromYear fy <= -100000474 \/ 100000110 <= JsDate.DayFromYear fy).
  { destruct Hy as [Hy|Hy].
    - right. pose proof (DayFromYear_le 275761 fy Hy) as M.
      now change (JsDate.DayFromYear 275761) with 100000110 in M.
    - left. pose proof (DayFromYear_le fy (-271822) Hy) as M.
      now change (JsDate.DayFromYear (-271822)) with (-100000474) in M. }
  destruct (Z.ltb_spec 8640000000000000
              (Z.abs ((JsDate.DayFromYear fy + ms + d - 1) * 86400000
                      + JsDate.MakeTime h mi s 0 - z))); [reflexivity|lia].
Qed.

(** * The date range that a fetch sends *)

(** Within a second behind UTC the two bounds are the first and the last
    day of the month. *)
Lemma pages_range_near off fm fy :
  -999 <= off <= 0 -> 100 <= fy <= 9998 -> 0 <= fm <= 11 ->
  Spec.pagesRange (fun _ => off) fm fy
  = Some (JsDate.isoYMD fy (fm + 1) 1, JsDate.isoYMD fy (fm + 1) (Spec.daysInMonth fy fm)).
Proof.
  intros Ho Hy Hm. unfold Spec.pagesRange.
  rewrite !construct_constant by first [lia | cbv; split; [discriminate|reflexivity]].
  pose proof (daysInMonth_range fy fm).
  pose proof (first_day_bounds fy fm Hm) as F. pose proof (last_day_bounds fy fm Hm) as L.
  pose proof (DayFromYear_bounds fy ltac:(lia)).
  pose proof (DayFromYear_bounds (fy + 1) ltac:(lia)).
  rewrite (isoDay_of_MakeDay fy fm 1); try lia.
  - rewrite (isoDay_of_MakeDay fy fm (Spec.daysInMonth fy fm)); try lia; trivial.
    + unfold JsDate.msPerDay, JsDate.MakeTime, JsDate.msPerHour, JsDate.msPerMinute,
        JsDate.msPerSecond. lia.
    + rewrite <- MakeDay_last by trivial.
      unfold JsDate.Day, JsDate.msPerDay, JsDate.MakeTime, JsDate.msPerHour,
        JsDate.msPerMinute, JsDate.msPerSecond.
      Z.div_mod_to_equations. lia.
  - unfold JsDate.msPerDay, JsDate.MakeTime, JsDate.msPerHour, JsDate.msPerMinute,
      JsDate.msPerSecond. lia.
  - unfold JsDate.Day, JsDate.msPerDay, JsDate.MakeTime, JsDate.msPerHour,
      JsDate.msPerMinute, JsDate.msPerSecond.
    Z.div_mod_to_equations. lia.
Qed.

Lemma pages_range_constant off fm fy :
  -50400000 <= off <= 50400000 -> 100 <= fy <= 9998 -> 0 <= fm <= 11 ->
  Spec.pagesRange (fun _ => off) fm fy
  = Some (Zones.lowerBound off fy fm, Zones.upperBound off fy fm).
Proof.
  intros Ho Hy Hm. unfold Zones.lowerBound, Zones.upperBound.
  destruct (Z.ltb_spec 0 off), (Z.leb_spec off (-1000)); try lia.
  - apply pages_range_east; lia.
  - apply pages_range_west; lia.
  - apply pages_range_near; lia.
Qed.

(** The current-month dashboard: up to its first [await]. *)
Lemma legacy_fetch_first_query stn user now now' iso :
  JsDate.toISOString (JsDate.TimeClip now) = inl iso ->
  exists k,
    forall w,
      Async.advance Legacy.act (Legacy.fetchDashboardData stn user now now') w
      = (Legacy.act (Legacy.SetLoading true) w,
         Async.OnT (Legacy.transacoesQuery (Auth.idOf user) (Js.strSlice0 7 iso)) k).
Proof.
  intros I. unfold Legacy.fetchDashboardData, Legacy.nowISO. rewrite I.
  eexists. intros w. reflexivity.
Qed.

(** C7. From the call of [fetchDashboardData] to its first [await]. With the
    month/year selector, the transactions query that the fetch sends lets
    pass every transaction of the owner dated in the selected month, its
    last day included (April 30 for a 30-day month), in every time zone. Its
    two bounds are the first and the last real day of the month where the
    clock is at most a second behind UTC; further behind UTC the upper bound
    is the first day of the following month, and ahead of UTC the lower
    bound is the last day of the month before. The current-month dashboard
    sends, for the month of the UTC date of its clock, the first day and the
    literal day 31 whatever the length of the month; it does not clamp to
    the last real day, and the days of the month all pass. *)
Theorem month_ranges :
  (forall tz user uid filterMonth filterYear fm fy d t w,
      (forall x, -50400000 <= tz x <= 50400000) ->
      Auth.truthyId user = Some uid ->
      JsString.parseInt filterMonth = Some fm -> JsString.parseInt filterYear = Some fy ->
      100 <= fy <= 9998 -> 0 <= fm <= 11 -> 1 <= d <= Spec.daysInMonth fy fm ->
      Pages.userid t = Some uid ->
      Pages.quando t = Some (JsDate.isoYMD fy (fm + 1) d) ->
      exists desde ate k,
        Async.advance Pages.act (Selectors.fetchDashboardData tz user filterMonth filterYear) w
        = (Spec.pagesStarted w, Async.OnT (Pages.transacoesQuery uid desde ate) k)
        /\ Gateway.holdsAll Pages.transacaoColumn
             (Gateway.filters (Pages.transacoesQuery uid desde ate)) t = true)
  /\ (forall off user uid filterMonth filterYear fm fy w,
      -50400000 <= off <= 50400000 ->
      Auth.truthyId user = Some uid ->
      JsString.parseInt filterMonth = Some fm -> JsString.parseInt filterYear = Some fy ->
      100 <= fy <= 9998 -> 0 <= fm <= 11 ->
      exists k,
        Async.advance Pages.act
          (Selectors.fetchDashboardData (fun _ => off) user filterMonth filterYear) w
        = (Spec.pagesStarted w,
           Async.OnT (Pages.transacoesQuery uid (Zones.lowerBound off fy fm)
                        (Zones.upperBound off fy fm)) k))
  /\ (forall off fy fm,
      (-999 <= off <= 0 ->
       Zones.lowerBound off fy fm = JsDate.isoYMD fy (fm + 1) 1
       /\ Zones.upperBound off fy fm = JsDate.isoYMD fy (fm + 1) (Spec.daysInMonth fy fm))
      /\ (off <= -1000 ->
          Zones.lowerBound off fy fm = JsDate.isoYMD fy (fm + 1) 1
          /\ Zones.upperBound off fy fm
             = JsDate.isoYMD (fst (Zones.nextMonth fy fm)) (snd (Zones.nextMonth fy fm) + 1) 1)
      /\ (1 <= off ->
          Zones.lowerBound off fy fm
          = JsDate.isoYMD (fst (Zones.prevMonth fy fm)) (snd (Zones.prevMonth fy fm) + 1)
              (Spec.daysInMonth (fst (Zones.prevMonth fy fm)) (snd (Zones.prevMonth fy fm)))
          /\ Zones.upperBound off fy fm
             = JsDate.isoYMD fy (fm + 1) (Spec.daysInMonth fy fm)))
  /\ (forall stn user now now' w,
      Z.abs now <= 8640000000000000 -> 0 <= JsDate.YearFromTime now <= 9999 ->
      let Y := JsDate.YearFromTime now in
      let M := JsDate.MonthFromTime now in
      exists q k,
        Async.advance Legacy.act (Legacy.fetchDashboardData stn user now now') w
        = (Legacy.act (Legacy.SetLoading true) w, Async.OnT q k)
        /\ Gateway.filters q
           = [Gateway.FEq "userid" (Auth.idOf user);
              Gateway.FGte "quando" (JsDate.isoYMD Y (M + 1) 1);
              Gateway.FLte "quando" (JsDate.isoYMD Y (M + 1) 31)]
        /\ (forall d t,
              1 <= d <= 31 -> Auth.idOf user <> None ->
              Legacy.userid t = Auth.idOf user ->
              Legacy.quando t = Some (JsDate.isoYMD Y (M + 1) d) ->
              Gateway.holdsAll Legacy.transacaoColumn (Gateway.filters q) t = true)).
Proof.
  split; [|split; [|split]].
  - intros tz user uid sm sy fm fy d t w Htz Hu Pm Py Hy Hm Hd Ho Hq.
    rewrite (selectors_fetch_parsed tz user sm sy fm fy Pm Py).
    destruct (pages_range_contains tz fm fy d Htz Hy Hm Hd) as (desde & ate & R & L1 & L2).
    destruct (pages_fetch_shape tz user fm fy uid desde ate Hu R) as (k & A & _).
    exists desde, ate, k. split; [apply A|].
    cbn. rewrite Ho, Hq, L1, L2, String.eqb_refl. reflexivity.
  - intros off user uid sm sy fm fy w Ho Hu Pm Py Hy Hm.
    rewrite (selectors_fetch_parsed (fun _ => off) user sm sy fm fy Pm Py).
    destruct (pages_fetch_shape (fun _ => off) user fm fy uid _ _ Hu
                (pages_range_constant off fm fy Ho Hy Hm)) as (k & A & _).
    exists k. apply A.
  - intros off fy fm. unfold Zones.lowerBound, Zones.upperBound.
    destruct (Z.ltb_spec 0 off), (Z.leb_spec off (-1000));
      repeat split; intros; try lia; reflexivity.
  - intros stn user now now' w Hn Hy Y M.
    destruct (legacy_month_bounds now Hn Hy) as (iso & I & B1 & B31).
    destruct (legacy_fetch_first_query stn user now now' iso I) as (k & A).
    pose proof (month_date_range now) as [Hm _].
    assert (F : Gateway.filters (Legacy.transacoesQuery (Auth.idOf user) (Js.strSlice0 7 iso))
                = [Gateway.FEq "userid" (Auth.idOf user);
                   Gateway.FGte "quando" (JsDate.isoYMD Y (M + 1) 1);
                   Gateway.FLte "quando" (JsDate.isoYMD Y (M + 1) 31)])
      by (unfold Y, M; rewrite <- B1, <- B31; reflexivity).
    eexists _, k. split; [apply A|]. split; [exact F|].
    intros d t Hd Hs Hu Hq. rewrite F.
    destruct (Auth.idOf user) as [uid|]; [|contradiction].
    cbn -[JsDate.isoYMD]. rewrite Hu, Hq, String.eqb_refl.
    rewrite !isoYMD_leb by (fold M; lia). reflexivity.
Qed.

Lemma month_ranges_witness :
  exists k,
    Async.advance Pages.act
      (Selectors.fetchDashboardData (fun _ => -10800000) (Some Examples.userA) "3" "2024")
      Pages.initialWorld
    = (Spec.pagesStarted Pages.initialWorld,
       Async.OnT (Pages.transacoesQuery "user-a" (Zones.lowerBound (-10800000) 2024 3)
                    (Zones.upperBound (-10800000) 2024 3)) k).
Proof.
  apply (proj1 (proj2 month_ranges) (-10800000) (Some Examples.userA) "user-a"%string
           "3"%string "2024"%string 3 2024 Pages.initialWorld);
    [lia | reflexivity | reflexivity | reflexivity | lia | lia].
Defined.

(** April 2024 where the clock is three hours behind UTC, as in Brasilia: the
    upper bound of the query is May 1, and a transaction of the owner dated
    May 1 passes the filters of the query for April. In UTC the bounds are
    April 1 and April 30; an hour ahead of UTC the lower bound is March 31. *)
Example april_in_brasilia :
  Zones.lowerBound (-10800000) 2024 3 = "2024-04-01"%string
  /\ Zones.upperBound (-10800000) 2024 3 = "2024-05-01"%string
  /\ Gateway.holdsAll Pages.transacaoColumn
       (Gateway.filters
          (Pages.transacoesQuery "user-a" (Zones.lowerBound (-10800000) 2024 3)
             (Zones.upperBound (-10800000) 2024 3)))
       (Examples.row 7 "2024-05-01" None "despesa" "user-a") = true
  /\ Zones.lowerBound 0 2024 3 = "2024-04-01"%string
  /\ Zones.upperBound 0 2024 3 = "2024-04-30"%string
  /\ Zones.lowerBound 3600000 2024 3 = "2024-03-31"%string.
Proof. vm_compute. repeat split. Qed.

(** * The first fetch, and selectors that cannot be read *)

(** X10. The two selector strings of the first render, written by
    [toString], are read back by the [parseInt] calls of [fetchDashboardData]
    as the numbers written: the month (0 to 11) and the year of the clock
    reading in local time. *)
Theorem initial_selectors_read_back :
  forall tzu now,
    JsString.parseInt (Selectors.initialFilterMonth tzu now)
    = LocalDate.getMonth tzu (JsDate.TimeClip now)
    /\ JsString.parseInt (Selectors.initialFilterYear tzu now)
       = LocalDate.getFullYear tzu (JsDate.TimeClip now)
    /\ (Z.abs now <= 8640000000000000 ->
        exists m y,
          JsString.parseInt (Selectors.initialFilterMonth tzu now) = Some m
          /\ JsString.parseInt (Selectors.initialFilterYear tzu now) = Some y
          /\ 0 <= m <= 11
          /\ m = JsDate.MonthFromTime (LocalDate.LocalTime tzu now)
          /\ y = JsDate.YearFromTime (LocalDate.LocalTime tzu now)).
Proof.
  intros tzu now. unfold Selectors.initialFilterMonth, Selectors.initialFilterYear.
  rewrite !parseInt_numberToString. repeat split.
  intros Hn. unfold JsDate.TimeClip.
  destruct (Z.ltb_spec 8640000000000000 (Z.abs now)); [lia|].
  do 2 eexists. repeat split; apply month_date_range.
Qed.

(** X11. The fetch started at the first render for a user with an id
    awaits the transactions query of that user, and every day of the local
    month read from the clock (with the year read from the clock) lies
    between its two bounds, in every time zone. *)
Theorem first_fetch_covers_the_current_month :
  forall tz tzu user uid now now' d w,
    (forall t, -50400000 <= tz t <= 50400000) ->
    Auth.truthyId user = Some uid ->
    Z.abs now <= 8640000000000000 -> Z.abs now' <= 8640000000000000 ->
    let m := JsDate.MonthFromTime (LocalDate.LocalTime tzu now) in
    let y := JsDate.YearFromTime (LocalDate.LocalTime tzu now') in
    100 <= y <= 9998 -> 1 <= d <= Spec.daysInMonth y m ->
    exists desde ate k,
      Async.advance Pages.act (Selectors.firstFetch tz tzu user now now') w
      = (Spec.pagesStarted w, Async.OnT (Pages.transacoesQuery uid desde ate) k)
      /\ String.leb desde (JsDate.isoYMD y (m + 1) d) = true
      /\ String.leb (JsDate.isoYMD y (m + 1) d) ate = true.
Proof.
  intros tz tzu user uid now now' d w Htz Hu Hn Hn' m y Hy Hd.
  pose proof (month_date_range (LocalDate.LocalTime tzu now)) as [Hm _]. fold m in Hm.
  destruct (pages_range_contains tz m y d Htz Hy Hm Hd) as (desde & ate & R & L1 & L2).
  destruct (pages_fetch_shape tz user m y uid desde ate Hu R) as (k & A & _).
  exists desde, ate, k. split; [|auto].
  unfold Selectors.firstFetch.
  rewrite (selectors_fetch_parsed tz user _ _ m y); [apply A| |].
  - unfold Selectors.initialFilterMonth. rewrite parseInt_numberToString.
    unfold JsDate.TimeClip. destruct (Z.ltb_spec 8640000000000000 (Z.abs now)); [lia|].
    reflexivity.
  - unfold Selectors.initialFilterYear. rewrite parseInt_numberToString.
    unfold JsDate.TimeClip. destruct (Z.ltb_spec 8640000000000000 (Z.abs now')); [lia|].
    reflexivity.
Qed.

Lemma first_fetch_covers_the_current_month_witness :
  exists desde ate k,
    Async.advance Pages.act
      (Selectors.firstFetch Examples.brt Examples.brt (Some Examples.userA)
         1718452800000 1718452800000) Pages.initialWorld
    = (Spec.pagesStarted Pages.initialWorld,
       Async.OnT (Pages.transacoesQuery "user-a" desde ate) k)
    /\ String.leb desde (JsDate.isoYMD 2024 (5 + 1) 30) = true
    /\ String.leb (JsDate.isoYMD 2024 (5 + 1) 30) ate = true.
Proof.
  apply (first_fetch_covers_the_current_month Examples.brt Examples.brt (Some Examples.userA)
           "user-a"%string 1718452800000 1718452800000 30 Pages.initialWorld);
    try reflexivity; try (intros; unfold Examples.brt; lia);
    vm_compute; split; discriminate.
Defined.

(** X12. When [parseInt] reads no number in one of the selector strings
    (an empty string, say), both dates are invalid: the fetch issues no query,
    leaves the summary as it was, shows one toast with the message of the
    [RangeError] of [toISOString], and ends with [loading] false. *)
Theorem unreadable_selector_gives_no_query :
  forall tz user uid fm fy aT aL w,
    Auth.truthyId user = Some uid ->
    JsString.parseInt fm = None \/ JsString.parseInt fy = None ->
    let '(w', issued, res) :=
      Async.exec Pages.act aT aL (Selectors.fetchDashboardData tz user fm fy) w [] in
    issued = [] /\ res = inl tt
    /\ Spec.pagesSummary w' = Spec.pagesSummary w
    /\ Pages.loading w' = false
    /\ Pages.toasts w'
       = Pages.toasts w ++ [Pages.errorToast (Gateway.mkError JsDate.invalidTime)].
Proof.
  intros tz user uid fm fy aT aL w Hu H.
  assert (S : Selectors.startDate tz fm fy = None).
  { unfold Selectors.startDate. destruct H as [-> | ->]; [|reflexivity].
    now destruct (JsString.parseInt fy). }
  unfold Selectors.fetchDashboardData. rewrite Hu, S. cbn. auto.
Qed.

Lemma unreadable_selector_gives_no_query_witness :
  let '(w', issued, res) :=
    Async.exec Pages.act (fun _ => Examples.rows []) (fun _ => Examples.rows [])
      (Selectors.fetchDashboardData Examples.brt (Some Examples.userA) "" "2024")
      Pages.initialWorld [] in
  issued = [] /\ res = inl tt
  /\ Spec.pagesSummary w' = Spec.pagesSummary Pages.initialWorld
  /\ Pages.loading w' = false
  /\ Pages.toasts w'
     = Pages.toasts Pages.initialWorld
       ++ [Pages.errorToast (Gateway.mkError JsDate.invalidTime)].
Proof.
  apply (unreadable_selector_gives_no_query Examples.brt (Some Examples.userA) "user-a"%string
           "" "2024" (fun _ => Examples.rows []) (fun _ => Examples.rows [])
           Pages.initialWorld);
    [reflexivity | left; reflexivity].
Defined.

(** X9. For a selected year beyond the range of [Date] (after 275760 or
    before -271821) the first date is invalid: the fetch issues no query,
    leaves the summary as it was, shows one toast with the message of the
    [RangeError] of [toISOString], and ends with [loading] false. *)
Theorem year_out_of_range_gives_no_query :
  forall tz user uid fm fy aT aL w,
    (forall t, -50400000 <= tz t <= 50400000) ->
    Auth.truthyId user = Some uid ->
    0 <= fm <= 11 -> 275761 <= fy \/ fy <= -271822 ->
    let '(w', issued, res) :=
      Async.exec Pages.act aT aL (Pages.fetchDashboardData tz user fm fy) w [] in
    issued = [] /\ res = inl tt
    /\ Spec.pagesSummary w' = Spec.pagesSummary w
    /\ Pages.loading w' = false
    /\ Pages.toasts w'
       = Pages.toasts w ++ [Pages.errorToast (Gateway.mkError JsDate.invalidTime)].
Proof.
  intros tz user uid fm fy aT aL w Htz Hu Hm Hy.
  unfold Pages.fetchDashboardData. rewrite Hu.
  rewrite (construct_out_of_range tz fm fy 1 0 0 0) by (trivial; cbv; try lia; split; congruence).
  cbn. auto.
Qed.

Lemma year_out_of_range_gives_no_query_witness :
  let '(w', issued, res) :=
    Async.exec Pages.act (fun _ => Examples.rows []) (fun _ => Examples.rows [])
      (Pages.fetchDashboardData Examples.brt (Some Examples.userA) 0 300000)
      Pages.initialWorld [] in
  issued = [] /\ res = inl tt
  /\ Spec.pagesSummary w' = Spec.pagesSummary Pages.initialWorld
  /\ Pages.loading w' = false
  /\ Pages.toasts w'
     = Pages.toasts Pages.initialWorld
       ++ [Pages.errorToast (Gateway.mkError JsDate.invalidTime)].
Proof.
  apply (year_out_of_range_gives_no_query Examples.brt (Some Examples.userA) "user-a"%string
           0 300000 (fun _ => Examples.rows []) (fun _ => Examples.rows [])
           Pages.initialWorld);
    [intros; unfold Examples.brt; lia | reflexivity | lia | left; lia].
Defined.

(** * The initials of the profile card *)

Lemma join_cons x l :
  JsString.join "" (x :: l)
  = (match x with Some s => s | None => "" end ++ JsString.join "" l)%string.
Proof.
  destruct l as [|y l]; [|reflexivity].
  cbn. now rewrite append_nil_r.
Qed.

Lemma split_words r :
  exists piece pieces,
    JsString.split " " r = piece :: pieces
    /\ JsString.join "" (map JsString.first (piece :: pieces)) = Words.wordStarts true r
    /\ JsString.join "" (map JsString.first pieces) = Words.wordStarts false r.
Proof.
  induction r as [|a r (piece & pieces & E & F & G)].
  - exists "", []. repeat split.
  - cbn [JsString.split Words.wordStarts]. rewrite E.
    destruct (Ascii.eqb a " ").
    + exists "", (piece :: pieces). repeat split; trivial.
    + exists (String a piece), pieces. repeat split; trivial.
      cbn [map]. rewrite join_cons, G. reflexivity.
Qed.

Lemma initials_source name :
  JsString.join "" (map JsString.first (JsString.split " " name))
  = Words.wordStarts true name.
Proof. destruct (split_words name) as (p & ps & -> & F & _). exact F. Qed.

Lemma slice2_length s : (String.length (Js.strSlice0 2 s) = Nat.min 2 (String.length s))%nat.
Proof. destruct s as [|a [|b [|c s]]]; reflexivity. Qed.

Lemma slice2_upper s :
  Js.strSlice0 2 (JsString.upperAscii s) = JsString.upperAscii (Js.strSlice0 2 s).
Proof. destruct s as [|a [|b [|c s]]]; reflexivity. Qed.

Lemma upperAscii_length s : String.length (JsString.upperAscii s) = String.length s.
Proof. induction s as [|a s IH]; cbn; now rewrite ?IH. Qed.

Lemma wordStarts_ascii s : forall b,
  JsString.isAscii s = true -> JsString.isAscii (Words.wordStarts b s) = true.
Proof.
  induction s as [|a s IH]; intros b H; cbn in *; trivial.
  apply andb_prop in H as [Ha Hs].
  destruct (Ascii.eqb a " "); [auto|].
  destruct b; cbn [JsString.isAscii]; rewrite ?Ha; cbn [andb]; auto.
Qed.

Lemma wordStarts_app s : forall b t,
  Words.wordStarts b (s ++ String " " t)
  = (Words.wordStarts b s ++ Words.wordStarts true t)%string.
Proof.
  induction s as [|a s IH]; intros b t.
  - reflexivity.
  - cbn [String.append Words.wordStarts]. destruct (Ascii.eqb a " "); [apply IH|].
    destruct b; cbn [String.append]; now rewrite IH.
Qed.

Lemma slice2_app s t :
  (2 <= String.length s)%nat -> Js.strSlice0 2 (s ++ t) = Js.strSlice0 2 s.
Proof.
  destruct s as [|a [|b s]]; cbn [String.length]; intros H; try lia.
  unfold Js.strSlice0. cbn [String.append String.substring].
  destruct (s ++ t)%string; destruct s; reflexivity.
Qed.

Lemma upperAscii_app s t :
  JsString.upperAscii (s ++ t) = (JsString.upperAscii s ++ JsString.upperAscii t)%string.
Proof. induction s as [|a s IH]; cbn; now rewrite ?IH. Qed.

(** X13. [getInitials] gives the first two characters of the upper-cased
    string of the first characters of the words of the name, a word being a
    longest run of characters other than the space: at most two characters,
    and the same with one more space in front, behind, or between two
    words. *)
Theorem initials_are_word_starts :
  forall toUpperCase name,
    ProfileView.getInitials toUpperCase name
    = Js.strSlice0 2 (toUpperCase (Words.wordStarts true name))
    /\ (String.length (ProfileView.getInitials toUpperCase name) <= 2)%nat
    /\ ProfileView.getInitials toUpperCase (" " ++ name)
       = ProfileView.getInitials toUpperCase name
    /\ ProfileView.getInitials toUpperCase (name ++ " ")
       = ProfileView.getInitials toUpperCase name
    /\ forall rest,
         ProfileView.getInitials toUpperCase (name ++ "  " ++ rest)
         = ProfileView.getInitials toUpperCase (name ++ " " ++ rest).
Proof.
  intros up name. unfold ProfileView.getInitials. rewrite !initials_source.
  split; [reflexivity|]. split; [rewrite slice2_length; lia|].
  split; [reflexivity|]. split.
  - change (name ++ " ")%string with (name ++ String " " "")%string.
    rewrite wordStarts_app. cbn [Words.wordStarts]. now rewrite append_nil_r.
  - intros rest.
    change (name ++ "  " ++ rest)%string with (name ++ String " " (String " " rest))%string.
    change (name ++ " " ++ rest)%string with (name ++ String " " rest)%string.
    now rewrite !initials_source, !wordStarts_app.
Qed.

(** X14. For a name of ASCII characters the initials are the upper-cased
    first letters of its first two words, of its only word when there is one,
    and none for a blank name; the words after the second are ignored. *)
Theorem ascii_initials_of_two_words :
  forall toUpperCase name,
    (forall s, JsString.isAscii s = true -> toUpperCase s = JsString.upperAscii s) ->
    JsString.isAscii name = true ->
    ProfileView.getInitials toUpperCase name
    = JsString.upperAscii (Js.strSlice0 2 (Words.wordStarts true name))
    /\ String.length (ProfileView.getInitials toUpperCase name)
       = Nat.min 2 (String.length (Words.wordStarts true name))
    /\ forall more,
         JsString.isAscii more = true ->
         (2 <= String.length (Words.wordStarts true name))%nat ->
         ProfileView.getInitials toUpperCase (name ++ " " ++ more)
         = ProfileView.getInitials toUpperCase name.
Proof.
  intros up name Hup Ha.
  assert (G : forall n, JsString.isAscii n = true ->
                ProfileView.getInitials up n
                = JsString.upperAscii (Js.strSlice0 2 (Words.wordStarts true n))).
  { intros n Hn. unfold ProfileView.getInitials. rewrite initials_source.
    rewrite Hup by now apply wordStarts_ascii. apply slice2_upper. }
  split; [now apply G|]. split.
  - rewrite G by trivial. now rewrite upperAscii_length, slice2_length.
  - intros more Hm H2. rewrite !G; trivial.
    + change (name ++ " " ++ more)%string with (name ++ String " " more)%string.
      now rewrite wordStarts_app, slice2_app.
    + clear -Ha Hm. induction name as [|a n IH]; cbn in *; trivial.
      apply andb_prop in Ha as [-> Hn]. cbn. auto.
Qed.

Lemma ascii_initials_of_two_words_witness :
  ProfileView.getInitials JsString.upperAscii "ana maria"
  = JsString.upperAscii (Js.strSlice0 2 (Words.wordStarts true "ana maria"))
  /\ String.length (ProfileView.getInitials JsString.upperAscii "ana maria")
     = Nat.min 2 (String.length (Words.wordStarts true "ana maria"))
  /\ forall more,
       JsString.isAscii more = true ->
       (2 <= String.length (Words.wordStarts true "ana maria"))%nat ->
       ProfileView.getInitials JsString.upperAscii ("ana maria" ++ " " ++ more)
       = ProfileView.getInitials JsString.upperAscii "ana maria".
Proof.
  apply (ascii_initials_of_two_words JsString.upperAscii "ana maria");
    [intros; reflexivity | reflexivity].
Defined.

Example initials_samples :
  map (ProfileView.getInitials JsString.upperAscii)
    ["Ana Lima"; "ana  maria lima "; "bob"; ""; "   "; " x"]%string
  = ["AL"; "AM"; "B"; ""; ""; "X"]%string
  /\ JsString.split " " "ana  maria " = ["ana"; ""; "maria"; ""]%string.
Proof. split; reflexivity. Qed.

(** * The sign of a binary64 difference *)

Lemma digits2_bounds m :
  2 ^ (Zpos (digits2_pos m) - 1) <= Zpos m < 2 ^ Zpos (digits2_pos m).
Proof.
  induction m as [m IH|m IH|]; cbn [digits2_pos].
  - rewrite Pos2Z.inj_succ. replace (Z.succ (Zpos (digits2_pos m)) - 1)
      with (Z.succ (Zpos (digits2_pos m) - 1)) by lia.
    rewrite !Z.pow_succ_r by lia. lia.
  - rewrite Pos2Z.inj_succ. replace (Z.succ (Zpos (digits2_pos m)) - 1)
      with (Z.succ (Zpos (digits2_pos m) - 1)) by lia.
    rewrite !Z.pow_succ_r by lia. lia.
  - cbn. lia.
Qed.

Lemma shl_align_value mx ex ez :
  ez <= ex -> Zpos (fst (shl_align mx ex ez)) = Zpos mx * 2 ^ (ex - ez).
Proof.
  intros H. unfold shl_align. destruct (ez - ex) as [|d|d] eqn:E; cbn [fst]; try lia.
  - replace (ex - ez) with 0 by lia. lia.
  - replace (ex - ez) with (Zpos d) by lia.
    change (Pos.iter xO mx d) with (shift_pos d mx). rewrite shift_pos_correct.
    change (Z.pow_pos 2 d) with (2 ^ Zpos d). lia.
Qed.

Lemma bounded_digits m e :
  bounded prec emax m e = true ->
  SpecFloat.emin prec emax <= e
  /\ Zpos (digits2_pos m) <= prec
  /\ (SpecFloat.emin prec emax < e -> Zpos (digits2_pos m) = prec).
Proof.
  unfold bounded, canonical_mantissa, SpecFloat.fexp. intros H.
  apply andb_prop in H as [H _]. apply Z.eqb_eq in H. lia.
Qed.

(** Of two valid numbers the one of larger exponent is the larger. *)
Lemma exponent_order mx ex my ey :
  bounded prec emax mx ex = true -> bounded prec emax my ey = true -> ex < ey ->
  Zpos mx < Zpos my * 2 ^ (ey - ex).
Proof.
  intros Bx By H.
  destruct (bounded_digits _ _ Bx) as (Ex & Dx & _).
  destruct (bounded_digits _ _ By) as (Ey & _ & Dy). specialize (Dy ltac:(lia)).
  pose proof (digits2_bounds mx) as [_ Ux]. pose proof (digits2_bounds my) as [Ly _].
  rewrite Dy in Ly.
  assert (P : 2 ^ Zpos (digits2_pos mx) <= 2 ^ prec) by (apply Z.pow_le_mono_r; lia).
  assert (Q : 2 ^ 1 <= 2 ^ (ey - ex)) by (apply Z.pow_le_mono_r; lia).
  replace (2 ^ prec) with (2 ^ (prec - 1) * 2 ^ 1) in P
    by (rewrite <- Z.pow_add_r by (unfold prec; lia); f_equal; lia).
  nia.
Qed.

Lemma nonneg_normalize m e :
  SpecFloat.emin prec emax <= e ->
  SFleb (S754_zero false) (binary_normalize prec emax m e false) = (0 <=? m).
Proof.
  intros He. destruct m as [|p|p]; cbn [binary_normalize]; trivial.
  - destruct (binary_round_sign prec emax eq_refl false p e He) as [(q & e' & ->)| ->];
      reflexivity.
  - destruct (binary_round_sign prec emax eq_refl true p e He) as [(q & e' & ->)| ->];
      reflexivity.
Qed.

Lemma SFleb_finite sy my ey sx mx ex :
  bounded prec emax mx ex = true -> bounded prec emax my ey = true ->
  SFleb (S754_finite sy my ey) (S754_finite sx mx ex)
  = (cond_Zopp sy (Zpos my * 2 ^ (ey - Z.min ex ey))
     <=? cond_Zopp sx (Zpos mx * 2 ^ (ex - Z.min ex ey))).
Proof.
  intros Bx By. unfold SFleb, SFcompare.
  assert (Px : 0 < 2 ^ (ex - Z.min ex ey)) by (apply Z.pow_pos_nonneg; lia).
  assert (Py : 0 < 2 ^ (ey - Z.min ex ey)) by (apply Z.pow_pos_nonneg; lia).
  destruct sy, sx; cbn [cond_Zopp].
  - destruct (Z.compare_spec ey ex) as [E|L|G].
    + subst ey. rewrite Z.min_id, Z.sub_diag, !Z.mul_1_r.
      change (Pos.compare_cont Eq my mx) with (Pos.compare my mx).
      rewrite Pos2Z.inj_compare.
      destruct (Z.compare_spec (Zpos my) (Zpos mx)); cbn [CompOpp];
        symmetry; [apply Z.leb_le | apply Z.leb_gt | apply Z.leb_le]; lia.
    + pose proof (exponent_order _ _ _ _ By Bx L).
      rewrite Z.min_r, Z.sub_diag, Z.mul_1_r by lia. symmetry. apply Z.leb_gt. lia.
    + pose proof (exponent_order _ _ _ _ Bx By G).
      rewrite Z.min_l, Z.sub_diag, Z.mul_1_r by lia. symmetry. apply Z.leb_le. lia.
  - symmetry. apply Z.leb_le. nia.
  - symmetry. apply Z.leb_gt. nia.
  - destruct (Z.compare_spec ey ex) as [E|L|G].
    + subst ey. rewrite Z.min_id, Z.sub_diag, !Z.mul_1_r.
      change (Pos.compare_cont Eq my mx) with (Pos.compare my mx).
      rewrite Pos2Z.inj_compare.
      destruct (Z.compare_spec (Zpos my) (Zpos mx));
        symmetry; [apply Z.leb_le | apply Z.leb_le | apply Z.leb_gt]; lia.
    + pose proof (exponent_order _ _ _ _ By Bx L).
      rewrite Z.min_r, Z.sub_diag, Z.mul_1_r by lia. symmetry. apply Z.leb_le. lia.
    + pose proof (exponent_order _ _ _ _ Bx By G).
      rewrite Z.min_l, Z.sub_diag, Z.mul_1_r by lia. symmetry. apply Z.leb_gt. lia.
Qed.

(** A difference of finite numbers is at least [0] exactly when the number
    subtracted is at most the other. *)
Lemma SFsub_nonneg x y :
  valid_binary x = true -> valid_binary y = true -> Binary64.finite x -> Binary64.finite y ->
  SFleb (S754_zero false) (SF64sub x y) = SFleb y x.
Proof.
  intros Vx Vy Fx Fy.
  destruct x as [sx|sx| |sx mx ex], y as [sy|sy| |sy my ey]; try contradiction.
  - destruct sx, sy; reflexivity.
  - destruct sy; reflexivity.
  - destruct sx; reflexivity.
  - cbn [valid_binary] in Vx, Vy. unfold SF64sub, SFsub.
    destruct (bounded_digits _ _ Vx) as (Ex & _). destruct (bounded_digits _ _ Vy) as (Ey & _).
    rewrite nonneg_normalize by lia.
    rewrite !shl_align_value by lia.
    rewrite SFleb_finite by trivial.
    destruct (Z.leb_spec 0 (cond_Zopp sx (Zpos mx * 2 ^ (ex - Z.min ex ey))
                            - cond_Zopp sy (Zpos my * 2 ^ (ey - Z.min ex ey))));
      symmetry; [apply Z.leb_le | apply Z.leb_gt]; lia.
Qed.

Lemma sub_nonneg x y :
  PrimFloat.is_nan x = false -> PrimFloat.is_infinity x = false ->
  PrimFloat.is_nan y = false -> PrimFloat.is_infinity y = false ->
  PrimFloat.leb Js.zero (PrimFloat.sub x y) = PrimFloat.leb y x.
Proof.
  intros Nx Ix Ny Iy.
  unfold Js.zero. rewrite !FloatAxioms.leb_spec, FloatAxioms.sub_spec, Prim2SF_zero.
  assert (F : forall z, PrimFloat.is_nan z = false -> PrimFloat.is_infinity z = false ->
                Binary64.finite (Prim2SF z)).
  { intros z N I. destruct (Prim2SF z) as [s|s| |s m e] eqn:E; cbn; trivial.
    - assert (PrimFloat.is_infinity z = true) by (apply is_infinity_Prim2SF; eauto). congruence.
    - assert (PrimFloat.is_nan z = true) by (now apply is_nan_Prim2SF). congruence. }
  apply SFsub_nonneg; auto using FloatAxioms.Prim2SF_valid.
Qed.

(** X17. When the two totals of the current-month dashboard are finite, the
    balance is shown in green exactly when the expenses are at most the
    income, and in red otherwise: the rounded difference never has the wrong
    sign. *)
Theorem legacy_balance_green_iff_income_covers_expenses :
  forall stn fc fd T L w,
    Legacy.stats w = Legacy.newStats stn T L -> Legacy.loading w = false ->
    let s := Legacy.stats w in
    PrimFloat.is_nan (Legacy.totalReceitas s) = false ->
    PrimFloat.is_infinity (Legacy.totalReceitas s) = false ->
    PrimFloat.is_nan (Legacy.totalDespesas s) = false ->
    PrimFloat.is_infinity (Legacy.totalDespesas s) = false ->
    exists r d b ts ls,
      LegacyView.render stn fc fd w
      = LegacyView.Content r d b
          (if PrimFloat.leb (Legacy.totalDespesas s) (Legacy.totalReceitas s)
           then LegacyView.Green else LegacyView.Red) ts ls.
Proof.
  intros stn fc fd T L w Hs Hl s Nr Ir Nd Id.
  unfold LegacyView.render. rewrite Hl. fold s.
  assert (B : Legacy.saldo s
              = PrimFloat.sub (Legacy.totalReceitas s) (Legacy.totalDespesas s))
    by (unfold s; rewrite Hs; reflexivity).
  rewrite B, sub_nonneg by trivial. do 5 eexists. reflexivity.
Qed.

Lemma legacy_balance_green_iff_income_covers_expenses_witness :
  let T := [Examples.legacyRow 1 "2024-04-03" "2024-04-02" (Js.VNum 2.5%float)
              "receita" "user-a";
            Examples.legacyRow 2 "2024-04-04" "2024-04-03" (Js.VStr "12.5")
              "despesa" "user-a"] in
  let w := Legacy.mkWorld (Legacy.newStats Examples.decimal (Some T) None) false [] [] in
  exists r d b ts ls,
    LegacyView.render Examples.decimal (fun _ => ""%string) (fun _ => ""%string) w
    = LegacyView.Content r d b
        (if PrimFloat.leb (Legacy.totalDespesas (Legacy.stats w))
              (Legacy.totalReceitas (Legacy.stats w))
         then LegacyView.Green else LegacyView.Red) ts ls.
Proof.
  apply (legacy_balance_green_iff_income_covers_expenses Examples.decimal
           (fun _ => ""%string) (fun _ => ""%string)
           (Some [Examples.legacyRow 1 "2024-04-03" "2024-04-02" (Js.VNum 2.5%float)
                    "receita" "user-a";
                  Examples.legacyRow 2 "2024-04-04" "2024-04-03" (Js.VStr "12.5")
                    "despesa" "user-a"]) None);
    reflexivity.
Defined.

(** * What the current-month dashboard renders *)

(** X15. The current-month dashboard mounted without a user fetches
    nothing and renders the spinner, with no way out of it; mounted with a
    user it has left the spinner when its fetch has ended, whatever the
    gateway answered, with at most one toast. *)
Theorem legacy_spinner_until_the_fetch_ends :
  forall stn fc fd aT aL now now',
    (LegacyView.mount stn aT aL None now now' = (Legacy.initialWorld, [])
     /\ LegacyView.render stn fc fd (fst (LegacyView.mount stn aT aL None now now'))
        = LegacyView.Spinner)
    /\ forall u,
         let w := fst (LegacyView.mount stn aT aL (Some u) now now') in
         Legacy.loading w = false
         /\ LegacyView.render stn fc fd w <> LegacyView.Spinner
         /\ (Legacy.toasts w = [] \/ exists t, Legacy.toasts w = [t]).
Proof.
  intros stn fc fd aT aL now now'. split; [split; reflexivity|].
  intros u. unfold LegacyView.mount, Legacy.fetchDashboardData, Legacy.nowISO.
  unfold LegacyView.render.
  fetch_cases; repeat split; try discriminate; eauto.
Qed.

(** X16. In the list of recent transactions a row is shown with [+] and in
    green exactly when its kind is ['receita']; a row of any other kind than
    income and expense is shown with [-] and in red, like an expense, although
    it adds nothing to [totalDespesas]. *)
Theorem legacy_rows_other_than_income_shown_as_expense :
  forall stn fc fd T1 t T2 L,
    Spec.otherKind (Legacy.tipo t) = true ->
    LegacyView.sign (LegacyView.row stn fc fd t) = "-"%string
    /\ LegacyView.colour (LegacyView.row stn fc fd t) = LegacyView.Red
    /\ Legacy.totalDespesas (Legacy.newStats stn (Some (T1 ++ t :: T2)) L)
       = Legacy.totalDespesas (Legacy.newStats stn (Some (T1 ++ T2)) L)
    /\ forall t',
         (LegacyView.sign (LegacyView.row stn fc fd t') = "+"%string
          <-> Legacy.tipo t' = Some "receita"%string)
         /\ (LegacyView.colour (LegacyView.row stn fc fd t') = LegacyView.Green
             <-> Legacy.tipo t' = Some "receita"%string).
Proof.
  intros stn fc fd T1 t T2 L K. apply andb_prop in K as [K1 K2].
  apply negb_true_iff in K1, K2. cbn [LegacyView.row LegacyView.sign LegacyView.colour].
  rewrite K1. do 2 (split; [reflexivity|]). split.
  - cbn -[Legacy.total Legacy.porTipo]. now apply legacy_total_skip; right.
  - intros t'. unfold Js.strictEqStr. destruct (Legacy.tipo t') as [k|].
    + destruct (String.eqb_spec k "receita") as [->|N]; split; split;
        trivial; try discriminate; intros [= E]; contradiction.
    + split; split; discriminate.
Qed.

Lemma legacy_rows_other_than_income_shown_as_expense_witness :
  let t := Examples.legacyRow 9 "2024-04-03" "2024-04-02" (Js.VNum 5%float)
             "transferencia" "user-a" in
  LegacyView.sign (LegacyView.row Examples.decimal (fun _ => ""%string) (fun _ => ""%string) t)
  = "-"%string
  /\ LegacyView.colour
       (LegacyView.row Examples.decimal (fun _ => ""%string) (fun _ => ""%string) t)
     = LegacyView.Red
  /\ Legacy.totalDespesas (Legacy.newStats Examples.decimal (Some ([] ++ t :: [])) None)
     = Legacy.totalDespesas (Legacy.newStats Examples.decimal (Some ([] ++ [])) None)
  /\ forall t',
       (LegacyView.sign
          (LegacyView.row Examples.decimal (fun _ => ""%string) (fun _ => ""%string) t')
        = "+"%string
        <-> Legacy.tipo t' = Some "receita"%string)
       /\ (LegacyView.colour
             (LegacyView.row Examples.decimal (fun _ => ""%string) (fun _ => ""%string) t')
           = LegacyView.Green
           <-> Legacy.tipo t' = Some "receita"%string).
Proof.
  apply (legacy_rows_other_than_income_shown_as_expense Examples.decimal
           (fun _ => ""%string) (fun _ => ""%string) []
           (Examples.legacyRow 9 "2024-04-03" "2024-04-02" (Js.VNum 5%float)
              "transferencia" "user-a") [] None).
  reflexivity.
Defined.

(** * The month of the current-month dashboard *)

(** [MakeDay] gives back the day of a time value from its year, month and date. *)
Lemma MakeDay_of_ymd t :
  JsDate.MakeDay (JsDate.YearFromTime t) (JsDate.MonthFromTime t) (JsDate.DateFromTime t)
  = JsDate.Day t.
Proof.
  pose proof (month_date_range t) as [Hm _].
  rewrite MakeDay_in_year by trivial.
  unfold JsDate.DateFromTime, JsDate.DayWithinYear.
  fold (JsDate.InLeapYear t). lia.
Qed.

(** X18. The current-month dashboard takes its month from the UTC date of the
    clock: from the call of [fetchDashboardData] to its first [await]. When the local date is the last day of a month and the UTC date is
    already the day after (the evening, in a zone behind UTC), the two bounds
    of the transactions query are the first day and the literal day 31 of the
    following month, not of the local month. *)
Theorem legacy_queries_the_utc_month :
  forall stn user off now now' w,
    let local := now + off in
    let Y := JsDate.YearFromTime local in
    let M := JsDate.MonthFromTime local in
    Z.abs now <= 8640000000000000 -> 0 <= Y <= 9998 ->
    JsDate.DateFromTime local = Spec.daysInMonth Y M ->
    JsDate.Day now = JsDate.Day local + 1 ->
    exists q k,
      Async.advance Legacy.act (Legacy.fetchDashboardData stn user now now') w
      = (Legacy.act (Legacy.SetLoading true) w, Async.OnT q k)
      /\ Gateway.filters q
         = [Gateway.FEq "userid" (Auth.idOf user);
            Gateway.FGte "quando"
              (JsDate.isoYMD (fst (Zones.nextMonth Y M)) (snd (Zones.nextMonth Y M) + 1) 1);
            Gateway.FLte "quando"
              (JsDate.isoYMD (fst (Zones.nextMonth Y M)) (snd (Zones.nextMonth Y M) + 1) 31)].
Proof.
  intros stn user off now now' w local Y M Hn Hy Hd Hday.
  pose proof (month_date_range local) as [Hm _]. fold M in Hm.
  assert (N : 0 <= fst (Zones.nextMonth Y M) <= 9999
              /\ 0 <= snd (Zones.nextMonth Y M) <= 11)
    by (unfold Zones.nextMonth; destruct (Z.eqb_spec M 11); cbn; lia).
  pose proof (daysInMonth_range (fst (Zones.nextMonth Y M)) (snd (Zones.nextMonth Y M))).
  assert (E : JsDate.Day now
              = JsDate.MakeDay (fst (Zones.nextMonth Y M)) (snd (Zones.nextMonth Y M)) 1).
  { rewrite <- MakeDay_next by trivial. rewrite (MakeDay_date Y (M + 1) 1).
    rewrite MakeDay_last by trivial. rewrite <- Hd. unfold Y, M.
    rewrite MakeDay_of_ymd. exact Hday. }
  destruct (ymd_of_MakeDay (fst (Zones.nextMonth Y M)) (snd (Zones.nextMonth Y M)) 1 now
              ltac:(lia) ltac:(lia) E) as (Yn & Mn & _).
  destruct (legacy_month_bounds now Hn ltac:(lia)) as (iso & I & B1 & B31).
  destruct (legacy_fetch_first_query stn user now now' iso I) as (k & A).
  eexists _, k. split; [apply A|].
  rewrite <- Yn, <- Mn, <- B1, <- B31. reflexivity.
Qed.

Lemma legacy_queries_the_utc_month_witness :
  exists q k,
    Async.advance Legacy.act
      (Legacy.fetchDashboardData Examples.decimal (Some Examples.userA)
         1714525200000 1714525200000) Legacy.initialWorld
    = (Legacy.act (Legacy.SetLoading true) Legacy.initialWorld, Async.OnT q k)
    /\ Gateway.filters q
       = [Gateway.FEq "userid" (Auth.idOf (Some Examples.userA));
          Gateway.FGte "quando"
            (JsDate.isoYMD
               (fst (Zones.nextMonth (JsDate.YearFromTime (1714525200000 + -10800000))
                       (JsDate.MonthFromTime (1714525200000 + -10800000))))
               (snd (Zones.nextMonth (JsDate.YearFromTime (1714525200000 + -10800000))
                       (JsDate.MonthFromTime (1714525200000 + -10800000))) + 1) 1);
          Gateway.FLte "quando"
            (JsDate.isoYMD
               (fst (Zones.nextMonth (JsDate.YearFromTime (1714525200000 + -10800000))
                       (JsDate.MonthFromTime (1714525200000 + -10800000))))
               (snd (Zones.nextMonth (JsDate.YearFromTime (1714525200000 + -10800000))
                       (JsDate.MonthFromTime (1714525200000 + -10800000))) + 1) 31)].
Proof.
  apply (legacy_queries_the_utc_month Examples.decimal (Some Examples.userA) (-10800000)
           1714525200000 1714525200000 Legacy.initialWorld);
    vm_compute; try reflexivity; try discriminate; split; discriminate.
Defined.

Example legacy_evening_of_april_30 :
  JsDate.toISOString (JsDate.TimeClip (1714525200000 + -10800000))
  = inl "2024-04-30T22:00:00.000Z"%string
  /\ JsDate.toISOString (JsDate.TimeClip 1714525200000) = inl "2024-05-01T01:00:00.000Z"%string.
Proof. vm_compute. split; reflexivity. Qed.

(** * The two queries of one fetch *)

(** X19. In the month/year dashboard the reminders query of a fetch carries
    the owner and the two date bounds of its transactions query: the
    reminders fetched are those due within the range of the selected month,
    not those from today on. *)
Theorem reminders_share_the_range_of_transactions :
  forall tz aT aL user fm fy w,
    let '(_, issued, _) :=
      Async.exec Pages.act aT aL (Pages.fetchDashboardData tz user fm fy) w [] in
    match issued with
    | [] => True
    | qt :: rest =>
        exists uid desde ate,
          Auth.truthyId user = Some uid
          /\ Spec.pagesRange tz fm fy = Some (desde, ate)
          /\ qt = Pages.transacoesQuery uid desde ate
          /\ (rest = [] \/ rest = [Pages.lembretesQuery uid desde ate])
    end.
Proof.
  intros tz aT aL user fm fy w. unfold Pages.fetchDashboardData, Spec.pagesRange, Spec.isoDayOf.
  destruct (Auth.truthyId user) as [uid|]; [|exact I].
  unfold Pages.isoDay.
  destruct (JsDate.toISOString (JsDate.construct tz fy fm 1 0 0 0)) as [s|msg];
    destruct (JsDate.toISOString (JsDate.construct tz fy (fm + 1) 0 23 59 59)) as [e|msg'];
    cbn -[Pages.newStats Pages.transacoesQuery Pages.lembretesQuery Js.splitHead
          Pages.errorToast]; trivial.
  destruct (Gateway.error (aT _));
    cbn -[Pages.newStats Pages.transacoesQuery Pages.lembretesQuery Js.splitHead
          Pages.errorToast].
  - exists uid, (Js.splitHead "T" s), (Js.splitHead "T" e). auto.
  - destruct (Gateway.error (aL _));
      cbn -[Pages.newStats Pages.transacoesQuery Pages.lembretesQuery Js.splitHead
            Pages.errorToast];
      exists uid, (Js.splitHead "T" s), (Js.splitHead "T" e); auto.
Qed.
